(** * BcmWarmBootCache: the hardware state cache of the warm boot path

    A shallow embedding of [fboss/agent/hw/bcm/BcmWarmBootCache.cpp]:
    the maps that hold the objects found in the ASIC after a warm boot,
    the loader of the persisted state, the traversal callbacks that fill
    the maps, the reconstruction of the software views and the teardown
    [clear] that deletes whatever nobody claimed.

    Conventions.
    - C integers are [Z]; the SDK's unsigned flag words are [Z] with
      [Z.land]; a test [x & FLAG] in a condition is [Z.land x FLAG ≠ 0].
    - [boost::container::flat_map] is [gmap], [flat_set] is [gset]. The
      claims below never depend on the order in which one map is visited,
      only on the order of the loops; a loop over a map visits
      [map_to_list] of it.
    - A function that can [throw], hit a [CHECK] or [LOG(FATAL)], or
      dereference a null pointer returns [Res]. *)

From stdpp Require Import gmap strings list fin_maps fin_sets sorting pretty.
From Stdlib Require Import ZArith.

Set Default Proof Using "Type".

(** ** Outcomes *)

(** C++ exceptions that cross the functions of this file. *)
Inductive Exn :=
  | FbossError (msg : string)      (* facebook::fboss::FbossError *)
  | DynamicError (msg : string).   (* folly::TypeError / std::out_of_range of folly::dynamic *)

(** Ways in which the process stops. *)
Inductive Fatal :=
  | CheckFailed (what : string)    (* CHECK(...) of glog *)
  | LogFatal (what : string)       (* LOG(FATAL) *)
  | NullDeref.                     (* operator-> on a null shared_ptr *)

Inductive Res (A : Type) :=
  | Ok (a : A)
  | Throw (e : Exn)
  | Abort (f : Fatal).
Arguments Ok {A} a.
Arguments Throw {A} e.
Arguments Abort {A} f.

#[global] Instance Exn_eq_dec : EqDecision Exn.
Proof. solve_decision. Defined.
#[global] Instance Fatal_eq_dec : EqDecision Fatal.
Proof. solve_decision. Defined.

#[global] Instance Res_ret : MRet Res := λ A a, Ok a.
#[global] Instance Res_bind : MBind Res := λ A B f m,
  match m with
  | Ok a => f a
  | Throw e => Throw e
  | Abort x => Abort x
  end.

(** A loop [for (x : l) body(x)] whose body may stop the function. *)
Fixpoint forM {A S : Type} (body : A → S → Res S) (l : list A) (s : S) : Res S :=
  match l with
  | [] => Ok s
  | x :: l' => s' ← body x s; forM body l' s'
  end.

(** ** Value types *)

Abbreviation EgressId := Z (only parsing).      (* opennsl_if_t *)
Abbreviation EgressIds := (gset Z) (only parsing). (* flat_set<EgressId> *)
Abbreviation VlanID := Z (only parsing).
Abbreviation InterfaceID := Z (only parsing).
Abbreviation RouterID := Z (only parsing).
Abbreviation PortID := Z (only parsing).
Abbreviation opennsl_vrf_t := Z (only parsing).
Abbreviation MacAddress := Z (only parsing).     (* six bytes, as a 48-bit number *)
Abbreviation opennsl_pbmp_t := (gset Z) (only parsing). (* port bitmap: the set of its ports *)

(** [folly::IPAddress]: a v4 address is its 32-bit host-order value, a v6
    address the 128-bit number of its sixteen bytes in network order. *)
Inductive IPAddress :=
  | IPAddressV4 (a : Z)
  | IPAddressV6 (a : Z).

#[global] Instance IPAddress_eq_dec : EqDecision IPAddress.
Proof. solve_decision. Defined.
#[global] Instance IPAddress_countable : Countable IPAddress.
Proof.
  refine (inj_countable'
    (λ ip, match ip with IPAddressV4 a => inl a | IPAddressV6 a => inr a end)
    (λ s, match s with inl a => IPAddressV4 a | inr a => IPAddressV6 a end) _).
  by intros [].
Defined.

Definition isV4 (ip : IPAddress) : bool :=
  match ip with IPAddressV4 _ => true | IPAddressV6 _ => false end.
Definition isV6 (ip : IPAddress) : bool := negb (isV4 ip).
Definition fromLongHBO (a : Z) : IPAddress := IPAddressV4 a.
(** [IPAddress::fromBinary] of the sixteen bytes of an [opennsl_ip6_t]. *)
Definition fromBinary (a : Z) : IPAddress := IPAddressV6 a.

(** [IPAddressV4::fetchMask(32)] and [IPAddressV6::fetchMask(128)]. *)
Definition getFullMaskIPv4Address : IPAddress := IPAddressV4 (2 ^ 32 - 1).
Definition getFullMaskIPv6Address : IPAddress := IPAddressV6 (2 ^ 128 - 1).

(** ** Constants of headers that are not part of the sources

    The flag bits of the SDK's [l3.h] and [BcmEgressBase::INVALID] are
    taken as parameters. *)
Class SdkConsts := {
  OPENNSL_L3_IP6 : Z;
  OPENNSL_L3_DST_DISCARD : Z;
  OPENNSL_L3_L2TOCPU : Z;
  OPENNSL_L3_COPY_TO_CPU : Z;
  INVALID : Z;
}.

(** An instance for the closed examples: four distinct flag bits, and -1
    for the INVALID id. *)
Definition opennsl_consts : SdkConsts := {|
  OPENNSL_L3_IP6 := 2 ^ 17;
  OPENNSL_L3_DST_DISCARD := 2 ^ 20;
  OPENNSL_L3_L2TOCPU := 2 ^ 12;
  OPENNSL_L3_COPY_TO_CPU := 2 ^ 23;
  INVALID := -1;
|}.

(** [x & flag] used as a condition. *)
Definition flag_set (x flag : Z) : bool := negb (Z.land x flag =? 0)%Z.

(** [OPENNSL_FAILURE(rv)]: the SDK's error codes are the negative ones. *)
Definition OPENNSL_FAILURE (rv : Z) : bool := (rv <? 0)%Z.

(** ** The SDK's records (the fields this file reads) *)

Module Route.
Record t := {
    l3a_flags : Z;
    l3a_vrf : opennsl_vrf_t;
    l3a_subnet : Z;      (* v4 prefix, host order *)
    l3a_ip_mask : Z;     (* v4 mask, host order *)
    l3a_ip6_net : Z;     (* v6 prefix *)
    l3a_ip6_mask : Z;    (* v6 mask *)
    l3a_intf : EgressId;
}.
End Route.

Module Host.
Record t := {
    l3a_flags : Z;
    l3a_vrf : opennsl_vrf_t;
    l3a_ip_addr : Z;
    l3a_ip6_addr : Z;
    l3a_intf : EgressId;
}.
End Host.

Module Egress.
Record t := {
    flags : Z;
    vlan : VlanID;
    intf : Z;
    mac_addr : MacAddress;
    port : PortID;
}.
End Egress.

Module Ecmp.
Record t := {
    ecmp_intf : EgressId;
    max_paths : Z;
}.
End Ecmp.

Module L3Intf.
Record t := {
    l3a_vid : VlanID;
    l3a_vrf : opennsl_vrf_t;
    l3a_mtu : Z;
    l3a_mac_addr : MacAddress;
}.
End L3Intf.

Module Station.
Record t := {
    dst_mac : MacAddress;
    vlan : VlanID;
}.
End Station.

#[global] Instance Route_eq_dec : EqDecision Route.t.
Proof. solve_decision. Defined.
#[global] Instance Host_eq_dec : EqDecision Host.t.
Proof. solve_decision. Defined.
#[global] Instance Egress_eq_dec : EqDecision Egress.t.
Proof. solve_decision. Defined.
#[global] Instance Ecmp_eq_dec : EqDecision Ecmp.t.
Proof. solve_decision. Defined.
#[global] Instance L3Intf_eq_dec : EqDecision L3Intf.t.
Proof. solve_decision. Defined.
#[global] Instance Station_eq_dec : EqDecision Station.t.
Proof. solve_decision. Defined.

(** Modelled from the spec: [BcmWarmBootCache::VlanInfo] of the header,
    "tagged/untagged port sets, bound interface id". *)
Record VlanInfo := {
  vi_vlan : VlanID;
  untagged : opennsl_pbmp_t;
  allPorts : opennsl_pbmp_t;
  intfID : InterfaceID;
}.

(** ** The software state of the persisted snapshot

    [SwitchState] and its node maps are declared in [fboss/agent/state],
    which is not part of the sources; the records below hold what this
    file reads and writes. A [shared_ptr] that the code tests or
    dereferences is an [option]. *)

Inductive NeighborState := UNVERIFIED | PENDING | REACHABLE.

Record NeighborEntry := {
  ne_mac : option MacAddress;     (* none for a pending entry *)
  ne_port : PortID;
  ne_intf : InterfaceID;
  ne_state : NeighborState;
}.

Record Interface := {
  if_id : InterfaceID;
  if_router : RouterID;
  if_vlan : VlanID;
  if_name : string;
  if_mac : MacAddress;
  if_mtu : Z;
  if_addresses : gmap IPAddress Z;
}.

Record Vlan := {
  vl_id : VlanID;
  vl_name : string;
  vl_ports : gmap Z bool;          (* PortID to "tagged" *)
  vl_intf : InterfaceID;
  getArpTable : gmap Z NeighborEntry;   (* keyed by the v4 address *)
  getNdpTable : gmap Z NeighborEntry;   (* keyed by the v6 address *)
}.

Record SwitchState := {
  getInterfaces : option (gmap Z Interface);
  getVlans : option (gmap Z Vlan);
}.

(** ** The cache *)

Record BcmPlatform := {
  canUseHostTableForHostRoutes : bool;
}.

Record BcmWarmBootCache := {
  platform : BcmPlatform;          (* hw_->getPlatform() *)
  vlan2VlanInfo_ : gmap Z VlanInfo;
  vlan2Station_ : gmap Z Station.t;
  vlanAndMac2Intf_ : gmap (Z * Z) L3Intf.t;
  vrfIp2Host_ : gmap (Z * IPAddress) Host.t;
  vrfPrefix2Route_ : gmap (Z * IPAddress * IPAddress) Route.t;
  vrfAndIP2Route_ : gmap (Z * IPAddress) Route.t;
  egressId2EgressAndBool_ : gmap Z (Egress.t * bool);
  egressIds2Ecmp_ : gmap (gset Z) Ecmp.t;
  egressOrEcmpIdsFromHostTable_ : gset Z;
  hwSwitchEcmp2EgressIds_ : gmap Z (gset Z);
  hwSwitchEcmp2EgressIdsPopulated_ : bool;
  dropEgressId_ : EgressId;
  toCPUEgressId_ : EgressId;
  dumpedSwSwitchState_ : option SwitchState;
}.

(** Field updates. *)
Definition set_vlan2VlanInfo (f : gmap Z VlanInfo → gmap Z VlanInfo) (c : BcmWarmBootCache) :=
  {| platform := platform c; vlan2VlanInfo_ := f (vlan2VlanInfo_ c);
     vlan2Station_ := vlan2Station_ c; vlanAndMac2Intf_ := vlanAndMac2Intf_ c;
     vrfIp2Host_ := vrfIp2Host_ c; vrfPrefix2Route_ := vrfPrefix2Route_ c;
     vrfAndIP2Route_ := vrfAndIP2Route_ c;
     egressId2EgressAndBool_ := egressId2EgressAndBool_ c;
     egressIds2Ecmp_ := egressIds2Ecmp_ c;
     egressOrEcmpIdsFromHostTable_ := egressOrEcmpIdsFromHostTable_ c;
     hwSwitchEcmp2EgressIds_ := hwSwitchEcmp2EgressIds_ c;
     hwSwitchEcmp2EgressIdsPopulated_ := hwSwitchEcmp2EgressIdsPopulated_ c;
     dropEgressId_ := dropEgressId_ c; toCPUEgressId_ := toCPUEgressId_ c;
     dumpedSwSwitchState_ := dumpedSwSwitchState_ c |}.
Definition set_vlan2Station (f : gmap Z Station.t → gmap Z Station.t) (c : BcmWarmBootCache) :=
  {| platform := platform c; vlan2VlanInfo_ := vlan2VlanInfo_ c;
     vlan2Station_ := f (vlan2Station_ c); vlanAndMac2Intf_ := vlanAndMac2Intf_ c;
     vrfIp2Host_ := vrfIp2Host_ c; vrfPrefix2Route_ := vrfPrefix2Route_ c;
     vrfAndIP2Route_ := vrfAndIP2Route_ c;
     egressId2EgressAndBool_ := egressId2EgressAndBool_ c;
     egressIds2Ecmp_ := egressIds2Ecmp_ c;
     egressOrEcmpIdsFromHostTable_ := egressOrEcmpIdsFromHostTable_ c;
     hwSwitchEcmp2EgressIds_ := hwSwitchEcmp2EgressIds_ c;
     hwSwitchEcmp2EgressIdsPopulated_ := hwSwitchEcmp2EgressIdsPopulated_ c;
     dropEgressId_ := dropEgressId_ c; toCPUEgressId_ := toCPUEgressId_ c;
     dumpedSwSwitchState_ := dumpedSwSwitchState_ c |}.
Definition set_vlanAndMac2Intf (f : gmap (Z * Z) L3Intf.t → gmap (Z * Z) L3Intf.t) (c : BcmWarmBootCache) :=
  {| platform := platform c; vlan2VlanInfo_ := vlan2VlanInfo_ c;
     vlan2Station_ := vlan2Station_ c; vlanAndMac2Intf_ := f (vlanAndMac2Intf_ c);
     vrfIp2Host_ := vrfIp2Host_ c; vrfPrefix2Route_ := vrfPrefix2Route_ c;
     vrfAndIP2Route_ := vrfAndIP2Route_ c;
     egressId2EgressAndBool_ := egressId2EgressAndBool_ c;
     egressIds2Ecmp_ := egressIds2Ecmp_ c;
     egressOrEcmpIdsFromHostTable_ := egressOrEcmpIdsFromHostTable_ c;
     hwSwitchEcmp2EgressIds_ := hwSwitchEcmp2EgressIds_ c;
     hwSwitchEcmp2EgressIdsPopulated_ := hwSwitchEcmp2EgressIdsPopulated_ c;
     dropEgressId_ := dropEgressId_ c; toCPUEgressId_ := toCPUEgressId_ c;
     dumpedSwSwitchState_ := dumpedSwSwitchState_ c |}.
Definition set_vrfIp2Host (f : gmap (Z * IPAddress) Host.t → gmap (Z * IPAddress) Host.t) (c : BcmWarmBootCache) :=
  {| platform := platform c; vlan2VlanInfo_ := vlan2VlanInfo_ c;
     vlan2Station_ := vlan2Station_ c; vlanAndMac2Intf_ := vlanAndMac2Intf_ c;
     vrfIp2Host_ := f (vrfIp2Host_ c); vrfPrefix2Route_ := vrfPrefix2Route_ c;
     vrfAndIP2Route_ := vrfAndIP2Route_ c;
     egressId2EgressAndBool_ := egressId2EgressAndBool_ c;
     egressIds2Ecmp_ := egressIds2Ecmp_ c;
     egressOrEcmpIdsFromHostTable_ := egressOrEcmpIdsFromHostTable_ c;
     hwSwitchEcmp2EgressIds_ := hwSwitchEcmp2EgressIds_ c;
     hwSwitchEcmp2EgressIdsPopulated_ := hwSwitchEcmp2EgressIdsPopulated_ c;
     dropEgressId_ := dropEgressId_ c; toCPUEgressId_ := toCPUEgressId_ c;
     dumpedSwSwitchState_ := dumpedSwSwitchState_ c |}.
Definition set_vrfPrefix2Route
    (f : gmap (Z * IPAddress * IPAddress) Route.t → gmap (Z * IPAddress * IPAddress) Route.t)
    (c : BcmWarmBootCache) :=
  {| platform := platform c; vlan2VlanInfo_ := vlan2VlanInfo_ c;
     vlan2Station_ := vlan2Station_ c; vlanAndMac2Intf_ := vlanAndMac2Intf_ c;
     vrfIp2Host_ := vrfIp2Host_ c; vrfPrefix2Route_ := f (vrfPrefix2Route_ c);
     vrfAndIP2Route_ := vrfAndIP2Route_ c;
     egressId2EgressAndBool_ := egressId2EgressAndBool_ c;
     egressIds2Ecmp_ := egressIds2Ecmp_ c;
     egressOrEcmpIdsFromHostTable_ := egressOrEcmpIdsFromHostTable_ c;
     hwSwitchEcmp2EgressIds_ := hwSwitchEcmp2EgressIds_ c;
     hwSwitchEcmp2EgressIdsPopulated_ := hwSwitchEcmp2EgressIdsPopulated_ c;
     dropEgressId_ := dropEgressId_ c; toCPUEgressId_ := toCPUEgressId_ c;
     dumpedSwSwitchState_ := dumpedSwSwitchState_ c |}.
Definition set_vrfAndIP2Route (f : gmap (Z * IPAddress) Route.t → gmap (Z * IPAddress) Route.t) (c : BcmWarmBootCache) :=
  {| platform := platform c; vlan2VlanInfo_ := vlan2VlanInfo_ c;
     vlan2Station_ := vlan2Station_ c; vlanAndMac2Intf_ := vlanAndMac2Intf_ c;
     vrfIp2Host_ := vrfIp2Host_ c; vrfPrefix2Route_ := vrfPrefix2Route_ c;
     vrfAndIP2Route_ := f (vrfAndIP2Route_ c);
     egressId2EgressAndBool_ := egressId2EgressAndBool_ c;
     egressIds2Ecmp_ := egressIds2Ecmp_ c;
     egressOrEcmpIdsFromHostTable_ := egressOrEcmpIdsFromHostTable_ c;
     hwSwitchEcmp2EgressIds_ := hwSwitchEcmp2EgressIds_ c;
     hwSwitchEcmp2EgressIdsPopulated_ := hwSwitchEcmp2EgressIdsPopulated_ c;
     dropEgressId_ := dropEgressId_ c; toCPUEgressId_ := toCPUEgressId_ c;
     dumpedSwSwitchState_ := dumpedSwSwitchState_ c |}.
Definition set_egressId2EgressAndBool
    (f : gmap Z (Egress.t * bool) → gmap Z (Egress.t * bool)) (c : BcmWarmBootCache) :=
  {| platform := platform c; vlan2VlanInfo_ := vlan2VlanInfo_ c;
     vlan2Station_ := vlan2Station_ c; vlanAndMac2Intf_ := vlanAndMac2Intf_ c;
     vrfIp2Host_ := vrfIp2Host_ c; vrfPrefix2Route_ := vrfPrefix2Route_ c;
     vrfAndIP2Route_ := vrfAndIP2Route_ c;
     egressId2EgressAndBool_ := f (egressId2EgressAndBool_ c);
     egressIds2Ecmp_ := egressIds2Ecmp_ c;
     egressOrEcmpIdsFromHostTable_ := egressOrEcmpIdsFromHostTable_ c;
     hwSwitchEcmp2EgressIds_ := hwSwitchEcmp2EgressIds_ c;
     hwSwitchEcmp2EgressIdsPopulated_ := hwSwitchEcmp2EgressIdsPopulated_ c;
     dropEgressId_ := dropEgressId_ c; toCPUEgressId_ := toCPUEgressId_ c;
     dumpedSwSwitchState_ := dumpedSwSwitchState_ c |}.
Definition set_egressIds2Ecmp (f : gmap (gset Z) Ecmp.t → gmap (gset Z) Ecmp.t) (c : BcmWarmBootCache) :=
  {| platform := platform c; vlan2VlanInfo_ := vlan2VlanInfo_ c;
     vlan2Station_ := vlan2Station_ c; vlanAndMac2Intf_ := vlanAndMac2Intf_ c;
     vrfIp2Host_ := vrfIp2Host_ c; vrfPrefix2Route_ := vrfPrefix2Route_ c;
     vrfAndIP2Route_ := vrfAndIP2Route_ c;
     egressId2EgressAndBool_ := egressId2EgressAndBool_ c;
     egressIds2Ecmp_ := f (egressIds2Ecmp_ c);
     egressOrEcmpIdsFromHostTable_ := egressOrEcmpIdsFromHostTable_ c;
     hwSwitchEcmp2EgressIds_ := hwSwitchEcmp2EgressIds_ c;
     hwSwitchEcmp2EgressIdsPopulated_ := hwSwitchEcmp2EgressIdsPopulated_ c;
     dropEgressId_ := dropEgressId_ c; toCPUEgressId_ := toCPUEgressId_ c;
     dumpedSwSwitchState_ := dumpedSwSwitchState_ c |}.
Definition set_egressOrEcmpIdsFromHostTable (f : gset Z → gset Z) (c : BcmWarmBootCache) :=
  {| platform := platform c; vlan2VlanInfo_ := vlan2VlanInfo_ c;
     vlan2Station_ := vlan2Station_ c; vlanAndMac2Intf_ := vlanAndMac2Intf_ c;
     vrfIp2Host_ := vrfIp2Host_ c; vrfPrefix2Route_ := vrfPrefix2Route_ c;
     vrfAndIP2Route_ := vrfAndIP2Route_ c;
     egressId2EgressAndBool_ := egressId2EgressAndBool_ c;
     egressIds2Ecmp_ := egressIds2Ecmp_ c;
     egressOrEcmpIdsFromHostTable_ := f (egressOrEcmpIdsFromHostTable_ c);
     hwSwitchEcmp2EgressIds_ := hwSwitchEcmp2EgressIds_ c;
     hwSwitchEcmp2EgressIdsPopulated_ := hwSwitchEcmp2EgressIdsPopulated_ c;
     dropEgressId_ := dropEgressId_ c; toCPUEgressId_ := toCPUEgressId_ c;
     dumpedSwSwitchState_ := dumpedSwSwitchState_ c |}.
Definition set_hwSwitchEcmp2EgressIds (f : gmap Z (gset Z) → gmap Z (gset Z)) (c : BcmWarmBootCache) :=
  {| platform := platform c; vlan2VlanInfo_ := vlan2VlanInfo_ c;
     vlan2Station_ := vlan2Station_ c; vlanAndMac2Intf_ := vlanAndMac2Intf_ c;
     vrfIp2Host_ := vrfIp2Host_ c; vrfPrefix2Route_ := vrfPrefix2Route_ c;
     vrfAndIP2Route_ := vrfAndIP2Route_ c;
     egressId2EgressAndBool_ := egressId2EgressAndBool_ c;
     egressIds2Ecmp_ := egressIds2Ecmp_ c;
     egressOrEcmpIdsFromHostTable_ := egressOrEcmpIdsFromHostTable_ c;
     hwSwitchEcmp2EgressIds_ := f (hwSwitchEcmp2EgressIds_ c);
     hwSwitchEcmp2EgressIdsPopulated_ := hwSwitchEcmp2EgressIdsPopulated_ c;
     dropEgressId_ := dropEgressId_ c; toCPUEgressId_ := toCPUEgressId_ c;
     dumpedSwSwitchState_ := dumpedSwSwitchState_ c |}.
Definition set_hwSwitchEcmp2EgressIdsPopulated (b : bool) (c : BcmWarmBootCache) :=
  {| platform := platform c; vlan2VlanInfo_ := vlan2VlanInfo_ c;
     vlan2Station_ := vlan2Station_ c; vlanAndMac2Intf_ := vlanAndMac2Intf_ c;
     vrfIp2Host_ := vrfIp2Host_ c; vrfPrefix2Route_ := vrfPrefix2Route_ c;
     vrfAndIP2Route_ := vrfAndIP2Route_ c;
     egressId2EgressAndBool_ := egressId2EgressAndBool_ c;
     egressIds2Ecmp_ := egressIds2Ecmp_ c;
     egressOrEcmpIdsFromHostTable_ := egressOrEcmpIdsFromHostTable_ c;
     hwSwitchEcmp2EgressIds_ := hwSwitchEcmp2EgressIds_ c;
     hwSwitchEcmp2EgressIdsPopulated_ := b;
     dropEgressId_ := dropEgressId_ c; toCPUEgressId_ := toCPUEgressId_ c;
     dumpedSwSwitchState_ := dumpedSwSwitchState_ c |}.
Definition set_dropEgressId (id : EgressId) (c : BcmWarmBootCache) :=
  {| platform := platform c; vlan2VlanInfo_ := vlan2VlanInfo_ c;
     vlan2Station_ := vlan2Station_ c; vlanAndMac2Intf_ := vlanAndMac2Intf_ c;
     vrfIp2Host_ := vrfIp2Host_ c; vrfPrefix2Route_ := vrfPrefix2Route_ c;
     vrfAndIP2Route_ := vrfAndIP2Route_ c;
     egressId2EgressAndBool_ := egressId2EgressAndBool_ c;
     egressIds2Ecmp_ := egressIds2Ecmp_ c;
     egressOrEcmpIdsFromHostTable_ := egressOrEcmpIdsFromHostTable_ c;
     hwSwitchEcmp2EgressIds_ := hwSwitchEcmp2EgressIds_ c;
     hwSwitchEcmp2EgressIdsPopulated_ := hwSwitchEcmp2EgressIdsPopulated_ c;
     dropEgressId_ := id; toCPUEgressId_ := toCPUEgressId_ c;
     dumpedSwSwitchState_ := dumpedSwSwitchState_ c |}.
Definition set_toCPUEgressId (id : EgressId) (c : BcmWarmBootCache) :=
  {| platform := platform c; vlan2VlanInfo_ := vlan2VlanInfo_ c;
     vlan2Station_ := vlan2Station_ c; vlanAndMac2Intf_ := vlanAndMac2Intf_ c;
     vrfIp2Host_ := vrfIp2Host_ c; vrfPrefix2Route_ := vrfPrefix2Route_ c;
     vrfAndIP2Route_ := vrfAndIP2Route_ c;
     egressId2EgressAndBool_ := egressId2EgressAndBool_ c;
     egressIds2Ecmp_ := egressIds2Ecmp_ c;
     egressOrEcmpIdsFromHostTable_ := egressOrEcmpIdsFromHostTable_ c;
     hwSwitchEcmp2EgressIds_ := hwSwitchEcmp2EgressIds_ c;
     hwSwitchEcmp2EgressIdsPopulated_ := hwSwitchEcmp2EgressIdsPopulated_ c;
     dropEgressId_ := dropEgressId_ c; toCPUEgressId_ := id;
     dumpedSwSwitchState_ := dumpedSwSwitchState_ c |}.
Definition set_dumpedSwSwitchState (s : option SwitchState) (c : BcmWarmBootCache) :=
  {| platform := platform c; vlan2VlanInfo_ := vlan2VlanInfo_ c;
     vlan2Station_ := vlan2Station_ c; vlanAndMac2Intf_ := vlanAndMac2Intf_ c;
     vrfIp2Host_ := vrfIp2Host_ c; vrfPrefix2Route_ := vrfPrefix2Route_ c;
     vrfAndIP2Route_ := vrfAndIP2Route_ c;
     egressId2EgressAndBool_ := egressId2EgressAndBool_ c;
     egressIds2Ecmp_ := egressIds2Ecmp_ c;
     egressOrEcmpIdsFromHostTable_ := egressOrEcmpIdsFromHostTable_ c;
     hwSwitchEcmp2EgressIds_ := hwSwitchEcmp2EgressIds_ c;
     hwSwitchEcmp2EgressIdsPopulated_ := hwSwitchEcmp2EgressIdsPopulated_ c;
     dropEgressId_ := dropEgressId_ c; toCPUEgressId_ := toCPUEgressId_ c;
     dumpedSwSwitchState_ := s |}.

Section Cache.
Context `{!SdkConsts}.

(** The constructor: empty maps, both singleton egress ids unset. *)
Definition BcmWarmBootCache_new (p : BcmPlatform) : BcmWarmBootCache :=
  {| platform := p; vlan2VlanInfo_ := ∅; vlan2Station_ := ∅;
     vlanAndMac2Intf_ := ∅; vrfIp2Host_ := ∅; vrfPrefix2Route_ := ∅;
     vrfAndIP2Route_ := ∅; egressId2EgressAndBool_ := ∅;
     egressIds2Ecmp_ := ∅; egressOrEcmpIdsFromHostTable_ := ∅;
     hwSwitchEcmp2EgressIds_ := ∅;
     hwSwitchEcmp2EgressIdsPopulated_ := false;
     dropEgressId_ := INVALID; toCPUEgressId_ := INVALID;
     dumpedSwSwitchState_ := None |}.

(** *** ECMP paths *)

Definition getPathsForEcmp (cache : BcmWarmBootCache) (ecmp : EgressId) : Res EgressIds :=
  if hwSwitchEcmp2EgressIdsPopulated_ cache then
    if decide (hwSwitchEcmp2EgressIds_ cache = ∅) then
      (* we exited with no ECMP entries *)
      Ok ∅
    else
      match hwSwitchEcmp2EgressIds_ cache !! ecmp with
      | None => Throw (FbossError "Could not find ecmp ID")
      | Some ids => Ok ids
      end
  else Abort (CheckFailed "hwSwitchEcmp2EgressIdsPopulated_").

(** Modelled from the spec: the header's [toEgressIds] is not part of the
    sources; it turns "the hardware-reported member list", [count]
    entries of the array, into a set of egress ids. *)
Definition toEgressIds (intfArray : list EgressId) (count : Z) : EgressIds :=
  list_to_set (take (Z.to_nat count) intfArray).

(** The last three statements of the ECMP callback: both CHECKs and the
    insertion. *)
Definition recordEcmp (ecmp : Ecmp.t) (egressIds : EgressIds)
    (cache : BcmWarmBootCache) : Res BcmWarmBootCache :=
  if decide (size egressIds = 0) then
    Abort (CheckFailed "There must be at least one egress pointed to by the ecmp egress id")
  else if decide (is_Some (egressIds2Ecmp_ cache !! egressIds)) then
    Abort (CheckFailed "Got a duplicated call for ecmp id")
  else Ok (set_egressIds2Ecmp (<[egressIds := ecmp]>) cache).

(** The callback always returns 0, so the result is the next cache. In
    the first branch the set built from [intfArray] is only logged. *)
Definition ecmpEgressTraversalCallback (ecmp : Ecmp.t) (intfCount : Z)
    (intfArray : list EgressId) (cache : BcmWarmBootCache) : Res BcmWarmBootCache :=
  if hwSwitchEcmp2EgressIdsPopulated_ cache then
    match getPathsForEcmp cache (Ecmp.ecmp_intf ecmp) with
    | Ok egressIds => recordEcmp ecmp egressIds cache
    | Throw (FbossError msg) =>
        if decide (intfCount = 0%Z) then Ok cache else Throw (FbossError msg)
    | Throw e => Throw e
    | Abort f => Abort f
    end
  else
    if decide (intfCount = 0%Z) then Ok cache
    else recordEcmp ecmp (toEgressIds intfArray intfCount) cache.

(** *** Discovery callbacks *)

Definition hostTraversalCallback (host : Host.t) (cache : BcmWarmBootCache) : BcmWarmBootCache :=
  let ip := if flag_set (Host.l3a_flags host) OPENNSL_L3_IP6
            then fromBinary (Host.l3a_ip6_addr host)
            else fromLongHBO (Host.l3a_ip_addr host) in
  set_egressOrEcmpIdsFromHostTable (λ ids, {[Host.l3a_intf host]} ∪ ids)
    (set_vrfIp2Host (<[(Host.l3a_vrf host, ip) := host]>) cache).

Definition egressTraversalCallback (egressId : EgressId) (egress : Egress.t)
    (cache : BcmWarmBootCache) : Res BcmWarmBootCache :=
  if decide (is_Some (egressId2EgressAndBool_ cache !! egressId)) then
    Abort (CheckFailed "Double callback for egress id")
  else if decide (egressId ∈ egressOrEcmpIdsFromHostTable_ cache) then
    Ok (set_egressId2EgressAndBool (<[egressId := (egress, false)]>) cache)
  else if flag_set (Egress.flags egress) OPENNSL_L3_DST_DISCARD then
    if decide (dropEgressId_ cache ≠ INVALID) then
      Abort (LogFatal "duplicated drop egress found in HW")
    else Ok (set_dropEgressId egressId cache)
  else if flag_set (Egress.flags egress)
            (Z.lor OPENNSL_L3_L2TOCPU OPENNSL_L3_COPY_TO_CPU) then
    if decide (toCPUEgressId_ cache ≠ INVALID) then
      Abort (LogFatal "duplicated generic TO_CPU egress found in HW")
    else Ok (set_toCPUEgressId egressId cache)
  else Abort (LogFatal "The egress is not referenced by any host entry").

Definition routeTraversalCallback (route : Route.t) (cache : BcmWarmBootCache) : BcmWarmBootCache :=
  let isIPv6 := flag_set (Route.l3a_flags route) OPENNSL_L3_IP6 in
  let ip := if isIPv6 then fromBinary (Route.l3a_ip6_net route)
            else fromLongHBO (Route.l3a_subnet route) in
  let mask := if isIPv6 then fromBinary (Route.l3a_ip6_mask route)
              else fromLongHBO (Route.l3a_ip_mask route) in
  if canUseHostTableForHostRoutes (platform cache) &&
     ((isIPv6 && bool_decide (mask = getFullMaskIPv6Address)) ||
      (negb isIPv6 && bool_decide (mask = getFullMaskIPv4Address)))
  then (* This is a host route. *)
    set_vrfAndIP2Route (<[(Route.l3a_vrf route, ip) := route]>) cache
  else (* Other routes that cannot be put into host table / CAM. *)
    set_vrfPrefix2Route (<[(Route.l3a_vrf route, ip, mask) := route]>) cache.

(** The SDK's traversals call the callback once for every object of the
    table, here the list of the objects the hardware holds. *)
Definition opennsl_l3_host_traverse (hosts : list Host.t)
    (cache : BcmWarmBootCache) : BcmWarmBootCache :=
  foldl (λ c h, hostTraversalCallback h c) cache hosts.

Definition opennsl_l3_route_traverse (routes : list Route.t)
    (cache : BcmWarmBootCache) : BcmWarmBootCache :=
  foldl (λ c r, routeTraversalCallback r c) cache routes.

Definition opennsl_l3_egress_traverse (egresses : list (EgressId * Egress.t))
    (cache : BcmWarmBootCache) : Res BcmWarmBootCache :=
  forM (λ e c, egressTraversalCallback e.1 e.2 c) egresses cache.

Definition opennsl_l3_egress_ecmp_traverse
    (ecmps : list (Ecmp.t * list EgressId))
    (cache : BcmWarmBootCache) : Res BcmWarmBootCache :=
  forM (λ e c, ecmpEgressTraversalCallback e.1 (Z.of_nat (length e.2)) e.2 c)
       ecmps cache.

End Cache.

(** ** The persisted snapshot *)

(** [folly::dynamic], the parsed JSON. An object is the list of its
    fields, each key once. *)
#[local] Unset Elimination Schemes.
Inductive dynamic :=
  | d_null
  | d_bool (b : bool)
  | d_int (z : Z)
  | d_string (s : string)
  | d_array (l : list dynamic)
  | d_object (fields : list (string * dynamic)).
#[local] Set Elimination Schemes.

(** [obj.find(key)]: the items of a non-object cannot be searched. *)
Definition dyn_find (key : string) (d : dynamic) : Res (option dynamic) :=
  match d with
  | d_object fields => Ok ((λ r, r.2.2) <$> list_find (λ kv, kv.1 = key) fields)
  | _ => Throw (DynamicError "TypeError: expected object")
  end.

(** [d[key]] on a non-const dynamic: a missing key of an object is
    created with a null value. *)
Definition dyn_index (key : string) (d : dynamic) : Res dynamic :=
  match d with
  | d_object _ => r ← dyn_find key d; Ok (default d_null r)
  | _ => Throw (DynamicError "TypeError: expected object")
  end.

(** [d[key]] on a const dynamic, which is [d.at(key)]. *)
Definition dyn_at (key : string) (d : dynamic) : Res dynamic :=
  match d with
  | d_object _ =>
      r ← dyn_find key d;
      match r with
      | Some v => Ok v
      | None => Throw (DynamicError "out_of_range")
      end
  | _ => Throw (DynamicError "TypeError: expected object")
  end.

(** The elements a range-for visits. *)
Definition dyn_elems (d : dynamic) : Res (list dynamic) :=
  match d with
  | d_array l => Ok l
  | _ => Throw (DynamicError "TypeError: expected array")
  end.

(** [obj[key] = v]. *)
Fixpoint dyn_set (key : string) (v : dynamic) (fields : list (string * dynamic))
    : list (string * dynamic) :=
  match fields with
  | [] => [(key, v)]
  | (k, w) :: rest =>
      if decide (k = key) then (k, v) :: rest else (k, w) :: dyn_set key v rest
  end.

(** Conversion of an [int64_t] to [int], the type of an egress id. *)
Definition to_int32 (z : Z) : Z := ((z + 2 ^ 31) `mod` 2 ^ 32 - 2 ^ 31)%Z.
Definition is_int32 (z : Z) : Prop := (- 2 ^ 31 ≤ z < 2 ^ 31)%Z.

(** Modelled from the spec: [fboss/agent/Constants.h] is not part of the
    sources; these are the keys of the snapshot's sections (software
    state, hardware state, host table, its ECMP hosts, warm boot cache)
    and of an ECMP entry (egress id, paths). [kEcmpObjects] is the
    source's. *)
Definition kSwSwitch : string := "swSwitch".
Definition kHwSwitch : string := "hwSwitch".
Definition kHostTable : string := "hostTable".
Definition kEcmpHosts : string := "ecmpHosts".
Definition kEcmpEgress : string := "ecmpEgress".
Definition kEcmpEgressId : string := "ecmpEgressId".
Definition kPaths : string := "paths".
Definition kWarmBootCache : string := "warmBootCache".
Definition kEcmpObjects : string := "ecmpObjects".

(** [hwSwitchEcmp2EgressIds_[ecmpEgressId].insert(path)], both converted
    to [int]. *)
Definition insertPath (ecmpEgressId path : Z) (m : gmap Z (gset Z)) : gmap Z (gset Z) :=
  <[to_int32 ecmpEgressId := {[to_int32 path]} ∪ default ∅ (m !! to_int32 ecmpEgressId)]> m.

Section Loader.
Context `{!SdkConsts}.
(** [folly::to<int64_t>] of a string, used by [asInt]. *)
Variable str_to_int64 : string → option Z.
(** [SwitchState::uniquePtrFromFollyDynamic], not part of the sources. *)
Variable uniquePtrFromFollyDynamic : dynamic → Res (option SwitchState).

Definition asInt (d : dynamic) : Res Z :=
  match d with
  | d_int z => Ok z
  | d_bool b => Ok (if b then 1 else 0)%Z
  | d_string s =>
      match str_to_int64 s with
      | Some z => Ok z
      | None => Throw (DynamicError "ConversionError")
      end
  | _ => Throw (DynamicError "TypeError: expected int")
  end.

Definition toFollyDynamic (cache : BcmWarmBootCache) : dynamic :=
  let ecmps :=
    (λ ecmpAndEgressIds : Z * gset Z,
       let paths := d_int <$> elements ecmpAndEgressIds.2 in
       d_object (dyn_set kPaths (d_array paths)
                   (dyn_set kEcmpEgressId (d_int ecmpAndEgressIds.1) [])))
    <$> map_to_list (hwSwitchEcmp2EgressIds_ cache) in
  d_object (dyn_set kEcmpObjects (d_array ecmps) []).

(** The paths of one ECMP entry, added to the group [ecmpEgressId]. *)
Definition addPaths (ecmpEgressId : Z) (paths : list dynamic)
    (cache : BcmWarmBootCache) : Res BcmWarmBootCache :=
  forM (λ path c, p ← asInt path;
                  Ok (set_hwSwitchEcmp2EgressIds (insertPath ecmpEgressId p) c))
       paths cache.

(** Reading the file and parsing it are folly's; [switchStateJson] is
    the parsed content of the warm boot file. *)
Definition populateStateFromWarmbootFile (switchStateJson : dynamic)
    (cache : BcmWarmBootCache) : Res BcmWarmBootCache :=
  sw ← dyn_find kSwSwitch switchStateJson;
  dumped ← uniquePtrFromFollyDynamic (default switchStateJson sw);
  match dumped with
  | None => Abort (CheckFailed "Was not able to recover software state after warmboot")
  | Some _ =>
    let cache := set_dumpedSwSwitchState dumped cache in
    hw ← dyn_find kHwSwitch switchStateJson;
    match hw with
    | None =>
        (* hwSwitch state does not exist, no need to reconstruct the
           ecmp -> egressId map *)
        Ok cache
    | Some hwSwitch =>
        let cache := set_hwSwitchEcmp2EgressIdsPopulated true cache in
        (* Extract ecmps for dumped host table *)
        hostTable ← dyn_index kHostTable hwSwitch;
        ecmpHostsJson ← dyn_index kEcmpHosts hostTable;
        ecmpHosts ← dyn_elems ecmpHostsJson;
        cache ← forM (λ ecmpEntry c,
            idJson ← dyn_at kEcmpEgressId ecmpEntry;
            ecmpEgressId ← asInt idJson;
            if decide (ecmpEgressId = INVALID) then Ok c
            else
              egressJson ← dyn_at kEcmpEgress ecmpEntry;
              pathsJson ← dyn_at kPaths egressJson;
              paths ← dyn_elems pathsJson;
              addPaths ecmpEgressId paths c) ecmpHosts cache;
        (* Extract ecmps from dumped warm boot cache *)
        warmBootCache ← dyn_index kWarmBootCache hwSwitch;
        ecmpObjectsJson ← dyn_index kEcmpObjects warmBootCache;
        ecmpObjects ← dyn_elems ecmpObjectsJson;
        forM (λ ecmpEntry c,
            idJson ← dyn_at kEcmpEgressId ecmpEntry;
            ecmpEgressId ← asInt idJson;
            if decide (ecmpEgressId = INVALID) then
              Abort (CheckFailed "ecmpEgressId != BcmEgressBase::INVALID")
            else
              pathsJson ← dyn_at kPaths ecmpEntry;
              paths ← dyn_elems pathsJson;
              addPaths ecmpEgressId paths c) ecmpObjects cache
    end
  end.

End Loader.

(** ** State reconstruction *)

(** [p->...] on a [shared_ptr]. *)
Definition deref {A : Type} (p : option A) : Res A :=
  match p with
  | Some a => Ok a
  | None => Abort NullDeref
  end.

Definition kVlanForCPUEgressEntries : Z := 0.

(** Modelled from the spec: [macFromBcm] of [Utils.h] is not part of the
    sources; MAC address value types are outside the core, and the
    conversion keeps the six bytes. *)
Definition macFromBcm (mac : Z) : MacAddress := mac.

(** Modelled from the spec: the header's [findEgress(vrf, ip)] is not
    part of the sources; it "resolves through the host-entry map to the
    underlying egress object without removing it from the host map". *)
Definition findEgress (cache : BcmWarmBootCache) (vrf : opennsl_vrf_t)
    (ip : IPAddress) : option (Egress.t * bool) :=
  host ← vrfIp2Host_ cache !! (vrf, ip);
  egressId2EgressAndBool_ cache !! Host.l3a_intf host.

(** Modelled from the spec: [InterfaceMap], [VlanMap] and the neighbor
    tables are not part of the sources; adding a node records it under
    its key, [getVlan] fails with an error where [getVlanIf] returns
    null, and a synthesized interface carries "VRF, VLAN, MTU from
    hardware and name/addresses from the snapshot". *)
Definition addInterface (i : Interface) (m : gmap Z Interface) : gmap Z Interface :=
  <[if_id i := i]> m.
(** Modelled from the spec: [VlanMap::addVlan], as [addInterface]. *)
Definition addVlan (v : Vlan) (m : gmap Z Vlan) : gmap Z Vlan :=
  <[vl_id v := v]> m.
(** Modelled from the spec: [VlanMap::getVlan], the lookup that fails
    with an error on an unknown VLAN. *)
Definition getVlan (m : gmap Z Vlan) (id : VlanID) : Res Vlan :=
  match m !! id with
  | Some v => Ok v
  | None => Throw (FbossError "No vlan in the map")
  end.
(** Modelled from the spec: the setters of [Vlan], which "build the
    port-membership sets" and "bind the VLAN's interface id" and
    neighbor tables. *)
Definition addPort (p : PortID) (tagged : bool) (v : Vlan) : Vlan :=
  {| vl_id := vl_id v; vl_name := vl_name v;
     vl_ports := <[p := tagged]> (vl_ports v); vl_intf := vl_intf v;
     getArpTable := getArpTable v; getNdpTable := getNdpTable v |}.
Definition setInterfaceID (i : InterfaceID) (v : Vlan) : Vlan :=
  {| vl_id := vl_id v; vl_name := vl_name v; vl_ports := vl_ports v;
     vl_intf := i; getArpTable := getArpTable v; getNdpTable := getNdpTable v |}.
Definition setArpTable (t : gmap Z NeighborEntry) (v : Vlan) : Vlan :=
  {| vl_id := vl_id v; vl_name := vl_name v; vl_ports := vl_ports v;
     vl_intf := vl_intf v; getArpTable := t; getNdpTable := getNdpTable v |}.
Definition setNdpTable (t : gmap Z NeighborEntry) (v : Vlan) : Vlan :=
  {| vl_id := vl_id v; vl_name := vl_name v; vl_ports := vl_ports v;
     vl_intf := vl_intf v; getArpTable := getArpTable v; getNdpTable := t |}.
(** Modelled from the spec: a new [Vlan], without ports and with empty
    neighbor tables. *)
Definition newVlan (id : VlanID) (name : string) : Vlan :=
  {| vl_id := id; vl_name := name; vl_ports := ∅; vl_intf := 0;
     getArpTable := ∅; getNdpTable := ∅ |}.
(** Modelled from the spec: the neighbor tables' [addPendingEntry] and
    [addEntry], a "pending (unresolved) neighbor entry rather than a
    resolved one". *)
Definition addPendingEntry (ip : Z) (i : InterfaceID)
    (t : gmap Z NeighborEntry) : gmap Z NeighborEntry :=
  <[ip := {| ne_mac := None; ne_port := 0; ne_intf := i; ne_state := PENDING |}]> t.
Definition addEntry (ip : Z) (mac : MacAddress) (p : PortID) (i : InterfaceID)
    (st : NeighborState) (t : gmap Z NeighborEntry) : gmap Z NeighborEntry :=
  <[ip := {| ne_mac := Some mac; ne_port := p; ne_intf := i; ne_state := st |}]> t.

(** The pair of tables of [AddrTables]. *)
Record AddrTables := {
  arpTable : gmap Z NeighborEntry;
  ndpTable : gmap Z NeighborEntry;
}.
Definition AddrTables_new : AddrTables := {| arpTable := ∅; ndpTable := ∅ |}.

Section Reconstruct.
Context `{!SdkConsts}.

(** Modelled from the spec: [BcmEgress::programmedToDrop] is not part of
    the sources; it holds of an egress object "flagged programmed to
    drop". *)
Definition programmedToDrop (egress : Egress.t) : bool :=
  flag_set (Egress.flags egress) OPENNSL_L3_DST_DISCARD.

Definition reconstructInterfaceMap (cache : BcmWarmBootCache) : Res (gmap Z Interface) :=
  st ← deref (dumpedSwSwitchState_ cache);
  let dumpedInterfaceMap := getInterfaces st in
  forM (λ vlanMacAndIntf intfMap,
      let bcmIntf : L3Intf.t := vlanMacAndIntf.2 in
      dumped ← deref dumpedInterfaceMap;
      (* getInterfaceIf returns null for an unknown id *)
      dumpedInterface ← deref (dumped !! L3Intf.l3a_vid bcmIntf);
      let dumpedInterfaceName := if_name dumpedInterface in
      let newInterface :=
        {| if_id := L3Intf.l3a_vid bcmIntf;
           if_router := L3Intf.l3a_vrf bcmIntf;
           if_vlan := L3Intf.l3a_vid bcmIntf;
           if_name := dumpedInterfaceName;
           if_mac := (vlanMacAndIntf.1).2;
           if_mtu := L3Intf.l3a_mtu bcmIntf;
           if_addresses := if_addresses dumpedInterface |} in
      Ok (addInterface newInterface intfMap))
    (map_to_list (vlanAndMac2Intf_ cache)) ∅.

(** The first loop of [reconstructVlanMap]: one VLAN with its ports. *)
Definition vlanOfInfo (id : VlanID) (info : VlanInfo) : Vlan :=
  let vlan := newVlan id "" in
  let vlan := foldl (λ v idx, addPort idx false v) vlan (elements (untagged info)) in
  let vlan := foldl (λ v idx, if decide (idx ∈ untagged info) then v
                              else addPort idx true v)
                    vlan (elements (allPorts info)) in
  setInterfaceID (intfID info) vlan.

(** The body of the second loop: one host entry. *)
Definition addHostToAddrTables (cache : BcmWarmBootCache)
    (dumpedVlans : option (gmap Z Vlan))
    (vrfIpAndHost : Z * IPAddress * Host.t)
    (vlan2AddrTables : gmap Z AddrTables) : Res (gmap Z AddrTables) :=
  let vrf := (vrfIpAndHost.1).1 in
  let ip := (vrfIpAndHost.1).2 in
  match findEgress cache vrf ip with
  | None => (* The host entry might be an ECMP egress entry. *) Ok vlan2AddrTables
  | Some (bcmEgress, _) =>
    if decide (Egress.vlan bcmEgress = kVlanForCPUEgressEntries) then
      (* Ignore to CPU egress entries which get mapped to vlan 0 *)
      Ok vlan2AddrTables
    else
      let vlanId := Egress.vlan bcmEgress in
      (* Is this ip a route or interface? *)
      keep ← match dumpedVlans with
              | Some dumped =>
                  dumpedVlan ← getVlan dumped vlanId;
                  Ok (match ip with
                      | IPAddressV4 a => bool_decide (is_Some (getArpTable dumpedVlan !! a))
                      | IPAddressV6 a => bool_decide (is_Some (getNdpTable dumpedVlan !! a))
                      end)
              | None => Ok true
              end;
      if keep : bool then
        let tables := default AddrTables_new (vlan2AddrTables !! vlanId) in
        (* a drop entry programmed for an existing host is a pending entry *)
        let tables' :=
          match ip with
          | IPAddressV4 a =>
              {| arpTable :=
                   if programmedToDrop bcmEgress
                   then addPendingEntry a (Egress.vlan bcmEgress) (arpTable tables)
                   else addEntry a (macFromBcm (Egress.mac_addr bcmEgress))
                          (Egress.port bcmEgress) (Egress.vlan bcmEgress)
                          UNVERIFIED (arpTable tables);
                 ndpTable := ndpTable tables |}
          | IPAddressV6 a =>
              {| arpTable := arpTable tables;
                 ndpTable :=
                   if programmedToDrop bcmEgress
                   then addPendingEntry a (Egress.vlan bcmEgress) (ndpTable tables)
                   else addEntry a (macFromBcm (Egress.mac_addr bcmEgress))
                          (Egress.port bcmEgress) (Egress.vlan bcmEgress)
                          UNVERIFIED (ndpTable tables) |}
          end in
        Ok (<[vlanId := tables']> vlan2AddrTables)
      else Ok vlan2AddrTables
  end.

Definition reconstructVlanMap (cache : BcmWarmBootCache) : Res (gmap Z Vlan) :=
  st ← deref (dumpedSwSwitchState_ cache);
  let dumpedVlans := getVlans st in
  (* Get vlan and port mapping *)
  let vlans := foldl (λ m vlanAndInfo, addVlan (vlanOfInfo vlanAndInfo.1 vlanAndInfo.2) m)
                     ∅ (map_to_list (vlan2VlanInfo_ cache)) in
  (* Populate ARP and NDP tables of VLANs using egress entries *)
  vlan2AddrTables ← forM (addHostToAddrTables cache dumpedVlans)
                         (map_to_list (vrfIp2Host_ cache)) ∅;
  forM (λ vlanAndAddrTable vlans,
      match vlans !! vlanAndAddrTable.1 with
      | None => Abort (LogFatal "Vlan not found")
      | Some vlan =>
          Ok (<[vlanAndAddrTable.1 :=
                  setNdpTable (ndpTable vlanAndAddrTable.2)
                    (setArpTable (arpTable vlanAndAddrTable.2) vlan)]> vlans)
      end)
    (map_to_list vlan2AddrTables) vlans.

End Reconstruct.

(** ** Teardown *)

(** The SDK's delete calls, with the arguments [clear] passes. *)
Inductive SdkCall :=
  | opennsl_l3_route_delete (route : Route.t)
  | opennsl_l3_host_delete (host : Host.t)
  | opennsl_l3_egress_ecmp_destroy (ecmp : Ecmp.t)
  | opennsl_l3_egress_destroy (id : EgressId)
  | opennsl_l3_intf_delete (intf : L3Intf.t)
  | opennsl_l2_station_delete (vlan : VlanID)
  | opennsl_vlan_destroy (vlan : VlanID).

(** What [clear] asks of the hardware, in the order it asks: each
    deletion with the key of the map entry it is issued for, and the
    query for the default VLAN with the VLAN the hardware answers. *)
Inductive HwOp :=
  | DelRoute (k : Z * IPAddress * IPAddress) (route : Route.t)
  | DelHostRoute (k : Z * IPAddress) (route : Route.t)
  | DelHost (k : Z * IPAddress) (host : Host.t)
  | DelEcmp (ids : gset Z) (ecmp : Ecmp.t)
  | DelEgress (id : EgressId)
  | DelIntf (k : Z * Z) (intf : L3Intf.t)
  | DelStation (vlan : VlanID)
  | GetDefaultVlan (answer : VlanID)
  | DelVlan (vlan : VlanID).

#[global] Instance HwOp_eq_dec : EqDecision HwOp.
Proof. solve_decision. Defined.

Section Teardown.
(** The state of the hardware unit and the SDK acting on it: a call
    returns its code and changes the unit. *)
Context {Unit : Type}.
Variable sdk : SdkCall → Unit → Z * Unit.
Variable opennsl_vlan_default_get : Unit → Z * VlanID.

(** The unit together with the operations issued so far. *)
Record World := { hw_unit : Unit; issued : list HwOp }.

Definition Hw (A : Type) : Type := World → Res A * World.

Definition hw_ret {A} (a : A) : Hw A := λ w, (Ok a, w).
Definition hw_bind {A B} (m : Hw A) (k : A → Hw B) : Hw B := λ w,
  match m w with
  | (Ok a, w') => k a w'
  | (Throw e, w') => (Throw e, w')
  | (Abort f, w') => (Abort f, w')
  end.

(** Modelled from the spec: [bcmLogFatal] of [BcmError.h] is not part of
    the sources; "each deletion that the hardware driver reports as
    failed is a fatal, process-terminating condition". *)
Definition bcmLogFatal (rv : Z) (what : string) : Res unit :=
  if OPENNSL_FAILURE rv then Abort (LogFatal what) else Ok tt.

(** One SDK call followed by [bcmLogFatal] on its code. *)
Definition del (op : HwOp) (call : SdkCall) (what : string) : Hw unit := λ w,
  let '(rv, u) := sdk call (hw_unit w) in
  (bcmLogFatal rv what, {| hw_unit := u; issued := issued w ++ [op] |}).

(** [for (x : l) body(x)]. *)
Fixpoint sweep {A} (body : A → Hw unit) (l : list A) : Hw unit :=
  match l with
  | [] => hw_ret tt
  | x :: l' => hw_bind (body x) (λ _, sweep body l')
  end.

Definition getDefaultVlan : Hw VlanID := λ w,
  let '(rv, defaultVlan) := opennsl_vlan_default_get (hw_unit w) in
  let w' := {| hw_unit := hw_unit w; issued := issued w ++ [GetDefaultVlan defaultVlan] |} in
  match bcmLogFatal rv "failed to get default VLAN" with
  | Ok _ => (Ok defaultVlan, w')
  | Throw e => (Throw e, w')
  | Abort f => (Abort f, w')
  end.

Definition clear (cache : BcmWarmBootCache) : Hw BcmWarmBootCache :=
  let cache := set_dumpedSwSwitchState None cache in
  let cache := set_hwSwitchEcmp2EgressIds (λ _, ∅) cache in
  (* First delete routes (fully qualified and others). *)
  hw_bind (sweep (λ vrfPfxAndRoute : Z * IPAddress * IPAddress * Route.t,
                    del (DelRoute vrfPfxAndRoute.1 vrfPfxAndRoute.2)
                        (opennsl_l3_route_delete vrfPfxAndRoute.2)
                        "failed to delete unreferenced route")
                 (map_to_list (vrfPrefix2Route_ cache))) (λ _,
  let cache := set_vrfPrefix2Route (λ _, ∅) cache in
  hw_bind (sweep (λ vrfIPAndRoute : Z * IPAddress * Route.t,
                    del (DelHostRoute vrfIPAndRoute.1 vrfIPAndRoute.2)
                        (opennsl_l3_route_delete vrfIPAndRoute.2)
                        "failed to delete fully qualified unreferenced route")
                 (map_to_list (vrfAndIP2Route_ cache))) (λ _,
  let cache := set_vrfAndIP2Route (λ _, ∅) cache in
  (* Delete bcm host entries. *)
  hw_bind (sweep (λ vrfIpAndHost : Z * IPAddress * Host.t,
                    del (DelHost vrfIpAndHost.1 vrfIpAndHost.2)
                        (opennsl_l3_host_delete vrfIpAndHost.2)
                        "failed to delete host entry")
                 (map_to_list (vrfIp2Host_ cache))) (λ _,
  let cache := set_vrfIp2Host (λ _, ∅) cache in
  (* Ecmp egress objects refer to egress objects which we delete later *)
  hw_bind (sweep (λ idsAndEcmp : gset Z * Ecmp.t,
                    del (DelEcmp idsAndEcmp.1 idsAndEcmp.2)
                        (opennsl_l3_egress_ecmp_destroy idsAndEcmp.2)
                        "failed to destroy ecmp egress object")
                 (map_to_list (egressIds2Ecmp_ cache))) (λ _,
  let cache := set_egressIds2Ecmp (λ _, ∅) cache in
  (* Delete bcm egress entries. *)
  hw_bind (sweep (λ egressIdAndEgressBool : Z * (Egress.t * bool),
                    if (egressIdAndEgressBool.2).2 then hw_ret tt
                    else (* This is not used yet *)
                      del (DelEgress egressIdAndEgressBool.1)
                          (opennsl_l3_egress_destroy egressIdAndEgressBool.1)
                          "failed to destroy egress object")
                 (map_to_list (egressId2EgressAndBool_ cache))) (λ _,
  let cache := set_egressId2EgressAndBool (λ _, ∅) cache in
  (* Delete interfaces *)
  hw_bind (sweep (λ vlanMacAndIntf : Z * Z * L3Intf.t,
                    del (DelIntf vlanMacAndIntf.1 vlanMacAndIntf.2)
                        (opennsl_l3_intf_delete vlanMacAndIntf.2)
                        "failed to delete l3 interface")
                 (map_to_list (vlanAndMac2Intf_ cache))) (λ _,
  let cache := set_vlanAndMac2Intf (λ _, ∅) cache in
  (* Delete stations *)
  hw_bind (sweep (λ vlanAndStation : Z * Station.t,
                    del (DelStation vlanAndStation.1)
                        (opennsl_l2_station_delete vlanAndStation.1)
                        "failed to delete station")
                 (map_to_list (vlan2Station_ cache))) (λ _,
  let cache := set_vlan2Station (λ _, ∅) cache in
  hw_bind getDefaultVlan (λ defaultVlan,
  (* Finally delete the vlans *)
  hw_bind (sweep (λ vlanItr : Z * VlanInfo,
                    if decide (defaultVlan = vlanItr.1) then
                      hw_ret tt  (* Can't delete the default vlan *)
                    else
                      del (DelVlan vlanItr.1) (opennsl_vlan_destroy vlanItr.1)
                          "failed to destroy vlan")
                 (map_to_list (vlan2VlanInfo_ cache))) (λ _,
  hw_ret (set_vlan2VlanInfo (filter (λ kv, defaultVlan = kv.1)) cache)))))))))).

(** From the world [w], the computation issues the operations of [plan]
    in order: all of them when it returns, and then [post] holds of its
    result; an initial part of them when the process stops. It never
    throws. *)
Definition runs {A} (m : Hw A) (w : World) (plan : list HwOp) (post : A → Prop) : Prop :=
  ∃ done, issued (m w).2 = issued w ++ done ∧ done `prefix_of` plan ∧
    match (m w).1 with
    | Ok a => done = plan ∧ post a
    | Abort _ => True
    | Throw _ => False
    end.

End Teardown.

(** The operations of a teardown that no hardware call fails, when the
    hardware reports [defaultVlan]. *)
Definition clear_plan (cache : BcmWarmBootCache) (defaultVlan : VlanID) : list HwOp :=
  ((λ kv, DelRoute kv.1 kv.2) <$> map_to_list (vrfPrefix2Route_ cache)) ++
  ((λ kv, DelHostRoute kv.1 kv.2) <$> map_to_list (vrfAndIP2Route_ cache)) ++
  ((λ kv, DelHost kv.1 kv.2) <$> map_to_list (vrfIp2Host_ cache)) ++
  ((λ kv, DelEcmp kv.1 kv.2) <$> map_to_list (egressIds2Ecmp_ cache)) ++
  (map_to_list (egressId2EgressAndBool_ cache)
     ≫= λ kv : Z * (Egress.t * bool), if (kv.2).2 then [] else [DelEgress kv.1]) ++
  ((λ kv, DelIntf kv.1 kv.2) <$> map_to_list (vlanAndMac2Intf_ cache)) ++
  ((λ kv, DelStation kv.1) <$> map_to_list (vlan2Station_ cache)) ++
  [GetDefaultVlan defaultVlan] ++
  (map_to_list (vlan2VlanInfo_ cache)
     ≫= λ kv : Z * VlanInfo, if decide (defaultVlan = kv.1) then [] else [DelVlan kv.1]).

(** The cache a completed teardown leaves: only the default VLAN, if the
    cache held it. *)
Definition cleared (cache : BcmWarmBootCache) (defaultVlan : VlanID) : BcmWarmBootCache :=
  set_vlan2VlanInfo (filter (λ kv, defaultVlan = kv.1))
    (set_vlan2Station (λ _, ∅)
       (set_vlanAndMac2Intf (λ _, ∅)
          (set_egressId2EgressAndBool (λ _, ∅)
             (set_egressIds2Ecmp (λ _, ∅)
                (set_vrfIp2Host (λ _, ∅)
                   (set_vrfAndIP2Route (λ _, ∅)
                      (set_vrfPrefix2Route (λ _, ∅)
                         (set_hwSwitchEcmp2EgressIds (λ _, ∅)
                            (set_dumpedSwSwitchState None cache))))))))).

(** ** Claims

    Modelled from the spec: the claim operations live in the header,
    which is not part of the sources; "claims either remove an entry
    from its owning map or set its claimed flag, never both, per
    table". An object is named by the key of its table. *)
Inductive ObjRef :=
  | RouteRef (k : Z * IPAddress * IPAddress)
  | HostRouteRef (k : Z * IPAddress)
  | HostRef (k : Z * IPAddress)
  | EcmpRef (ids : gset Z)
  | EgressRef (id : EgressId)
  | IntfRef (k : Z * Z)
  | StationRef (vlan : VlanID)
  | VlanRef (vlan : VlanID).

#[global] Instance ObjRef_eq_dec : EqDecision ObjRef.
Proof. solve_decision. Defined.

(** Modelled from the spec: one claim, "erase from map, or set
    boolean". *)
Definition claim (x : ObjRef) (cache : BcmWarmBootCache) : BcmWarmBootCache :=
  match x with
  | RouteRef k => set_vrfPrefix2Route (delete k) cache
  | HostRouteRef k => set_vrfAndIP2Route (delete k) cache
  | HostRef k => set_vrfIp2Host (delete k) cache
  | EcmpRef ids => set_egressIds2Ecmp (delete ids) cache
  | EgressRef id =>
      set_egressId2EgressAndBool (alter (λ eb, (eb.1, true)) id) cache
  | IntfRef k => set_vlanAndMac2Intf (delete k) cache
  | StationRef v => set_vlan2Station (delete v) cache
  | VlanRef v => set_vlan2VlanInfo (delete v) cache
  end.

(** Modelled from the spec: a reconciliation pass, which claims the
    objects of [S] one by one. *)
Definition reconcile (S : list ObjRef) (cache : BcmWarmBootCache) : BcmWarmBootCache :=
  foldl (λ c x, claim x c) cache S.

(** The object is held by the cache. *)
Definition discovered (cache : BcmWarmBootCache) (x : ObjRef) : Prop :=
  match x with
  | RouteRef k => is_Some (vrfPrefix2Route_ cache !! k)
  | HostRouteRef k => is_Some (vrfAndIP2Route_ cache !! k)
  | HostRef k => is_Some (vrfIp2Host_ cache !! k)
  | EcmpRef ids => is_Some (egressIds2Ecmp_ cache !! ids)
  | EgressRef id => is_Some (egressId2EgressAndBool_ cache !! id)
  | IntfRef k => is_Some (vlanAndMac2Intf_ cache !! k)
  | StationRef v => is_Some (vlan2Station_ cache !! v)
  | VlanRef v => is_Some (vlan2VlanInfo_ cache !! v)
  end.

(** The object a hardware operation deletes. *)
Definition deleted_object (op : HwOp) : option ObjRef :=
  match op with
  | DelRoute k _ => Some (RouteRef k)
  | DelHostRoute k _ => Some (HostRouteRef k)
  | DelHost k _ => Some (HostRef k)
  | DelEcmp ids _ => Some (EcmpRef ids)
  | DelEgress id => Some (EgressRef id)
  | DelIntf k _ => Some (IntfRef k)
  | DelStation v => Some (StationRef v)
  | GetDefaultVlan _ => None
  | DelVlan v => Some (VlanRef v)
  end.


(** ** Read-only views used by the statements *)



(** What a teardown plan holds. *)
Definition planned (cache : BcmWarmBootCache) (defaultVlan : VlanID) (op : HwOp) : Prop :=
  match op with
  | DelRoute k r => vrfPrefix2Route_ cache !! k = Some r
  | DelHostRoute k r => vrfAndIP2Route_ cache !! k = Some r
  | DelHost k h => vrfIp2Host_ cache !! k = Some h
  | DelEcmp ids e => egressIds2Ecmp_ cache !! ids = Some e
  | DelEgress id => ∃ e, egressId2EgressAndBool_ cache !! id = Some (e, false)
  | DelIntf k i => vlanAndMac2Intf_ cache !! k = Some i
  | DelStation v => is_Some (vlan2Station_ cache !! v)
  | GetDefaultVlan v => v = defaultVlan
  | DelVlan v => v ≠ defaultVlan ∧ is_Some (vlan2VlanInfo_ cache !! v)
  end.



(** Modelled from the spec: the writer of the warm boot file is not part
    of the sources; the file is "{ software_state, hardware_state: {
    host_table: { ecmp_hosts }, warm_boot_cache: { ecmp_objects } } }",
    the warm boot cache section being what [toFollyDynamic] returns. *)
Definition warmBootFile (swSwitch hostTable warmBootCache : dynamic) : dynamic :=
  d_object [(kSwSwitch, swSwitch);
            (kHwSwitch, d_object [(kHostTable, hostTable);
                                  (kWarmBootCache, warmBootCache)])].

(** A host table section without ECMP hosts. *)
Definition noEcmpHosts : dynamic := d_object [(kEcmpHosts, d_array [])].

(** One serialized group. *)
Definition groupJson (g : Z * gset Z) : dynamic :=
  d_object (dyn_set kPaths (d_array (d_int <$> elements g.2))
              (dyn_set kEcmpEgressId (d_int g.1) [])).

(** What the second loop of the loader makes of one serialized group. *)
Definition loadGroup (acc : gmap Z (gset Z)) (g : Z * gset Z) : gmap Z (gset Z) :=
  if decide (g.2 = ∅) then acc else <[g.1 := g.2 ∪ default ∅ (acc !! g.1)]> acc.

(** Group ids and paths are [int]s, no group id is INVALID, no path set
    is empty. *)
Definition valid_groups `{!SdkConsts} (m : gmap Z (gset Z)) : Prop :=
  ∀ id ids, m !! id = Some ids →
    id ≠ INVALID ∧ is_int32 id ∧ ids ≠ ∅ ∧ ∀ p, p ∈ ids → is_int32 p.


Section Views.
Context `{!SdkConsts}.

Definition route_is_v6 (route : Route.t) : bool :=
  flag_set (Route.l3a_flags route) OPENNSL_L3_IP6.

(** The address and the mask of a route, in its own address family. *)
Definition route_ip (route : Route.t) : IPAddress :=
  if route_is_v6 route then IPAddressV6 (Route.l3a_ip6_net route)
  else IPAddressV4 (Route.l3a_subnet route).
Definition route_mask (route : Route.t) : IPAddress :=
  if route_is_v6 route then IPAddressV6 (Route.l3a_ip6_mask route)
  else IPAddressV4 (Route.l3a_ip_mask route).

(** The mask has all the bits of the address width of the route's
    family: 32 ones for IPv4, 128 ones for IPv6. *)
Definition full_width_mask (route : Route.t) : Prop :=
  if route_is_v6 route then Route.l3a_ip6_mask route = Z.ones 128
  else Route.l3a_ip_mask route = Z.ones 32.

(** The flags of an egress object, as the claims name them. *)
Definition has_drop_flag (egress : Egress.t) : bool :=
  flag_set (Egress.flags egress) OPENNSL_L3_DST_DISCARD.
Definition has_to_cpu_flag (egress : Egress.t) : bool :=
  flag_set (Egress.flags egress) OPENNSL_L3_L2TOCPU ||
  flag_set (Egress.flags egress) OPENNSL_L3_COPY_TO_CPU.

(** The role the egress callback gives to an object no host entry
    refers to: the drop flag decides first. *)
Definition drop_role (e : EgressId * Egress.t) : bool := has_drop_flag e.2.
Definition to_cpu_role (e : EgressId * Egress.t) : bool :=
  negb (has_drop_flag e.2) && has_to_cpu_flag e.2.
Definition no_role (e : EgressId * Egress.t) : bool :=
  negb (has_drop_flag e.2) && negb (has_to_cpu_flag e.2).

(** The objects of a traversal that no host-table entry refers to. *)
Definition unreferenced (hostIds : gset Z) (l : list (EgressId * Egress.t))
    : list (EgressId * Egress.t) :=
  List.filter (λ e, bool_decide (e.1 ∉ hostIds)) l.

Definition count_where {A} (p : A → bool) (l : list A) : nat :=
  length (List.filter p l).

(** With [d] drop ids and [t] to-CPU ids already taken, the unreferenced
    objects of [l] still fit: at most one object per role in all, none
    without a role. *)
Definition roles_fit (d t : nat) (hostIds : gset Z)
    (l : list (EgressId * Egress.t)) : Prop :=
  d + count_where drop_role (unreferenced hostIds l) ≤ 1 ∧
  t + count_where to_cpu_role (unreferenced hostIds l) ≤ 1 ∧
  count_where no_role (unreferenced hostIds l) = 0.

(** At most one unreferenced object in the drop role, at most one in the
    to-CPU role, none without a role. *)
Definition singleton_roles (hostIds : gset Z) (l : list (EgressId * Egress.t)) : Prop :=
  roles_fit 0 0 hostIds l.

(** How many of the two singleton ids the cache has already set. *)
Definition drop_taken (cache : BcmWarmBootCache) : nat :=
  if decide (dropEgressId_ cache = INVALID) then 0 else 1.
Definition to_cpu_taken (cache : BcmWarmBootCache) : nat :=
  if decide (toCPUEgressId_ cache = INVALID) then 0 else 1.

(** Every neighbor of the tables is a neighbor of the same VLAN in the
    persisted snapshot. *)
Definition arp_known (dumped : gmap Z Vlan) (V : Z) (arp : gmap Z NeighborEntry) : Prop :=
  ∀ a, is_Some (arp !! a) →
       ∃ dumpedVlan, dumped !! V = Some dumpedVlan ∧
                     is_Some (getArpTable dumpedVlan !! a).
Definition ndp_known (dumped : gmap Z Vlan) (V : Z) (ndp : gmap Z NeighborEntry) : Prop :=
  ∀ a, is_Some (ndp !! a) →
       ∃ dumpedVlan, dumped !! V = Some dumpedVlan ∧
                     is_Some (getNdpTable dumpedVlan !! a).

End Views.

(** ** Discovery as a whole, and the remaining functions *)

(** One entry of [opennsl_vlan_list]. *)
Record opennsl_vlan_data_t := {
  vlan_tag : VlanID;
  port_bitmap : opennsl_pbmp_t;
}.

(** What the SDK answers during discovery, when nothing programs the
    unit: the VLAN list with its return code, the interface of a VLAN
    and the station of a VLAN with their return codes, and the objects
    each traversal visits. *)
Record HwTables := {
  hw_vlan_list : Z * list opennsl_vlan_data_t;
  hw_l3_intf_find_vlan : VlanID → Z * L3Intf.t;
  hw_l2_station_get : Z → Z * Station.t;
  hw_hosts_v4 : list Host.t;
  hw_hosts_v6 : list Host.t;
  hw_routes_v4 : list Route.t;
  hw_routes_v6 : list Route.t;
  hw_egresses : list (EgressId * Egress.t);
  hw_ecmps : list (Ecmp.t * list EgressId);
}.

(** [m.insert(make_pair(k, v))] of a flat_map: an existing entry stays. *)
Definition map_emplace `{Countable K} {V} (k : K) (v : V) (m : gmap K V) : gmap K V :=
  match m !! k with
  | Some _ => m
  | None => <[k := v]> m
  end.

(** Modelled from the spec: [bcmCheckError] of [BcmError.h] is not part
    of the sources; a failure the driver reports is raised as an error
    (a [BcmError], which is an [FbossError]) and "aborts startup". *)
Definition bcmCheckError (rv : Z) (what : string) : Res unit :=
  if OPENNSL_FAILURE rv then Throw (FbossError what) else Ok tt.

(** Modelled from the spec: [BcmSwitch::getVlanId] is not part of the
    sources; VLAN value types are outside the core, and the conversion
    keeps the number. *)
Definition getVlanId (vlan : Z) : VlanID := vlan.

(** Modelled from the spec: [Vlan::setPorts] is not part of the sources;
    it replaces the port-membership set of the VLAN. *)
Definition setPorts (ports : gmap Z bool) (v : Vlan) : Vlan :=
  {| vl_id := vl_id v; vl_name := vl_name v; vl_ports := ports;
     vl_intf := vl_intf v; getArpTable := getArpTable v;
     getNdpTable := getNdpTable v |}.

(** The result is the return value and the VLAN the pointer refers to
    afterwards. *)
Definition fillVlanPortInfo (cache : BcmWarmBootCache) (vlan : Vlan) : bool * Vlan :=
  match vlan2VlanInfo_ cache !! vl_id vlan with
  | Some info =>
      let memberPorts : gmap Z bool :=
        foldl (λ m idx, map_emplace idx false m) ∅ (elements (untagged info)) in
      let memberPorts :=
        foldl (λ m idx, if decide (m !! idx = None) then map_emplace idx true m else m)
              memberPorts (elements (allPorts info)) in
      (true, setPorts memberPorts vlan)
  | None => (false, vlan)
  end.

(** A flat_set is visited in increasing order. *)
Definition in_order (ids : gset Z) : list Z := merge_sort Z.le (elements ids).

Section Printing.
(** [folly::to<string>] of an egress id. *)
Variable to_string : Z → string.

(** The loop of [toEgressIdsStr], with its counter [i]. *)
Fixpoint toEgressIdsStr_loop (l : list Z) (i size : Z) (egressStr : string) : string :=
  match l with
  | [] => egressStr
  | egressId :: l' =>
      let egressStr := egressStr +:+ to_string egressId in
      let i := (i + 1)%Z in
      let egressStr := egressStr +:+ (if (i <? size)%Z then ", " else "") in
      toEgressIdsStr_loop l' i size egressStr
  end.

Definition toEgressIdsStr (egressIds : gset Z) : string :=
  toEgressIdsStr_loop (in_order egressIds) 0 (Z.of_nat (size egressIds)) "".

End Printing.

Section Discovery.
Context `{!SdkConsts}.
(** The SDK's "not found" return code. *)
Variable OPENNSL_E_NOT_FOUND : Z.
(** The interface id the header's [VlanInfo] constructor gives to the
    info of a VLAN; the constructor is not part of the sources. *)
Variable vlanIntfID : VlanID → InterfaceID.
Variable str_to_int64 : string → option Z.
Variable uniquePtrFromFollyDynamic : dynamic → Res (option SwitchState).

(** Modelled from the spec: the header's [VlanInfo] constructor is not
    part of the sources; an info holds the VLAN, its "tagged/untagged
    port sets" and its "bound interface id". *)
Definition VlanInfo_new (vlan : VlanID) (untagged allPorts : gset Z) : VlanInfo :=
  {| vi_vlan := vlan; untagged := untagged; allPorts := allPorts;
     intfID := vlanIntfID vlan |}.

(** The body of the VLAN loop of [populate]. *)
Definition populateVlan (hw : HwTables) (vlanData : opennsl_vlan_data_t)
    (cache : BcmWarmBootCache) : Res BcmWarmBootCache :=
  let cache :=
    set_vlan2VlanInfo
      (map_emplace (getVlanId (vlan_tag vlanData))
         (VlanInfo_new (vlan_tag vlanData) (port_bitmap vlanData)
            (port_bitmap vlanData))) cache in
  (* l3Intf.l3a_vid = vlanData.vlan_tag *)
  let '(rv, l3Intf) := hw_l3_intf_find_vlan hw (vlan_tag vlanData) in
  if decide (rv ≠ OPENNSL_E_NOT_FOUND) then
    _ ← bcmCheckError rv "failed to find interface for";
    let cache :=
      set_vlanAndMac2Intf
        (<[(getVlanId (L3Intf.l3a_vid l3Intf),
            macFromBcm (L3Intf.l3a_mac_addr l3Intf)) := l3Intf]>) cache in
    let '(rv, l2Station) := hw_l2_station_get hw (L3Intf.l3a_vid l3Intf) in
    if OPENNSL_FAILURE rv then
      (* Could not get l2 station *)
      Ok cache
    else Ok (set_vlan2Station (<[vlan_tag vlanData := l2Station]>) cache)
  else Ok cache.

(** [json] is the parsed warm boot file. The return codes of the four
    table traversals are not looked at. *)
Definition populate (hw : HwTables) (json : dynamic)
    (cache : BcmWarmBootCache) : Res BcmWarmBootCache :=
  cache ← populateStateFromWarmbootFile str_to_int64 uniquePtrFromFollyDynamic
            json cache;
  _ ← bcmCheckError (hw_vlan_list hw).1 "Unable to get vlan information";
  cache ← forM (populateVlan hw) (hw_vlan_list hw).2 cache;
  (* Traverse V4 hosts, V6 hosts, V4 routes, V6 routes *)
  let cache := opennsl_l3_host_traverse (hw_hosts_v4 hw) cache in
  let cache := opennsl_l3_host_traverse (hw_hosts_v6 hw) cache in
  let cache := opennsl_l3_route_traverse (hw_routes_v4 hw) cache in
  let cache := opennsl_l3_route_traverse (hw_routes_v6 hw) cache in
  (* Get egress entries, then ecmp egress entries *)
  cache ← opennsl_l3_egress_traverse (hw_egresses hw) cache;
  cache ← opennsl_l3_egress_ecmp_traverse (hw_ecmps hw) cache;
  Ok (set_egressOrEcmpIdsFromHostTable (λ _, ∅) cache).

End Discovery.

(** ** Further views used by the statements *)

Section MoreViews.
Context `{!SdkConsts}.

(** The address of a host entry, and the key the host callback files it
    under. *)
Definition host_ip (host : Host.t) : IPAddress :=
  if flag_set (Host.l3a_flags host) OPENNSL_L3_IP6
  then IPAddressV6 (Host.l3a_ip6_addr host)
  else IPAddressV4 (Host.l3a_ip_addr host).
Definition host_key (host : Host.t) : Z * IPAddress :=
  (Host.l3a_vrf host, host_ip host).

(** The path set the ECMP callback records for a group of the hardware,
    if it records one: the persisted paths of the group when the path
    map was populated, the member list of the hardware (unless it is
    empty) when it was not. *)
Definition recorded_paths (cache : BcmWarmBootCache)
    (g : Ecmp.t * list EgressId) : option EgressIds :=
  if hwSwitchEcmp2EgressIdsPopulated_ cache then
    match getPathsForEcmp cache (Ecmp.ecmp_intf g.1) with
    | Ok ids => Some ids
    | _ => None
    end
  else if decide (g.2 = []) then None else Some (list_to_set g.2).

(** The route is one the route callback files as a host route. *)
Definition host_route (p : BcmPlatform) (route : Route.t) : Prop :=
  full_width_mask route ∧ canUseHostTableForHostRoutes p = true.

(** Every egress object of the cache is unclaimed. *)
Definition all_unclaimed (cache : BcmWarmBootCache) : Prop :=
  ∀ id eb, egressId2EgressAndBool_ cache !! id = Some eb → eb.2 = false.

(** Every stored path set is non-empty, and group ids and paths are
    [int]s. *)
Definition paths_wf (m : gmap Z (gset Z)) : Prop :=
  ∀ id ids, m !! id = Some ids →
    ids ≠ ∅ ∧ is_int32 id ∧ ∀ p, p ∈ ids → is_int32 p.

(** The software interface [reconstructInterfaceMap] builds for a
    hardware interface and the snapshot's interface of the same id. *)
Definition reconstructedInterface (k : Z * Z) (bcmIntf : L3Intf.t)
    (dumpedInterface : Interface) : Interface :=
  {| if_id := L3Intf.l3a_vid bcmIntf;
     if_router := L3Intf.l3a_vrf bcmIntf;
     if_vlan := L3Intf.l3a_vid bcmIntf;
     if_name := if_name dumpedInterface;
     if_mac := k.2;
     if_mtu := L3Intf.l3a_mtu bcmIntf;
     if_addresses := if_addresses dumpedInterface |}.

(** The hardware answers the interface lookup of the VLAN with this
    interface: the lookup did not say not-found and did not fail. *)
Definition intf_found (OPENNSL_E_NOT_FOUND : Z) (hw : HwTables)
    (vlan : VlanID) (l3Intf : L3Intf.t) : Prop :=
  (hw_l3_intf_find_vlan hw vlan).1 ≠ OPENNSL_E_NOT_FOUND ∧
  OPENNSL_FAILURE (hw_l3_intf_find_vlan hw vlan).1 = false ∧
  (hw_l3_intf_find_vlan hw vlan).2 = l3Intf.

(** The hardware answers the station lookup of the id with this
    station. *)
Definition station_found (hw : HwTables) (id : Z) (l2Station : Station.t) : Prop :=
  OPENNSL_FAILURE (hw_l2_station_get hw id).1 = false ∧
  (hw_l2_station_get hw id).2 = l2Station.

(** The neighbor entry [reconstructVlanMap] builds from the egress
    object of a host entry: pending for an egress programmed to drop,
    unverified with the MAC and port of the egress otherwise. *)
Definition neighborEntryOf (bcmEgress : Egress.t) : NeighborEntry :=
  if programmedToDrop bcmEgress
  then {| ne_mac := None; ne_port := 0; ne_intf := Egress.vlan bcmEgress;
          ne_state := PENDING |}
  else {| ne_mac := Some (macFromBcm (Egress.mac_addr bcmEgress));
          ne_port := Egress.port bcmEgress; ne_intf := Egress.vlan bcmEgress;
          ne_state := UNVERIFIED |}.

(** The host map has an entry for the address, in some VRF, whose egress
    object is in the egress map, is on the VLAN and gives the neighbor
    entry. *)
Definition neighbor_from_host (cache : BcmWarmBootCache) (V : VlanID)
    (ip : IPAddress) (entry : NeighborEntry) : Prop :=
  ∃ vrf host bcmEgress claimed,
    vrfIp2Host_ cache !! (vrf, ip) = Some host ∧
    egressId2EgressAndBool_ cache !! Host.l3a_intf host = Some (bcmEgress, claimed) ∧
    Egress.vlan bcmEgress = V ∧ V ≠ kVlanForCPUEgressEntries ∧
    entry = neighborEntryOf bcmEgress.

(** The address is a neighbor in the table of its family. *)
Definition has_neighbor (ip : IPAddress) (arp ndp : gmap Z NeighborEntry) : Prop :=
  match ip with
  | IPAddressV4 a => is_Some (arp !! a)
  | IPAddressV6 a => is_Some (ndp !! a)
  end.

(** The check [reconstructVlanMap] makes before it promotes a host entry
    on VLAN [V]: with a VLAN map in the snapshot, the snapshot's VLAN
    lists the address as a neighbor; without one there is no check. *)
Definition snapshot_lists (st : SwitchState) (V : VlanID) (ip : IPAddress) : Prop :=
  match getVlans st with
  | Some dumped =>
      ∃ dumpedVlan, dumped !! V = Some dumpedVlan ∧
                    has_neighbor ip (getArpTable dumpedVlan) (getNdpTable dumpedVlan)
  | None => True
  end.

(** The port membership of a VLAN info: untagged ports are not tagged,
    the other member ports are. *)
Definition memberPortsOf (info : VlanInfo) (p : Z) : option bool :=
  if decide (p ∈ untagged info) then Some false
  else if decide (p ∈ allPorts info) then Some true
  else None.

End MoreViews.

(** Every hardware call returns a success code. *)
Definition sdk_never_fails {Unit : Type} (sdk : SdkCall → Unit → Z * Unit)
    (opennsl_vlan_default_get : Unit → Z * VlanID) : Prop :=
  (∀ call u, OPENNSL_FAILURE (sdk call u).1 = false) ∧
  (∀ u, OPENNSL_FAILURE (opennsl_vlan_default_get u).1 = false).

(** ** Example inputs *)

Section ExampleInputs.
#[local] Existing Instance opennsl_consts.

Definition ex_platform : BcmPlatform := {| canUseHostTableForHostRoutes := true |}.
Definition ex_new : BcmWarmBootCache := BcmWarmBootCache_new ex_platform.

(** Persisted path data {5: {10, 11}}. *)
Definition ex_persisted : BcmWarmBootCache :=
  set_hwSwitchEcmp2EgressIdsPopulated true
    (set_hwSwitchEcmp2EgressIds (λ _, {[5%Z := {[10%Z; 11%Z]}]}) ex_new).
Definition ex_paths : gset Z := {[10%Z; 11%Z]}.
Definition ex_members : gset Z := {[100002%Z; 100003%Z]}.
Definition ex_ecmp5 : Ecmp.t := {| Ecmp.ecmp_intf := 5; Ecmp.max_paths := 2 |}.
Definition ex_ecmp6 : Ecmp.t := {| Ecmp.ecmp_intf := 6; Ecmp.max_paths := 2 |}.

(** 10.0.0.5/32 and 10.0.0.0/24 in VRF 0. *)
Definition ex_route32 : Route.t :=
  {| Route.l3a_flags := 0; Route.l3a_vrf := 0; Route.l3a_subnet := 167772165;
     Route.l3a_ip_mask := 4294967295; Route.l3a_ip6_net := 0;
     Route.l3a_ip6_mask := 0; Route.l3a_intf := 100002 |}.
Definition ex_route24 : Route.t :=
  {| Route.l3a_flags := 0; Route.l3a_vrf := 0; Route.l3a_subnet := 167772160;
     Route.l3a_ip_mask := 4294967040; Route.l3a_ip6_net := 0;
     Route.l3a_ip6_mask := 0; Route.l3a_intf := 100002 |}.

(** Two unreferenced egress objects: one with the drop flag and a to-CPU
    flag, one with a to-CPU flag only. *)
Definition ex_egress_both : Egress.t :=
  {| Egress.flags := Z.lor OPENNSL_L3_DST_DISCARD OPENNSL_L3_L2TOCPU;
     Egress.vlan := 0; Egress.intf := 0; Egress.mac_addr := 0; Egress.port := 0 |}.
Definition ex_egress_cpu : Egress.t :=
  {| Egress.flags := OPENNSL_L3_L2TOCPU;
     Egress.vlan := 0; Egress.intf := 0; Egress.mac_addr := 0; Egress.port := 0 |}.
Definition ex_egress_drop : Egress.t :=
  {| Egress.flags := OPENNSL_L3_DST_DISCARD;
     Egress.vlan := 0; Egress.intf := 0; Egress.mac_addr := 0; Egress.port := 0 |}.
Definition ex_egresses_both_cpu : list (Z * Egress.t) :=
  [(100001%Z, ex_egress_both); (100002%Z, ex_egress_cpu)].
Definition ex_egresses_drop_cpu : list (Z * Egress.t) :=
  [(100001%Z, ex_egress_drop); (100002%Z, ex_egress_cpu)].

(** VLAN 7 with its L3 interface, and the host entry 10.0.0.5 of VRF 0
    behind the egress object 100003 of that VLAN. *)
Definition ex_intf7 : L3Intf.t :=
  {| L3Intf.l3a_vid := 7; L3Intf.l3a_vrf := 0; L3Intf.l3a_mtu := 1500;
     L3Intf.l3a_mac_addr := 2 |}.
Definition ex_host5 : Host.t :=
  {| Host.l3a_flags := 0; Host.l3a_vrf := 0; Host.l3a_ip_addr := 167772165;
     Host.l3a_ip6_addr := 0; Host.l3a_intf := 100003 |}.
Definition ex_egress3 : Egress.t :=
  {| Egress.flags := 0; Egress.vlan := 7; Egress.intf := 7;
     Egress.mac_addr := 11; Egress.port := 3 |}.
Definition ex_vlaninfo7 : VlanInfo :=
  {| vi_vlan := 7; untagged := {[3%Z]}; allPorts := {[3%Z; 4%Z]}; intfID := 7 |}.
Definition ex_discovered : BcmWarmBootCache :=
  set_vlan2VlanInfo (λ _, {[7%Z := ex_vlaninfo7]})
    (set_vlanAndMac2Intf (λ _, {[(7%Z, 2%Z) := ex_intf7]})
       (set_egressId2EgressAndBool (λ _, {[100003%Z := (ex_egress3, false)]})
          (hostTraversalCallback ex_host5 ex_new))).

Definition ex_neighbor5 : NeighborEntry :=
  {| ne_mac := Some 11%Z; ne_port := 3; ne_intf := 7; ne_state := REACHABLE |}.
Definition ex_dumped_intf7 : Interface :=
  {| if_id := 7; if_router := 0; if_vlan := 7; if_name := "fboss7";
     if_mac := 2; if_mtu := 1500; if_addresses := {[IPAddressV4 167772161 := 24%Z]} |}.
Definition ex_dumped_vlan7 (arp : gmap Z NeighborEntry) : Vlan :=
  {| vl_id := 7; vl_name := "vlan7"; vl_ports := {[3%Z := false]}; vl_intf := 7;
     getArpTable := arp; getNdpTable := ∅ |}.

(** Snapshots: with the neighbor 10.0.0.5 in VLAN 7, without it, without
    a VLAN map, and without the interface of VLAN 7. *)
Definition ex_dumped_vlans : gmap Z Vlan :=
  {[7%Z := ex_dumped_vlan7 {[167772165%Z := ex_neighbor5]}]}.
Definition ex_state_neighbor : SwitchState :=
  {| getInterfaces := Some {[7%Z := ex_dumped_intf7]};
     getVlans := Some ex_dumped_vlans |}.
Definition ex_state_no_neighbor : SwitchState :=
  {| getInterfaces := Some {[7%Z := ex_dumped_intf7]};
     getVlans := Some {[7%Z := ex_dumped_vlan7 ∅]} |}.
Definition ex_state_no_vlans : SwitchState :=
  {| getInterfaces := Some {[7%Z := ex_dumped_intf7]}; getVlans := None |}.
Definition ex_state_no_intf : SwitchState :=
  {| getInterfaces := Some ∅; getVlans := Some ∅ |}.

(** A cache after discovery: the default VLAN 1 besides VLAN 7, a
    station, a prefix route, a host route, two egress objects and an
    ECMP group over them. *)
Definition ex_vlaninfo1 : VlanInfo :=
  {| vi_vlan := 1; untagged := ∅; allPorts := ∅; intfID := 0 |}.
Definition ex_station7 : Station.t := {| Station.dst_mac := 2; Station.vlan := 7 |}.
Definition ex_egress2 : Egress.t :=
  {| Egress.flags := 0; Egress.vlan := 7; Egress.intf := 7;
     Egress.mac_addr := 12; Egress.port := 4 |}.
Definition ex_teardown : BcmWarmBootCache :=
  set_vlan2VlanInfo (<[1%Z := ex_vlaninfo1]>)
    (set_vlan2Station (λ _, {[7%Z := ex_station7]})
       (set_egressIds2Ecmp (λ _, {[ex_members := ex_ecmp5]})
          (set_egressId2EgressAndBool (<[100002%Z := (ex_egress2, false)]>)
             (routeTraversalCallback ex_route24
                (routeTraversalCallback ex_route32 ex_discovered))))).
Definition ex_claims : list ObjRef :=
  [EgressRef 100003; HostRef (0%Z, IPAddressV4 167772165)].

(** A hardware unit on which every call succeeds and whose default VLAN
    is VLAN 1. *)
Definition ex_sdk (call : SdkCall) (u : unit) : Z * unit := (0%Z, u).
Definition ex_vlan_default_get (u : unit) : Z * Z := (0%Z, 1%Z).
Definition ex_world : @World unit := {| hw_unit := tt; issued := [] |}.

(** Snapshot decoding for the examples. *)
Definition ex_str_to_int64 (s : string) : option Z := None.
Definition ex_uniquePtrFromFollyDynamic (d : dynamic) : Res (option SwitchState) :=
  Ok (Some ex_state_neighbor).
Definition ex_load (json : dynamic) : Res BcmWarmBootCache :=
  populateStateFromWarmbootFile ex_str_to_int64 ex_uniquePtrFromFollyDynamic
    json ex_new.

(** A snapshot of the older format, without the hardware state. *)
Definition ex_old_snapshot : dynamic := d_object [(kSwSwitch, d_null)].

(** Path maps with the INVALID id as a group id, and with an empty path
    set. *)
Definition ex_invalid_group : BcmWarmBootCache :=
  set_hwSwitchEcmp2EgressIdsPopulated true
    (set_hwSwitchEcmp2EgressIds (λ _, {[INVALID := {[10%Z]}]}) ex_new).
Definition ex_empty_group : BcmWarmBootCache :=
  set_hwSwitchEcmp2EgressIdsPopulated true
    (set_hwSwitchEcmp2EgressIds (λ _, {[5%Z := ∅; 6%Z := {[1%Z]}]}) ex_new).

(** A host table section whose ECMP host 5 has the paths 10 and 12. *)
Definition ex_host_table : dynamic :=
  d_object [(kEcmpHosts,
             d_array [d_object [(kEcmpEgressId, d_int 5);
                                (kEcmpEgress,
                                 d_object [(kPaths, d_array [d_int 10; d_int 12])])]])].

(** The reconstruction from the discovered objects and a snapshot. *)
Definition ex_with_snapshot (st : SwitchState) : BcmWarmBootCache :=
  set_dumpedSwSwitchState (Some st) ex_discovered.
Definition ex_reconstructed (st : SwitchState) : gmap Z Vlan :=
  match reconstructVlanMap (ex_with_snapshot st) with
  | Ok vlans => vlans
  | _ => ∅
  end.

End ExampleInputs.

(** ** Example inputs for the discovery, the reconstruction and the
    teardown as a whole *)

Section MoreExampleInputs.
#[local] Existing Instance opennsl_consts.

(** A warm boot file: the ECMP host 5 with the paths 10 and 12 in the
    host table, the group 5 with the paths 10 and 11 in the warm boot
    cache section. *)
Definition ex_file : dynamic :=
  warmBootFile d_null ex_host_table (toFollyDynamic ex_persisted).
Definition ex_loaded : BcmWarmBootCache :=
  match ex_load ex_file with
  | Ok cache => cache
  | _ => ex_new
  end.

(** The tables of a hardware unit: the VLANs 7 (ports 3 and 4, with an
    interface and a station) and 1 (no port, no interface), the host
    10.0.0.5 behind the egress object 100003, two routes, that egress
    object besides a drop and a to-CPU egress object, and an ECMP group
    with two members. *)
Definition ex_not_found : Z := (-7)%Z.
Definition ex_vlanIntfID (vlan : VlanID) : InterfaceID := vlan.
Definition ex_intf_init : L3Intf.t :=
  {| L3Intf.l3a_vid := 1; L3Intf.l3a_vrf := 0; L3Intf.l3a_mtu := 0;
     L3Intf.l3a_mac_addr := 0 |}.
Definition ex_vlan_list : list opennsl_vlan_data_t :=
  [{| vlan_tag := 7; port_bitmap := {[3%Z; 4%Z]} |};
   {| vlan_tag := 1; port_bitmap := ∅ |}].
Definition ex_hw_egresses : list (Z * Egress.t) :=
  [(100003%Z, ex_egress3); (100001%Z, ex_egress_drop); (100002%Z, ex_egress_cpu)].
Definition ex_hw_ecmps : list (Ecmp.t * list EgressId) :=
  [(ex_ecmp5, [100002%Z; 100003%Z]); (ex_ecmp6, [])].
Definition ex_hw : HwTables :=
  {| hw_vlan_list := (0%Z, ex_vlan_list);
     hw_l3_intf_find_vlan := λ vlan,
       if decide (vlan = 7%Z) then (0%Z, ex_intf7) else (ex_not_found, ex_intf_init);
     hw_l2_station_get := λ id, (0%Z, ex_station7);
     hw_hosts_v4 := [ex_host5]; hw_hosts_v6 := [];
     hw_routes_v4 := [ex_route32; ex_route24]; hw_routes_v6 := [];
     hw_egresses := ex_hw_egresses;
     hw_ecmps := ex_hw_ecmps |}.

(** The stages of the discovery on these tables. *)
Definition ex_after_hosts : BcmWarmBootCache :=
  opennsl_l3_host_traverse [ex_host5] ex_new.
Definition ex_after_egresses : BcmWarmBootCache :=
  match opennsl_l3_egress_traverse ex_hw_egresses ex_after_hosts with
  | Ok cache => cache
  | _ => ex_new
  end.
Definition ex_after_ecmps : BcmWarmBootCache :=
  match opennsl_l3_egress_ecmp_traverse ex_hw_ecmps ex_new with
  | Ok cache => cache
  | _ => ex_new
  end.
Definition ex_populate : Res BcmWarmBootCache :=
  populate ex_not_found ex_vlanIntfID ex_str_to_int64 ex_uniquePtrFromFollyDynamic
    ex_hw ex_file ex_new.
Definition ex_populated : BcmWarmBootCache :=
  match ex_populate with
  | Ok cache => cache
  | _ => ex_new
  end.

(** The interfaces reconstructed from the discovered objects and the
    snapshot. *)
Definition ex_intfMap : gmap Z Interface :=
  match reconstructInterfaceMap (ex_with_snapshot ex_state_neighbor) with
  | Ok intfMap => intfMap
  | _ => ∅
  end.


(** The reconstructed VLAN 7. *)
Definition ex_vlan7 : Vlan :=
  default (newVlan 7 "") (ex_reconstructed ex_state_neighbor !! 7%Z).

(** A completed teardown. *)
Definition ex_torn_down : BcmWarmBootCache :=
  match (clear ex_sdk ex_vlan_default_get ex_teardown ex_world).1 with
  | Ok cache => cache
  | _ => ex_new
  end.
Definition ex_world_after : @World unit :=
  (clear ex_sdk ex_vlan_default_get ex_teardown ex_world).2.

End MoreExampleInputs.

(** * Properties *)

Section EcmpPaths.
Context `{!SdkConsts}.

Lemma getPathsForEcmp_unpopulated cache e :
  hwSwitchEcmp2EgressIdsPopulated_ cache = false →
  getPathsForEcmp cache e = Abort (CheckFailed "hwSwitchEcmp2EgressIdsPopulated_").
Proof. intros Hp. unfold getPathsForEcmp. by rewrite Hp. Qed.

Lemma getPathsForEcmp_found cache e ids :
  hwSwitchEcmp2EgressIdsPopulated_ cache = true →
  hwSwitchEcmp2EgressIds_ cache !! e = Some ids →
  getPathsForEcmp cache e = Ok ids.
Proof.
  intros Hp Hids. unfold getPathsForEcmp. rewrite Hp. case_decide as Hm.
  - rewrite Hm in Hids. by rewrite lookup_empty in Hids.
  - by rewrite Hids.
Qed.

Lemma getPathsForEcmp_empty cache e :
  hwSwitchEcmp2EgressIdsPopulated_ cache = true →
  hwSwitchEcmp2EgressIds_ cache = ∅ →
  getPathsForEcmp cache e = Ok ∅.
Proof. intros Hp Hm. unfold getPathsForEcmp. by rewrite Hp, decide_True. Qed.

Lemma getPathsForEcmp_missing cache e :
  hwSwitchEcmp2EgressIdsPopulated_ cache = true →
  hwSwitchEcmp2EgressIds_ cache ≠ ∅ →
  hwSwitchEcmp2EgressIds_ cache !! e = None →
  getPathsForEcmp cache e = Throw (FbossError "Could not find ecmp ID").
Proof.
  intros Hp Hm Hnone. unfold getPathsForEcmp.
  rewrite Hp, decide_False by done. by rewrite Hnone.
Qed.

(** C4, as amended. With the populated flag set, [getPathsForEcmp]
    returns the stored member set of a group id that is present; when
    the stored map is empty it returns the empty set for every id; when
    the map is not empty and the id is absent it fails with the
    not-found error. With the flag clear (no persisted hardware state
    was loaded) the call stops on its CHECK. *)
Theorem getPathsForEcmp_spec (cache : BcmWarmBootCache) (e : Z) :
  (hwSwitchEcmp2EgressIdsPopulated_ cache = true →
     (∀ ids, hwSwitchEcmp2EgressIds_ cache !! e = Some ids →
             getPathsForEcmp cache e = Ok ids) ∧
     (hwSwitchEcmp2EgressIds_ cache = ∅ → getPathsForEcmp cache e = Ok ∅) ∧
     (hwSwitchEcmp2EgressIds_ cache ≠ ∅ →
      hwSwitchEcmp2EgressIds_ cache !! e = None →
      getPathsForEcmp cache e = Throw (FbossError "Could not find ecmp ID"))) ∧
  (hwSwitchEcmp2EgressIdsPopulated_ cache = false →
     ∃ what, getPathsForEcmp cache e = Abort (CheckFailed what)).
Proof.
  split.
  - intros Hp. split; [|split].
    + intros ids. by apply getPathsForEcmp_found.
    + by apply getPathsForEcmp_empty.
    + by apply getPathsForEcmp_missing.
  - intros Hp. eexists. by apply getPathsForEcmp_unpopulated.
Qed.

Lemma recordEcmp_ok ecmp (paths : gset Z) cache :
  paths ≠ ∅ → egressIds2Ecmp_ cache !! paths = None →
  recordEcmp ecmp paths cache = Ok (set_egressIds2Ecmp (<[paths := ecmp]>) cache).
Proof.
  intros Hne Hfresh. unfold recordEcmp.
  rewrite decide_False; last first.
  { intros Hs. apply size_empty_iff in Hs. apply Hne. by apply leibniz_equiv. }
  rewrite decide_False; [done|]. rewrite Hfresh. by intros [? ?].
Qed.

Lemma recordEcmp_inv ecmp (paths : gset Z) cache cache' :
  recordEcmp ecmp paths cache = Ok cache' →
  cache' = set_egressIds2Ecmp (<[paths := ecmp]>) cache.
Proof.
  unfold recordEcmp. repeat case_decide; intros; simplify_eq. done.
Qed.

(** C3. With persisted ECMP path data populated, the callback never
    looks at the member list the hardware reports: its result is the
    same for every list; when the persisted map has a (non-empty, not
    yet recorded) path set for the group id, the group is recorded under
    that set; and whatever the callback records is recorded under the
    persisted path set of the group id. *)
Theorem ecmp_callback_prefers_persisted (cache : BcmWarmBootCache)
    (ecmp : Ecmp.t) (intfCount : Z) (intfArray : list Z) :
  hwSwitchEcmp2EgressIdsPopulated_ cache = true →
  (∀ intfArray',
     ecmpEgressTraversalCallback ecmp intfCount intfArray' cache =
     ecmpEgressTraversalCallback ecmp intfCount intfArray cache) ∧
  (∀ paths, hwSwitchEcmp2EgressIds_ cache !! Ecmp.ecmp_intf ecmp = Some paths →
     paths ≠ ∅ → egressIds2Ecmp_ cache !! paths = None →
     ecmpEgressTraversalCallback ecmp intfCount intfArray cache =
     Ok (set_egressIds2Ecmp (<[paths := ecmp]>) cache)) ∧
  (∀ cache', ecmpEgressTraversalCallback ecmp intfCount intfArray cache = Ok cache' →
     cache' = cache ∨
     ∃ paths, hwSwitchEcmp2EgressIds_ cache !! Ecmp.ecmp_intf ecmp = Some paths ∧
              cache' = set_egressIds2Ecmp (<[paths := ecmp]>) cache).
Proof.
  intros Hp. unfold ecmpEgressTraversalCallback. rewrite Hp. repeat split.
  - intros paths Hpaths Hne Hfresh.
    rewrite (getPathsForEcmp_found _ _ _ Hp Hpaths).
    by apply recordEcmp_ok.
  - intros cache'. unfold getPathsForEcmp. rewrite Hp.
    case_decide as Hm.
    + unfold recordEcmp. rewrite decide_True by (by rewrite size_empty). done.
    + destruct (hwSwitchEcmp2EgressIds_ cache !! Ecmp.ecmp_intf ecmp) as [paths|] eqn:Hl.
      * intros ->%recordEcmp_inv. right. by exists paths.
      * case_decide; intros; simplify_eq. by left.
Qed.

(** C5. When the persisted lookup for the callback's group id raises the
    not-found error, the callback leaves the cache as it is and reports
    no error exactly when the hardware-reported member count is zero;
    with any other count the same error reaches the caller. *)
Theorem ecmp_callback_not_found (cache : BcmWarmBootCache) (ecmp : Ecmp.t)
    (intfCount : Z) (intfArray : list Z) (msg : string) :
  hwSwitchEcmp2EgressIdsPopulated_ cache = true →
  getPathsForEcmp cache (Ecmp.ecmp_intf ecmp) = Throw (FbossError msg) →
  (ecmpEgressTraversalCallback ecmp intfCount intfArray cache = Ok cache
     ↔ intfCount = 0%Z) ∧
  (intfCount ≠ 0%Z →
     ecmpEgressTraversalCallback ecmp intfCount intfArray cache
     = Throw (FbossError msg)) ∧
  (∀ cache', ecmpEgressTraversalCallback ecmp intfCount intfArray cache = Ok cache' →
     cache' = cache).
Proof.
  intros Hp Hthrow. unfold ecmpEgressTraversalCallback. rewrite Hp, Hthrow.
  case_decide as Hc; repeat split; try done; intros; simplify_eq; done.
Qed.

End EcmpPaths.

Section RouteClassification.
Context `{!SdkConsts}.

Lemma full_mask_test (route : Route.t) :
  let isIPv6 := route_is_v6 route in
  (isIPv6 && bool_decide (route_mask route = getFullMaskIPv6Address)) ||
  (negb isIPv6 && bool_decide (route_mask route = getFullMaskIPv4Address)) = true
  ↔ full_width_mask route.
Proof.
  unfold full_width_mask, route_mask, getFullMaskIPv4Address, getFullMaskIPv6Address.
  rewrite !Z.ones_equiv.
  destruct (route_is_v6 route); simpl.
  - rewrite orb_false_r, bool_decide_eq_true. split; [by intros [= ->]|by intros ->].
  - rewrite bool_decide_eq_true. split; [by intros [= ->]|by intros ->].
Qed.

(** C6. The route callback stores a route in the host-route map, under
    (VRF, IP), exactly when the mask of the route is the all-ones mask
    of its address family and the platform allows host routes in the
    host table; in every other case (a full mask with promotion
    disabled among them) it stores the route in the prefix-route map,
    under (VRF, prefix, mask). Either way the other map is untouched. *)
Theorem routeTraversalCallback_classifies (route : Route.t) (cache : BcmWarmBootCache) :
  let host_route :=
    full_width_mask route ∧ canUseHostTableForHostRoutes (platform cache) = true in
  let cache' := routeTraversalCallback route cache in
  (host_route →
     cache' = set_vrfAndIP2Route
                (<[(Route.l3a_vrf route, route_ip route) := route]>) cache) ∧
  (¬ host_route →
     cache' = set_vrfPrefix2Route
                (<[(Route.l3a_vrf route, route_ip route, route_mask route) := route]>)
                cache) ∧
  (vrfAndIP2Route_ cache !! (Route.l3a_vrf route, route_ip route) = None →
     (vrfAndIP2Route_ cache' !! (Route.l3a_vrf route, route_ip route) = Some route
      ↔ host_route)) ∧
  (vrfPrefix2Route_ cache
     !! (Route.l3a_vrf route, route_ip route, route_mask route) = None →
     (vrfPrefix2Route_ cache'
        !! (Route.l3a_vrf route, route_ip route, route_mask route) = Some route
      ↔ ¬ host_route)).
Proof.
  intros host_route cache'.
  assert (Hcb : cache' =
    if canUseHostTableForHostRoutes (platform cache) &&
       ((route_is_v6 route && bool_decide (route_mask route = getFullMaskIPv6Address)) ||
        (negb (route_is_v6 route) &&
         bool_decide (route_mask route = getFullMaskIPv4Address)))
    then set_vrfAndIP2Route
           (<[(Route.l3a_vrf route, route_ip route) := route]>) cache
    else set_vrfPrefix2Route
           (<[(Route.l3a_vrf route, route_ip route, route_mask route) := route]>)
           cache).
  { subst cache'. unfold routeTraversalCallback, route_ip, route_mask, route_is_v6,
      fromBinary, fromLongHBO. by destruct (flag_set _ _). }
  pose proof (full_mask_test route) as Hmask. simpl in Hmask.
  assert (Hb : canUseHostTableForHostRoutes (platform cache) &&
       ((route_is_v6 route && bool_decide (route_mask route = getFullMaskIPv6Address)) ||
        (negb (route_is_v6 route) &&
         bool_decide (route_mask route = getFullMaskIPv4Address))) = true
       ↔ host_route).
  { rewrite andb_true_iff, Hmask. unfold host_route. tauto. }
  destruct (_ && _) eqn:Hcond in Hcb, Hb.
  - assert (host_route) as Hh by (by apply Hb).
    split; [done|]. split; [done|]. split.
    + intros _. rewrite Hcb. simpl. by rewrite lookup_insert_eq.
    + intros Hnone. rewrite Hcb. simpl. rewrite Hnone. by split.
  - assert (¬ host_route) as Hh by (intros Hh; by apply Hb in Hh).
    split; [done|]. split; [done|]. split.
    + intros Hnone. rewrite Hcb. simpl. rewrite Hnone. by split.
    + intros _. rewrite Hcb. simpl. by rewrite lookup_insert_eq.
Qed.

End RouteClassification.

Section EgressDiscovery.
Context `{!SdkConsts}.

Lemma flag_set_lor (x a b : Z) :
  flag_set x (Z.lor a b) = flag_set x a || flag_set x b.
Proof.
  unfold flag_set. rewrite Z.land_lor_distr_r.
  destruct (Z.eqb_spec (Z.land x a) 0) as [Ha|Ha];
    destruct (Z.eqb_spec (Z.land x b) 0) as [Hb|Hb]; simpl.
  - rewrite Ha, Hb. done.
  - rewrite Ha, Z.lor_0_l. by apply Z.eqb_neq in Hb as ->.
  - assert (Z.lor (Z.land x a) (Z.land x b) ≠ 0%Z) as Hn.
    { rewrite Z.lor_eq_0_iff. tauto. }
    by apply Z.eqb_neq in Hn as ->.
  - assert (Z.lor (Z.land x a) (Z.land x b) ≠ 0%Z) as Hn.
    { rewrite Z.lor_eq_0_iff. tauto. }
    by apply Z.eqb_neq in Hn as ->.
Qed.

Lemma count_where_cons {A} (p : A → bool) (x : A) (l : list A) :
  count_where p (x :: l) = (if p x then 1 else 0) + count_where p l.
Proof. unfold count_where. simpl. by destruct (p x). Qed.

Lemma unreferenced_cons hostIds (x : Z * Egress.t) l :
  unreferenced hostIds (x :: l) =
  if bool_decide (x.1 ∉ hostIds) then x :: unreferenced hostIds l
  else unreferenced hostIds l.
Proof. done. Qed.

(** One callback, on an id that is new to the egress map. *)
Lemma egressTraversalCallback_cases (id : Z) (e : Egress.t) cache :
  egressId2EgressAndBool_ cache !! id = None →
  if bool_decide (id ∈ egressOrEcmpIdsFromHostTable_ cache) then
    egressTraversalCallback id e cache
    = Ok (set_egressId2EgressAndBool (<[id := (e, false)]>) cache)
  else if drop_role (id, e) then
    if decide (dropEgressId_ cache = INVALID)
    then egressTraversalCallback id e cache = Ok (set_dropEgressId id cache)
    else ∃ what, egressTraversalCallback id e cache = Abort (LogFatal what)
  else if to_cpu_role (id, e) then
    if decide (toCPUEgressId_ cache = INVALID)
    then egressTraversalCallback id e cache = Ok (set_toCPUEgressId id cache)
    else ∃ what, egressTraversalCallback id e cache = Abort (LogFatal what)
  else ∃ what, egressTraversalCallback id e cache = Abort (LogFatal what).
Proof.
  intros Hfresh. unfold egressTraversalCallback.
  rewrite decide_False by (rewrite Hfresh; by intros [? ?]).
  unfold drop_role, to_cpu_role, has_drop_flag, has_to_cpu_flag. simpl.
  rewrite flag_set_lor.
  case_bool_decide as Hin;
    destruct (decide (id ∈ egressOrEcmpIdsFromHostTable_ cache)); try done.
  destruct (flag_set (Egress.flags e) OPENNSL_L3_DST_DISCARD); simpl.
  { destruct (decide (dropEgressId_ cache = INVALID));
      destruct (decide (dropEgressId_ cache ≠ INVALID)); try done. by eexists. }
  destruct (_ || _); simpl.
  { destruct (decide (toCPUEgressId_ cache = INVALID));
      destruct (decide (toCPUEgressId_ cache ≠ INVALID)); try done. by eexists. }
  by eexists.
Qed.

(** The traversal from any cache: it completes when the roles still free
    suffice, and stops on a LOG(FATAL) otherwise. *)
Lemma egress_traverse_from (l : list (Z * Egress.t)) : ∀ cache,
  NoDup l.*1 →
  (∀ id, id ∈ l.*1 → egressId2EgressAndBool_ cache !! id = None) →
  INVALID ∉ l.*1 →
  let fits := roles_fit (drop_taken cache) (to_cpu_taken cache)
                (egressOrEcmpIdsFromHostTable_ cache) l in
  (fits → ∃ cache', opennsl_l3_egress_traverse l cache = Ok cache') ∧
  (¬ fits → ∃ what, opennsl_l3_egress_traverse l cache = Abort (LogFatal what)).
Proof.
  unfold roles_fit.
  induction l as [|[id e] l IH]; intros cache Hnd Hfresh Hinv.
  { split; [by eexists|]. intros Hn. exfalso. apply Hn.
    unfold drop_taken, to_cpu_taken, count_where. simpl.
    repeat case_decide; lia. }
  rewrite fmap_cons in Hnd, Hfresh, Hinv. simpl in Hnd, Hfresh, Hinv.
  apply NoDup_cons in Hnd as [Hid Hnd].
  apply not_elem_of_cons in Hinv as [Hne Hinv].
  pose proof (egressTraversalCallback_cases id e cache
                (Hfresh id ltac:(by left))) as Hcb.
  change (opennsl_l3_egress_traverse ((id, e) :: l) cache)
    with (egressTraversalCallback id e cache ≫= opennsl_l3_egress_traverse l).
  rewrite unreferenced_cons. simpl.
  case_bool_decide as Hin; simpl in Hcb.
  - (* referenced by the host table *)
    rewrite bool_decide_eq_false_2 by (by intros ?).
    rewrite Hcb. simpl.
    apply (IH (set_egressId2EgressAndBool (<[id := (e, false)]>) cache)); try done.
    intros id' Hid'. simpl. rewrite lookup_insert_ne by (by intros ->).
    apply Hfresh. by right.
  - rewrite bool_decide_eq_true_2 by done.
    rewrite !count_where_cons.
    unfold no_role, to_cpu_role in *. unfold drop_role in *. simpl in *.
    destruct (has_drop_flag e); simpl in *.
    + (* the drop role *)
      unfold drop_taken at 1 2. case_decide as Hfree.
      * rewrite Hcb. simpl.
        specialize (IH (set_dropEgressId id cache) Hnd).
        destruct IH as [IHok IHbad]; try done.
        { intros id' Hid'. simpl. apply Hfresh. by right. }
        unfold drop_taken, to_cpu_taken in IHok, IHbad. simpl in IHok, IHbad.
        rewrite decide_False in IHok, IHbad by done.
        unfold to_cpu_taken.
        split; intros Hfits; [apply IHok|apply IHbad]; lia.
      * destruct Hcb as [what ->]. simpl.
        split; [intros Hfits; lia|]. intros _. by eexists.
    + destruct (has_to_cpu_flag e); simpl in *.
      * (* the to-CPU role *)
        unfold to_cpu_taken at 1 2. case_decide as Hfree.
        -- rewrite Hcb. simpl.
           specialize (IH (set_toCPUEgressId id cache) Hnd).
           destruct IH as [IHok IHbad]; try done.
           { intros id' Hid'. simpl. apply Hfresh. by right. }
           unfold drop_taken, to_cpu_taken in IHok, IHbad. simpl in IHok, IHbad.
           rewrite (decide_False (P := id = INVALID)) in IHok, IHbad by done.
           unfold drop_taken.
           split; intros Hfits; [apply IHok|apply IHbad]; lia.
        -- destruct Hcb as [what ->]. simpl.
           split; [intros Hfits; lia|]. intros _. by eexists.
      * (* neither flag *)
        destruct Hcb as [what ->]. simpl.
        split; [intros Hfits; lia|]. intros _. by eexists.
Qed.

(** The host and route traversals, which run before the egress
    traversal, leave the singleton ids unset and the egress map empty. *)
Lemma before_egress_traversal (p : BcmPlatform) (hosts : list Host.t)
    (routes : list Route.t) :
  let cache := opennsl_l3_route_traverse routes
                 (opennsl_l3_host_traverse hosts (BcmWarmBootCache_new p)) in
  dropEgressId_ cache = INVALID ∧ toCPUEgressId_ cache = INVALID ∧
  egressId2EgressAndBool_ cache = ∅.
Proof.
  simpl.
  assert (Hhosts : ∀ hs c,
            dropEgressId_ (opennsl_l3_host_traverse hs c) = dropEgressId_ c ∧
            toCPUEgressId_ (opennsl_l3_host_traverse hs c) = toCPUEgressId_ c ∧
            egressId2EgressAndBool_ (opennsl_l3_host_traverse hs c)
              = egressId2EgressAndBool_ c).
  { induction hs as [|h hs IH]; intros c; [done|].
    change (opennsl_l3_host_traverse (h :: hs) c)
      with (opennsl_l3_host_traverse hs (hostTraversalCallback h c)).
    destruct (IH (hostTraversalCallback h c)) as (-> & -> & ->). done. }
  assert (Hroutes : ∀ rs c,
            dropEgressId_ (opennsl_l3_route_traverse rs c) = dropEgressId_ c ∧
            toCPUEgressId_ (opennsl_l3_route_traverse rs c) = toCPUEgressId_ c ∧
            egressId2EgressAndBool_ (opennsl_l3_route_traverse rs c)
              = egressId2EgressAndBool_ c).
  { induction rs as [|r rs IH]; intros c; [done|].
    change (opennsl_l3_route_traverse (r :: rs) c)
      with (opennsl_l3_route_traverse rs (routeTraversalCallback r c)).
    destruct (IH (routeTraversalCallback r c)) as (-> & -> & ->).
    unfold routeTraversalCallback. by destruct (_ && _). }
  destruct (Hroutes routes (opennsl_l3_host_traverse hosts (BcmWarmBootCache_new p)))
    as (-> & -> & ->).
  destruct (Hhosts hosts (BcmWarmBootCache_new p)) as (-> & -> & ->). done.
Qed.

(** C7, as amended. From a cache whose singleton ids are both unset (as
    the constructor leaves them), over hardware egress objects with
    distinct ids, none of them the INVALID id and none yet in the egress
    map: the traversal completes exactly when, among the objects no
    host-table entry refers to, at most one has the drop flag, at most
    one has a to-CPU flag without the drop flag, and none has neither;
    in every other case it stops on one of the LOG(FATAL) branches. *)
Theorem egress_discovery_singletons (cache : BcmWarmBootCache)
    (l : list (Z * Egress.t)) :
  dropEgressId_ cache = INVALID →
  toCPUEgressId_ cache = INVALID →
  NoDup l.*1 →
  (∀ id, id ∈ l.*1 → egressId2EgressAndBool_ cache !! id = None) →
  INVALID ∉ l.*1 →
  (singleton_roles (egressOrEcmpIdsFromHostTable_ cache) l →
     ∃ cache', opennsl_l3_egress_traverse l cache = Ok cache') ∧
  (¬ singleton_roles (egressOrEcmpIdsFromHostTable_ cache) l →
     ∃ what, opennsl_l3_egress_traverse l cache = Abort (LogFatal what)).
Proof.
  intros Hd Ht Hnd Hfresh Hinv.
  pose proof (egress_traverse_from l cache Hnd Hfresh Hinv) as Hgen.
  unfold drop_taken, to_cpu_taken in Hgen.
  rewrite !decide_True in Hgen by done. exact Hgen.
Qed.

End EgressDiscovery.

Section Loops.

(** An invariant of a loop holds of the state the loop ends in. *)
Lemma forM_invariant {A S} (P : S → Prop) (body : A → S → Res S) (l : list A) :
  ∀ s s',
  (∀ x s s', x ∈ l → P s → body x s = Ok s' → P s') →
  P s → forM body l s = Ok s' → P s'.
Proof.
  induction l as [|x l IH]; intros s s' Hstep Hs; simpl.
  - by intros [= <-].
  - destruct (body x s) as [s1| |] eqn:Hb; simpl; try done.
    apply IH.
    + intros y t t' Hy. apply Hstep. by right.
    + eapply Hstep; [by left|done|done].
Qed.

(** A loop whose body succeeds on every element runs to its end. *)
Lemma forM_total {A S} (body : A → S → Res S) (l : list A) :
  ∀ s, (∀ x s, x ∈ l → ∃ s', body x s = Ok s') → ∃ s', forM body l s = Ok s'.
Proof.
  induction l as [|x l IH]; intros s Hok; simpl; [by eexists|].
  destruct (Hok x s) as [s1 ->]; [by left|]. simpl.
  apply IH. intros y t Hy. apply Hok. by right.
Qed.

(** A loop whose body can only succeed or stop with [r], and does stop
    on some element whatever the state, stops with [r]. *)
Lemma forM_stops {A S} (body : A → S → Res S) (r : Res S) (l : list A) :
  ∀ s,
  (∀ s', r ≠ Ok s') →
  (∀ x s, x ∈ l → body x s = r ∨ ∃ s', body x s = Ok s') →
  (∃ x, x ∈ l ∧ ∀ s, body x s = r) →
  forM body l s = match r with Ok _ => r | Throw e => Throw e | Abort f => Abort f end.
Proof.
  induction l as [|x l IH]; intros s Hr Hbody [y [Hy Hstop]].
  { by apply elem_of_nil in Hy. }
  simpl. destruct (Hbody x s) as [Hx|[s1 Hx]]; [by left| |].
  - rewrite Hx. destruct r; simpl; try done. by destruct (Hr a).
  - rewrite Hx. simpl. apply elem_of_cons in Hy as [->|Hy].
    + rewrite Hstop in Hx. subst r. by destruct (Hr s1).
    + apply IH; [done| |by exists y].
      intros z t Hz. apply Hbody. by right.
Qed.

End Loops.

Section InterfaceReconstruction.

(** C10. With a snapshot that has an interface map: when the map holds
    an interface for the VLAN id of every discovered hardware interface,
    [reconstructInterfaceMap] returns an interface map; when some
    discovered interface has a VLAN id the snapshot does not know, the
    lookup's null result is dereferenced: the outcome is neither an
    error result nor a map that skips the entry. *)
Theorem reconstructInterfaceMap_needs_snapshot_interface
    (cache : BcmWarmBootCache) (st : SwitchState) (dumped : gmap Z Interface) :
  dumpedSwSwitchState_ cache = Some st →
  getInterfaces st = Some dumped →
  ((∀ k bcmIntf, vlanAndMac2Intf_ cache !! k = Some bcmIntf →
                 is_Some (dumped !! L3Intf.l3a_vid bcmIntf)) →
     ∃ intfMap, reconstructInterfaceMap cache = Ok intfMap) ∧
  ((∃ k bcmIntf, vlanAndMac2Intf_ cache !! k = Some bcmIntf ∧
                 dumped !! L3Intf.l3a_vid bcmIntf = None) →
     reconstructInterfaceMap cache = Abort NullDeref).
Proof.
  intros Hst Hdumped. unfold reconstructInterfaceMap. rewrite Hst. simpl.
  rewrite Hdumped. simpl. split.
  - intros Hall. apply forM_total. intros [k bcmIntf] m Hin.
    apply elem_of_map_to_list in Hin. simpl.
    destruct (Hall k bcmIntf Hin) as [i ->]. simpl. by eexists.
  - intros (k & bcmIntf & Hin & Hnone).
    apply (forM_stops _ (Abort NullDeref)); [done| |].
    + intros [k' i'] m _. simpl.
      destruct (dumped !! L3Intf.l3a_vid i'); simpl; [right; by eexists|by left].
    + exists (k, bcmIntf). split; [by apply elem_of_map_to_list|].
      intros m. simpl. by rewrite Hnone.
Qed.

End InterfaceReconstruction.

Section VlanReconstruction.
Context `{!SdkConsts}.

Lemma arp_known_empty dumped V : arp_known dumped V ∅.
Proof. intros a [? Ha]. by rewrite lookup_empty in Ha. Qed.
Lemma ndp_known_empty dumped V : ndp_known dumped V ∅.
Proof. intros a [? Ha]. by rewrite lookup_empty in Ha. Qed.

Lemma arp_known_insert dumped V arp a e dumpedVlan :
  dumped !! V = Some dumpedVlan → is_Some (getArpTable dumpedVlan !! a) →
  arp_known dumped V arp → arp_known dumped V (<[a := e]> arp).
Proof.
  intros HV Ha Hk b Hb. destruct (decide (a = b)) as [<-|Hne].
  - by exists dumpedVlan.
  - rewrite lookup_insert_ne in Hb by done. by apply Hk.
Qed.
Lemma ndp_known_insert dumped V ndp a e dumpedVlan :
  dumped !! V = Some dumpedVlan → is_Some (getNdpTable dumpedVlan !! a) →
  ndp_known dumped V ndp → ndp_known dumped V (<[a := e]> ndp).
Proof.
  intros HV Ha Hk b Hb. destruct (decide (a = b)) as [<-|Hne].
  - by exists dumpedVlan.
  - rewrite lookup_insert_ne in Hb by done. by apply Hk.
Qed.

(** The second loop keeps the tables within the snapshot's. *)
Lemma addHostToAddrTables_known cache dumped x (m m' : gmap Z AddrTables) :
  (∀ V t, m !! V = Some t →
          arp_known dumped V (arpTable t) ∧ ndp_known dumped V (ndpTable t)) →
  addHostToAddrTables cache (Some dumped) x m = Ok m' →
  ∀ V t, m' !! V = Some t →
         arp_known dumped V (arpTable t) ∧ ndp_known dumped V (ndpTable t).
Proof.
  intros Hm. unfold addHostToAddrTables.
  destruct (findEgress cache _ _) as [[bcmEgress claimed]|]; [|by intros [= <-]].
  case_decide as Hcpu; [by intros [= <-]|].
  unfold getVlan.
  destruct (dumped !! Egress.vlan bcmEgress) as [dumpedVlan|] eqn:HV; simpl; [|done].
  assert (Hold : arp_known dumped (Egress.vlan bcmEgress)
                   (arpTable (default AddrTables_new (m !! Egress.vlan bcmEgress))) ∧
                 ndp_known dumped (Egress.vlan bcmEgress)
                   (ndpTable (default AddrTables_new (m !! Egress.vlan bcmEgress)))).
  { destruct (m !! Egress.vlan bcmEgress) as [t0|] eqn:Ht0; simpl.
    - by apply Hm.
    - split; [apply arp_known_empty|apply ndp_known_empty]. }
  destruct Hold as [Harp Hndp].
  destruct (x.1.2) as [a|a]; case_bool_decide as Hkeep; simpl;
    try (by intros [= <-]); intros [= <-] V t;
    (destruct (decide (Egress.vlan bcmEgress = V)) as [<-|Hne];
     [rewrite lookup_insert_eq; intros [= <-]; simpl
     |rewrite lookup_insert_ne by done; by apply Hm]).
  - split; [|done].
    destruct (programmedToDrop bcmEgress); by eapply arp_known_insert.
  - split; [done|].
    destruct (programmedToDrop bcmEgress); by eapply ndp_known_insert.
Qed.

Lemma addPort_tables p tagged v :
  getArpTable (addPort p tagged v) = getArpTable v ∧
  getNdpTable (addPort p tagged v) = getNdpTable v.
Proof. done. Qed.

(** A VLAN built by the first loop has empty neighbor tables. *)
Lemma vlanOfInfo_tables id info :
  getArpTable (vlanOfInfo id info) = ∅ ∧ getNdpTable (vlanOfInfo id info) = ∅.
Proof.
  unfold vlanOfInfo. simpl.
  assert (Hfold : ∀ (f : Vlan → Z → Vlan) (l : list Z) v,
            (∀ v idx, getArpTable (f v idx) = getArpTable v ∧
                      getNdpTable (f v idx) = getNdpTable v) →
            getArpTable (foldl f v l) = getArpTable v ∧
            getNdpTable (foldl f v l) = getNdpTable v).
  { intros f l. induction l as [|i l IH]; intros v Hf; simpl; [done|].
    destruct (IH (f v i) Hf) as [-> ->]. apply Hf. }
  assert (H1 : ∀ v idx, getArpTable (addPort idx false v) = getArpTable v ∧
                        getNdpTable (addPort idx false v) = getNdpTable v) by done.
  assert (H2 : ∀ v idx,
            getArpTable (if decide (idx ∈ untagged info) then v
                         else addPort idx true v) = getArpTable v ∧
            getNdpTable (if decide (idx ∈ untagged info) then v
                         else addPort idx true v) = getNdpTable v).
  { intros v idx. by case_decide. }
  destruct (Hfold _ (elements (allPorts info))
              (foldl (λ v idx, addPort idx false v) (newVlan id "")
                     (elements (untagged info))) H2) as [-> ->].
  destruct (Hfold _ (elements (untagged info)) (newVlan id "") H1) as [-> ->].
  done.
Qed.

Lemma first_loop_tables (l : list (Z * VlanInfo)) (m0 : gmap Z Vlan) :
  (∀ V vlan, m0 !! V = Some vlan → getArpTable vlan = ∅ ∧ getNdpTable vlan = ∅) →
  ∀ V vlan,
    foldl (λ m vlanAndInfo, addVlan (vlanOfInfo vlanAndInfo.1 vlanAndInfo.2) m) m0 l
      !! V = Some vlan →
    getArpTable vlan = ∅ ∧ getNdpTable vlan = ∅.
Proof.
  revert m0. induction l as [|[id info] l IH]; intros m0 Hm0; simpl; [done|].
  apply IH. intros V vlan. unfold addVlan.
  destruct (decide (vl_id (vlanOfInfo id info) = V)) as [<-|Hne].
  - rewrite lookup_insert_eq. intros [= <-]. apply vlanOfInfo_tables.
  - rewrite lookup_insert_ne by done. apply Hm0.
Qed.

(** C8, as amended. When the persisted snapshot has a VLAN map, every
    neighbor of a reconstructed VLAN V, in its ARP table and in its NDP
    table, is a neighbor the snapshot's VLAN V already lists in the same
    table: a host entry is promoted only then. (Without a VLAN map in
    the snapshot the check is skipped.) *)
Theorem reconstructVlanMap_promotes_known_neighbors
    (cache : BcmWarmBootCache) (st : SwitchState) (dumped vlans : gmap Z Vlan) :
  dumpedSwSwitchState_ cache = Some st →
  getVlans st = Some dumped →
  reconstructVlanMap cache = Ok vlans →
  ∀ V vlan, vlans !! V = Some vlan →
    (∀ a, is_Some (getArpTable vlan !! a) →
          ∃ dumpedVlan, dumped !! V = Some dumpedVlan ∧
                        is_Some (getArpTable dumpedVlan !! a)) ∧
    (∀ a, is_Some (getNdpTable vlan !! a) →
          ∃ dumpedVlan, dumped !! V = Some dumpedVlan ∧
                        is_Some (getNdpTable dumpedVlan !! a)).
Proof.
  intros Hst Hdumped. unfold reconstructVlanMap. rewrite Hst. simpl.
  rewrite Hdumped.
  destruct (forM (addHostToAddrTables cache (Some dumped)) _ ∅)
    as [tables| |] eqn:Hloop2; simpl; try done.
  assert (Htables : ∀ V t, tables !! V = Some t →
            arp_known dumped V (arpTable t) ∧ ndp_known dumped V (ndpTable t)).
  { revert Hloop2.
    apply (forM_invariant
      (λ m : gmap Z AddrTables, ∀ V t, m !! V = Some t →
         arp_known dumped V (arpTable t) ∧ ndp_known dumped V (ndpTable t))).
    - intros x m m' _ Hm Hx. by eapply addHostToAddrTables_known.
    - intros V t Ht. by rewrite lookup_empty in Ht. }
  apply (forM_invariant
    (λ vl : gmap Z Vlan, ∀ V vlan, vl !! V = Some vlan →
       arp_known dumped V (getArpTable vlan) ∧ ndp_known dumped V (getNdpTable vlan))).
  - intros [V' t] vl vl' Hin Hvl. simpl.
    apply elem_of_map_to_list in Hin.
    destruct (vl !! V') as [vlan'|] eqn:HV'; [|done].
    intros [= <-] V vlan. destruct (decide (V' = V)) as [<-|Hne].
    + rewrite lookup_insert_eq. intros [= <-]. simpl. by apply Htables.
    + rewrite lookup_insert_ne by done. apply Hvl.
  - intros V vlan HV. apply first_loop_tables in HV as [-> ->].
    + split; [apply arp_known_empty|apply ndp_known_empty].
    + intros V0 vlan0 H0. by rewrite lookup_empty in H0.
Qed.

End VlanReconstruction.

Section RoundTrip.
Context `{!SdkConsts}.
Variable str_to_int64 : string → option Z.
Variable uniquePtrFromFollyDynamic : dynamic → Res (option SwitchState).

Lemma to_int32_id (z : Z) : is_int32 z → to_int32 z = z.
Proof.
  unfold is_int32, to_int32. intros Hz.
  rewrite Z.mod_small; lia.
Qed.

(** The inner loop on the paths the serializer wrote. *)
Lemma addPaths_ints (id : Z) (ps : list Z) : ∀ cache,
  addPaths str_to_int64 id (d_int <$> ps) cache
  = Ok (set_hwSwitchEcmp2EgressIds
          (λ m, foldl (λ acc p, insertPath id p acc) m ps) cache).
Proof.
  induction ps as [|p ps IH]; intros cache; simpl.
  - by destruct cache.
  - unfold addPaths in *. simpl. rewrite IH. done.
Qed.

Lemma insertPaths_fold (id : Z) (ps : list Z) : ∀ acc : gmap Z (gset Z),
  is_int32 id → (∀ p, p ∈ ps → is_int32 p) → ps ≠ [] →
  foldl (λ acc p, insertPath id p acc) acc ps
  = <[id := list_to_set ps ∪ default ∅ (acc !! id)]> acc.
Proof.
  intros acc Hid. revert acc.
  induction ps as [|p ps IH]; intros acc Hps Hne; [done|]. simpl.
  assert (Hstep : insertPath id p acc = <[id := {[p]} ∪ default ∅ (acc !! id)]> acc).
  { unfold insertPath. rewrite (to_int32_id id) by done.
    rewrite (to_int32_id p); [done|]. apply Hps. by left. }
  rewrite Hstep. destruct ps as [|q ps].
  - simpl. by rewrite (right_id_L ∅ (∪)).
  - rewrite IH; [|intros r Hr; apply Hps; by right|done].
    rewrite insert_insert_eq. f_equal.
    rewrite lookup_insert_eq. simpl.
    rewrite (assoc_L (∪)). f_equal. apply (comm_L (∪)).
Qed.

(** The second loop of the loader on the groups the serializer wrote. *)
Lemma load_groups (l : list (Z * gset Z)) : ∀ cache,
  (∀ id ids, (id, ids) ∈ l →
     id ≠ INVALID ∧ is_int32 id ∧ ∀ p, p ∈ ids → is_int32 p) →
  forM (λ ecmpEntry c,
          idJson ← dyn_at kEcmpEgressId ecmpEntry;
          ecmpEgressId ← asInt str_to_int64 idJson;
          if decide (ecmpEgressId = INVALID) then
            Abort (CheckFailed "ecmpEgressId != BcmEgressBase::INVALID")
          else
            pathsJson ← dyn_at kPaths ecmpEntry;
            paths ← dyn_elems pathsJson;
            addPaths str_to_int64 ecmpEgressId paths c)
       (groupJson <$> l) cache
  = Ok (set_hwSwitchEcmp2EgressIds (λ m, foldl loadGroup m l) cache).
Proof.
  induction l as [|[id ids] l IH]; intros cache Hl.
  { simpl. by destruct cache. }
  destruct (Hl id ids) as (Hinv & Hid & Hps); [by left|].
  rewrite fmap_cons. simpl forM.
  change (dyn_at kEcmpEgressId (groupJson (id, ids))) with (Ok (A := dynamic) (d_int id)).
  change (dyn_at kPaths (groupJson (id, ids)))
    with (Ok (A := dynamic) (d_array (d_int <$> elements ids))).
  simpl. rewrite decide_False by done.
  rewrite addPaths_ints. simpl. rewrite IH; last first.
  { intros id' ids' Hin. apply Hl. by right. }
  f_equal. unfold set_hwSwitchEcmp2EgressIds. simpl. f_equal.
  f_equal. unfold loadGroup at 1. simpl.
  case_decide as Hempty.
  - rewrite Hempty, elements_empty. done.
  - rewrite insertPaths_fold.
    + by rewrite list_to_set_elements_L.
    + done.
    + intros p Hp. apply Hps. by apply elem_of_elements.
    + intros Hnil. apply Hempty. apply elements_empty_inv in Hnil.
      by apply leibniz_equiv.
Qed.

Lemma foldl_loadGroup_notin (l : list (Z * gset Z)) : ∀ acc k,
  k ∉ l.*1 → foldl loadGroup acc l !! k = acc !! k.
Proof.
  induction l as [|[id ids] l IH]; intros acc k Hk; [done|].
  rewrite fmap_cons in Hk. apply not_elem_of_cons in Hk as [Hne Hk].
  simpl. rewrite IH by done. unfold loadGroup. simpl in *.
  case_decide; [done|]. by rewrite lookup_insert_ne.
Qed.

Lemma foldl_loadGroup_in (l : list (Z * gset Z)) : ∀ acc k ids,
  NoDup l.*1 → (k, ids) ∈ l →
  foldl loadGroup acc l !! k
  = if decide (ids = ∅) then acc !! k else Some (ids ∪ default ∅ (acc !! k)).
Proof.
  induction l as [|[id ids'] l IH]; intros acc k ids Hnd Hin.
  { by apply elem_of_nil in Hin. }
  rewrite fmap_cons in Hnd. apply NoDup_cons in Hnd as [Hid Hnd].
  apply elem_of_cons in Hin as [[= <- <-]|Hin].
  - simpl. rewrite foldl_loadGroup_notin by done.
    unfold loadGroup. simpl. case_decide; [done|]. by rewrite lookup_insert_eq.
  - assert (id ≠ k) as Hne.
    { intros ->. apply Hid. simpl. apply list_elem_of_fmap. by exists (k, ids). }
    simpl. rewrite (IH _ k ids) by done.
    unfold loadGroup. simpl. destruct (decide (ids' = ∅)); [done|].
    by rewrite !lookup_insert_ne.
Qed.

(** Loading the groups of a map into an empty map gives back the groups
    with a non-empty path set. *)
Lemma foldl_loadGroup_map (m : gmap Z (gset Z)) :
  foldl loadGroup ∅ (map_to_list m) = filter (λ kv, kv.2 ≠ ∅) m.
Proof.
  apply map_eq. intros k.
  destruct (m !! k) as [ids|] eqn:Hk.
  - rewrite (foldl_loadGroup_in _ _ k ids);
      [|apply NoDup_fst_map_to_list|by apply elem_of_map_to_list].
    case_decide as Hempty.
    + rewrite lookup_empty. symmetry. apply map_lookup_filter_None. right.
      intros ids' Hids'. simpl. rewrite Hk in Hids'. intros Hn. apply Hn.
      by simplify_eq.
    + rewrite lookup_empty. simpl. symmetry. apply map_lookup_filter_Some.
      rewrite (right_id_L ∅ (∪)). by split.
  - rewrite foldl_loadGroup_notin; last first.
    { intros Hin. apply list_elem_of_fmap in Hin as [[k' ids] [Heq Hin]].
      apply elem_of_map_to_list in Hin. simpl in Heq. subst k'.
      by rewrite Hk in Hin. }
    rewrite lookup_empty. symmetry. apply map_lookup_filter_None. by left.
Qed.

Lemma toFollyDynamic_groups cache :
  toFollyDynamic cache
  = d_object [(kEcmpObjects,
               d_array (groupJson <$> map_to_list (hwSwitchEcmp2EgressIds_ cache)))].
Proof. done. Qed.

(** The loader on the file of the next cycle, for a serialized map whose
    group ids and paths are valid [int]s: it sets the populated flag and
    stores the groups with a non-empty path set. *)
Lemma load_serialized (old cache : BcmWarmBootCache) (sw : dynamic) (st : SwitchState) :
  uniquePtrFromFollyDynamic sw = Ok (Some st) →
  hwSwitchEcmp2EgressIds_ cache = ∅ →
  (∀ id ids, hwSwitchEcmp2EgressIds_ old !! id = Some ids →
     id ≠ INVALID ∧ is_int32 id ∧ ∀ p, p ∈ ids → is_int32 p) →
  populateStateFromWarmbootFile str_to_int64 uniquePtrFromFollyDynamic
    (warmBootFile sw noEcmpHosts (toFollyDynamic old)) cache
  = Ok (set_hwSwitchEcmp2EgressIds
          (λ _, filter (λ kv, kv.2 ≠ ∅) (hwSwitchEcmp2EgressIds_ old))
          (set_hwSwitchEcmp2EgressIdsPopulated true
             (set_dumpedSwSwitchState (Some st) cache))).
Proof.
  intros Hsw Hempty Hvalid. unfold populateStateFromWarmbootFile.
  change (dyn_find kSwSwitch (warmBootFile sw noEcmpHosts (toFollyDynamic old)))
    with (Ok (A := option dynamic) (Some sw)).
  simpl. rewrite Hsw. simpl.
  etrans.
  { apply (load_groups (map_to_list (hwSwitchEcmp2EgressIds_ old))).
    intros id ids Hin. apply elem_of_map_to_list in Hin. by apply Hvalid. }
  f_equal. unfold set_hwSwitchEcmp2EgressIds. simpl. rewrite Hempty.
  by rewrite foldl_loadGroup_map.
Qed.

(** C9, as amended. For every ECMP path map whose group ids and paths are
    [int]s, with no group id equal to INVALID and no empty path set:
    loading, into the empty cache of the next cycle, the file whose warm
    boot cache section is the map serialized by [toFollyDynamic] (and
    whose host table records no ECMP host) succeeds, sets the populated
    flag and stores the same map, so every group id has the same paths. *)
Theorem ecmp_paths_round_trip (old cache : BcmWarmBootCache) (sw : dynamic)
    (st : SwitchState) :
  uniquePtrFromFollyDynamic sw = Ok (Some st) →
  hwSwitchEcmp2EgressIds_ cache = ∅ →
  valid_groups (hwSwitchEcmp2EgressIds_ old) →
  ∃ cache',
    populateStateFromWarmbootFile str_to_int64 uniquePtrFromFollyDynamic
      (warmBootFile sw noEcmpHosts (toFollyDynamic old)) cache = Ok cache' ∧
    hwSwitchEcmp2EgressIdsPopulated_ cache' = true ∧
    hwSwitchEcmp2EgressIds_ cache' = hwSwitchEcmp2EgressIds_ old ∧
    ∀ e, getPathsForEcmp cache' e
         = getPathsForEcmp (set_hwSwitchEcmp2EgressIdsPopulated true old) e.
Proof.
  intros Hsw Hempty Hvalid.
  assert (Hmap : filter (λ kv : Z * gset Z, kv.2 ≠ ∅) (hwSwitchEcmp2EgressIds_ old)
                 = hwSwitchEcmp2EgressIds_ old).
  { apply map_filter_id. intros id ids Hid. by destruct (Hvalid id ids Hid) as (_ & _ & ? & _). }
  eexists. split.
  - apply (load_serialized old cache sw st Hsw Hempty).
    intros id ids Hid. destruct (Hvalid id ids Hid) as (? & ? & _ & ?). done.
  - simpl. rewrite Hmap. by repeat split.
Qed.

End RoundTrip.

Section TeardownTrace.
Context {Unit : Type}.
Variable sdk : SdkCall → Unit → Z * Unit.
Variable opennsl_vlan_default_get : Unit → Z * VlanID.

Abbreviation World := (@World Unit).
Abbreviation Hw := (@Hw Unit).

Lemma runs_ret {A} (a : A) (w : World) : runs (hw_ret a) w [] (λ b, b = a).
Proof. exists []. simpl. by rewrite app_nil_r. Qed.

Lemma runs_weaken {A} (m : Hw A) w plan (post post' : A → Prop) :
  (∀ a, post a → post' a) → runs m w plan post → runs m w plan post'.
Proof.
  intros Himp (done & Hi & Hp & Hr). exists done. split; [done|]. split; [done|].
  destruct (m w).1; try done. destruct Hr. split; [done|]. by apply Himp.
Qed.

Lemma runs_bind {A B} (m : Hw A) (k : A → Hw B) w p1 p2 post1 post2 :
  runs m w p1 post1 →
  (∀ a w', m w = (Ok a, w') → post1 a → runs (k a) w' p2 post2) →
  runs (hw_bind m k) w (p1 ++ p2) post2.
Proof.
  intros (d1 & Hi1 & Hp1 & Hr1) Hk. unfold runs, hw_bind.
  destruct (m w) as [[a|e|f] w'] eqn:Hm; simpl in *; [| done |].
  - destruct Hr1 as [-> Hpost].
    destruct (Hk a w' eq_refl Hpost) as (d2 & Hi2 & Hp2 & Hr2).
    exists (p1 ++ d2). rewrite Hi2, Hi1, (assoc_L (++)).
    split; [done|]. split; [by apply prefix_app|].
    destruct ((k a w').1); try done. destruct Hr2 as [-> ?]. done.
  - exists d1. split; [done|]. split; [by apply prefix_app_r|done].
Qed.

Lemma runs_del op call what (w : World) :
  runs (del sdk op call what) w [op] (λ _, True).
Proof.
  unfold runs, del. destruct (sdk call (hw_unit w)) as [rv u]. simpl.
  exists [op]. split; [done|]. split; [done|].
  unfold bcmLogFatal. by destruct (OPENNSL_FAILURE rv).
Qed.

Lemma runs_skip (w : World) : runs (hw_ret tt) w [] (λ _, True).
Proof. eapply runs_weaken; [|apply runs_ret]. done. Qed.

(** A loop issues what its iterations issue, in the order of the list. *)
Lemma runs_sweep {A} (body : A → Hw unit) (ops : A → list HwOp) (l : list A) :
  (∀ x w, runs (body x) w (ops x) (λ _, True)) →
  ∀ w, runs (sweep body l) w (l ≫= ops) (λ _, True).
Proof.
  intros Hbody. induction l as [|x l IH]; intros w; simpl.
  - apply runs_skip.
  - apply (runs_bind _ _ _ _ _ (λ _, True)); [apply Hbody|]. intros; apply IH.
Qed.

Lemma runs_sweep_del {A} (op : A → HwOp) (call : A → SdkCall) what (l : list A) w :
  runs (sweep (λ x, del sdk (op x) (call x) what) l) w (op <$> l) (λ _, True).
Proof.
  replace (op <$> l) with (l ≫= λ x, [op x]).
  - apply runs_sweep. intros x w'. apply runs_del.
  - induction l as [|x l IH]; [done|]. rewrite fmap_cons, bind_cons, IH. done.
Qed.

Lemma runs_getDefaultVlan (w : World) :
  ∃ defaultVlan,
    runs (getDefaultVlan opennsl_vlan_default_get) w [GetDefaultVlan defaultVlan]
         (λ v, v = defaultVlan).
Proof.
  unfold runs, getDefaultVlan.
  destruct (opennsl_vlan_default_get (hw_unit w)) as [rv v]. exists v.
  exists [GetDefaultVlan v]. simpl. unfold bcmLogFatal.
  destruct (OPENNSL_FAILURE rv); simpl; by repeat split.
Qed.

(** A plan that depends on a later answer of the hardware. *)
Lemma runs_bind_ex {A B} (m : Hw A) (k : A → Hw B) w p1 (p2 : Z → list HwOp)
    post1 (post2 : Z → B → Prop) :
  runs m w p1 post1 →
  (∀ a w', m w = (Ok a, w') → post1 a → ∃ v, runs (k a) w' (p2 v) (post2 v)) →
  ∃ v, runs (hw_bind m k) w (p1 ++ p2 v) (post2 v).
Proof.
  intros Hm Hk. destruct (m w) as [[a|e|f] w'] eqn:Hmw.
  - destruct Hm as (d1 & Hi1 & Hp1 & Hr1). rewrite Hmw in Hi1, Hr1. simpl in *.
    destruct Hr1 as [-> Hpost].
    destruct (Hk a w' eq_refl Hpost) as [v Hv]. exists v.
    eapply runs_bind.
    + exists p1. rewrite Hmw. simpl. by repeat split.
    + intros a' w'' Heq _. rewrite Hmw in Heq. simplify_eq. exact Hv.
  - destruct Hm as (d1 & _ & _ & Hr1). by rewrite Hmw in Hr1.
  - exists 0%Z. eapply runs_bind; [exact Hm|]. intros a w''. by rewrite Hmw.
Qed.

(** The teardown issues the operations of [clear_plan], for the default
    VLAN the hardware reports, and leaves the [cleared] cache. *)
Lemma clear_runs (cache : BcmWarmBootCache) (w : World) :
  ∃ defaultVlan,
    runs (clear sdk opennsl_vlan_default_get cache) w
         (clear_plan cache defaultVlan)
         (λ cache', cache' = cleared cache defaultVlan).
Proof.
  unfold clear, clear_plan.
  repeat (apply (runs_bind_ex _ _ _ _ _ (λ _, True));
          [apply runs_sweep_del|intros _ ? _ _]).
  apply (runs_bind_ex _ _ _ _ _ (λ _, True)).
  { apply runs_sweep. intros [id [e claimed]] ?. simpl.
    destruct claimed; [apply runs_skip|apply runs_del]. }
  intros _ ? _ _.
  repeat (apply (runs_bind_ex _ _ _ _ _ (λ _, True));
          [apply runs_sweep_del|intros _ ? _ _]).
  match goal with |- ∃ v, runs _ ?w0 _ _ =>
    destruct (runs_getDefaultVlan w0) as [defaultVlan Hget] end.
  exists defaultVlan.
  eapply runs_bind; [exact Hget|]. intros v ? _ ->.
  rewrite <- (app_nil_r (_ ≫= _)).
  eapply runs_bind.
  - apply runs_sweep. intros [id info] ?. simpl.
    case_decide; [apply runs_skip|apply runs_del].
  - intros _ ? _ _. eapply runs_weaken; [|apply runs_ret]. by intros ? ->.
Qed.

Lemma elem_of_clear_plan cache defaultVlan op :
  op ∈ clear_plan cache defaultVlan ↔ planned cache defaultVlan op.
Proof.
  unfold clear_plan. rewrite !elem_of_app, !list_elem_of_fmap, !list_elem_of_bind.
  rewrite list_elem_of_singleton.
  split.
  - intros [H|[H|[H|[H|[H|[H|[H|[H|H]]]]]]]].
    + destruct H as ([k v] & -> & Hin%elem_of_map_to_list). done.
    + destruct H as ([k v] & -> & Hin%elem_of_map_to_list). done.
    + destruct H as ([k v] & -> & Hin%elem_of_map_to_list). done.
    + destruct H as ([k v] & -> & Hin%elem_of_map_to_list). done.
    + destruct H as ([k [e claimed]] & Hop & Hin%elem_of_map_to_list).
      simpl in Hop. destruct claimed; [by apply elem_of_nil in Hop|].
      apply list_elem_of_singleton in Hop as ->. simpl. by eauto.
    + destruct H as ([k v] & -> & Hin%elem_of_map_to_list). done.
    + destruct H as ([k v] & -> & Hin%elem_of_map_to_list). simpl. by eauto.
    + by subst.
    + destruct H as ([k v] & Hop & Hin%elem_of_map_to_list).
      simpl in Hop. case_decide; [by apply elem_of_nil in Hop|].
      apply list_elem_of_singleton in Hop as ->. simpl. split; [done|by eauto].
  - destruct op as [k r|k r|k h|ids e|id|k i|v|v|v]; simpl.
    + intros Hin. left. exists (k, r). by rewrite elem_of_map_to_list.
    + intros Hin. right; left. exists (k, r). by rewrite elem_of_map_to_list.
    + intros Hin. do 2 right; left. exists (k, h). by rewrite elem_of_map_to_list.
    + intros Hin. do 3 right; left. exists (ids, e). by rewrite elem_of_map_to_list.
    + intros [e Hin]. do 4 right; left. exists (id, (e, false)).
      rewrite elem_of_map_to_list. simpl. split; [by left|done].
    + intros Hin. do 5 right; left. exists (k, i). by rewrite elem_of_map_to_list.
    + intros [st Hin]. do 6 right; left. exists (v, st). by rewrite elem_of_map_to_list.
    + intros ->. do 7 right; by left.
    + intros [Hne [info Hin]]. do 8 right. exists (v, info).
      rewrite elem_of_map_to_list. simpl. rewrite decide_False by done.
      split; [by left|done].
Qed.






End TeardownTrace.

Section Reconciliation.

(** A table that claims erase from: after a pass, the entries of the
    claimed keys are gone and the others are as discovered. *)
Lemma reconcile_lookup `{Countable K} {V}
    (get : BcmWarmBootCache → gmap K V) (ref : K → ObjRef) :
  (∀ x cache k, get (claim x cache) !! k
                = if decide (x = ref k) then None else get cache !! k) →
  ∀ S cache k, get (reconcile S cache) !! k
               = if decide (ref k ∈ S) then None else get cache !! k.
Proof.
  intros Hclaim S. induction S as [|x S IH]; intros cache k.
  { rewrite decide_False by apply not_elem_of_nil. done. }
  change (reconcile (x :: S) cache) with (reconcile S (claim x cache)).
  rewrite IH, Hclaim.
  destruct (decide (ref k ∈ S)) as [Hin|Hnin].
  - rewrite decide_True; [done|by right].
  - destruct (decide (x = ref k)) as [->|Hne].
    + rewrite decide_True; [done|by left].
    + rewrite decide_False; [done|].
      intros [?|?]%elem_of_cons; by simplify_eq.
Qed.

Ltac claim_step :=
  let x := fresh "x" in let c := fresh "c" in let k := fresh "k" in
  intros x c k; destruct x; simpl; try done;
  match goal with
  | |- delete ?k' _ !! ?k = _ =>
      destruct (decide (k' = k)) as [->|?];
      [rewrite lookup_delete_eq, decide_True by done
      |rewrite lookup_delete_ne by done; rewrite decide_False by congruence];
      done
  end.

Lemma reconcile_routes S cache k :
  vrfPrefix2Route_ (reconcile S cache) !! k
  = if decide (RouteRef k ∈ S) then None else vrfPrefix2Route_ cache !! k.
Proof. apply (reconcile_lookup vrfPrefix2Route_ RouteRef). claim_step. Qed.

Lemma reconcile_host_routes S cache k :
  vrfAndIP2Route_ (reconcile S cache) !! k
  = if decide (HostRouteRef k ∈ S) then None else vrfAndIP2Route_ cache !! k.
Proof. apply (reconcile_lookup vrfAndIP2Route_ HostRouteRef). claim_step. Qed.

Lemma reconcile_hosts S cache k :
  vrfIp2Host_ (reconcile S cache) !! k
  = if decide (HostRef k ∈ S) then None else vrfIp2Host_ cache !! k.
Proof. apply (reconcile_lookup vrfIp2Host_ HostRef). claim_step. Qed.

Lemma reconcile_ecmps S cache k :
  egressIds2Ecmp_ (reconcile S cache) !! k
  = if decide (EcmpRef k ∈ S) then None else egressIds2Ecmp_ cache !! k.
Proof. apply (reconcile_lookup egressIds2Ecmp_ EcmpRef). claim_step. Qed.

Lemma reconcile_intfs S cache k :
  vlanAndMac2Intf_ (reconcile S cache) !! k
  = if decide (IntfRef k ∈ S) then None else vlanAndMac2Intf_ cache !! k.
Proof. apply (reconcile_lookup vlanAndMac2Intf_ IntfRef). claim_step. Qed.

Lemma reconcile_stations S cache k :
  vlan2Station_ (reconcile S cache) !! k
  = if decide (StationRef k ∈ S) then None else vlan2Station_ cache !! k.
Proof. apply (reconcile_lookup vlan2Station_ StationRef). claim_step. Qed.

Lemma reconcile_vlans S cache k :
  vlan2VlanInfo_ (reconcile S cache) !! k
  = if decide (VlanRef k ∈ S) then None else vlan2VlanInfo_ cache !! k.
Proof. apply (reconcile_lookup vlan2VlanInfo_ VlanRef). claim_step. Qed.

(** The egress table keeps its entries; a claim sets the flag. *)
Lemma reconcile_egress S : ∀ cache id,
  egressId2EgressAndBool_ (reconcile S cache) !! id
  = (λ eb : Egress.t * bool, (eb.1, eb.2 || bool_decide (EgressRef id ∈ S)))
    <$> egressId2EgressAndBool_ cache !! id.
Proof.
  induction S as [|x S IH]; intros cache id.
  { simpl. destruct (_ !! id) as [[e b]|]; simpl; [|done].
    by rewrite orb_false_r. }
  change (reconcile (x :: S) cache) with (reconcile S (claim x cache)).
  rewrite IH.
  assert (Hstep : egressId2EgressAndBool_ (claim x cache) !! id
    = (λ eb : Egress.t * bool, (eb.1, eb.2 || bool_decide (x = EgressRef id)))
      <$> egressId2EgressAndBool_ cache !! id).
  { destruct x as [| | | |id0| | |]; simpl;
      try (destruct (_ !! id) as [[e b]|]; simpl; [|done];
           by rewrite orb_false_r).
    destruct (decide (id0 = id)) as [->|Hne].
    - rewrite lookup_alter_eq. destruct (_ !! id) as [[e b]|]; simpl; [|done].
      rewrite bool_decide_eq_true_2 by done. by rewrite orb_true_r.
    - rewrite lookup_alter_ne by done.
      destruct (_ !! id) as [[e b]|]; simpl; [|done].
      rewrite bool_decide_eq_false_2 by congruence. by rewrite orb_false_r. }
  rewrite Hstep.
  destruct (egressId2EgressAndBool_ cache !! id) as [[e b]|]; simpl; [|done].
  do 2 f_equal.
  destruct (decide (x = EgressRef id)) as [->|Hne].
  - rewrite bool_decide_eq_true_2 by done.
    rewrite (bool_decide_eq_true_2 (_ ∈ _ :: _)) by (by left).
    by rewrite !orb_true_r.
  - rewrite bool_decide_eq_false_2 by done. rewrite orb_false_r.
    destruct (decide (EgressRef id ∈ S)) as [Hin|Hnin].
    + rewrite !bool_decide_eq_true_2; [done|by right|done].
    + rewrite !bool_decide_eq_false_2; [done| |done].
      intros [?|?]%elem_of_cons; by simplify_eq.
Qed.

End Reconciliation.

Section ClaimCompleteness.
Context {Unit : Type}.
Variable sdk : SdkCall → Unit → Z * Unit.
Variable opennsl_vlan_default_get : Unit → Z * VlanID.

(** What is planned after a pass deletes a discovered object that the
    pass did not claim. *)
Lemma planned_unclaimed S cache defaultVlan op x :
  planned (reconcile S cache) defaultVlan op →
  deleted_object op = Some x →
  discovered cache x ∧ (x ∉ S) ∧ x ≠ VlanRef defaultVlan.
Proof.
  destruct op as [k r|k r|k h|ids e|id|k i|v|v|v]; simpl;
    intros Hp [= <-]; simpl.
  - rewrite reconcile_routes in Hp. case_decide; [done|]. by eauto.
  - rewrite reconcile_host_routes in Hp. case_decide; [done|]. by eauto.
  - rewrite reconcile_hosts in Hp. case_decide; [done|]. by eauto.
  - rewrite reconcile_ecmps in Hp. case_decide; [done|]. by eauto.
  - destruct Hp as [e Hp]. rewrite reconcile_egress in Hp.
    destruct (egressId2EgressAndBool_ cache !! id) as [[e' b]|]; [|done].
    simpl in Hp. injection Hp as -> Hb. apply orb_false_iff in Hb as [_ Hb].
    apply bool_decide_eq_false in Hb. by eauto.
  - rewrite reconcile_intfs in Hp. case_decide; [done|]. by eauto.
  - destruct Hp as [st Hp]. rewrite reconcile_stations in Hp.
    case_decide; [done|]. by eauto.
  - destruct Hp as [Hne [info Hp]]. rewrite reconcile_vlans in Hp.
    case_decide; [done|]. repeat split; [by eauto|done|congruence].
Qed.

(** Every discovered object that the pass did not claim is planned,
    the default VLAN excepted. *)
Lemma unclaimed_planned S cache defaultVlan x :
  (∀ id eb, egressId2EgressAndBool_ cache !! id = Some eb → eb.2 = false) →
  discovered cache x → x ∉ S → x ≠ VlanRef defaultVlan →
  ∃ op, planned (reconcile S cache) defaultVlan op ∧ deleted_object op = Some x.
Proof.
  intros Hfresh Hd HS Hdef.
  destruct x as [k|k|k|ids|id|k|v|v]; simpl in Hd; destruct Hd as [y Hy].
  - exists (DelRoute k y). simpl. by rewrite reconcile_routes, decide_False.
  - exists (DelHostRoute k y). simpl. by rewrite reconcile_host_routes, decide_False.
  - exists (DelHost k y). simpl. by rewrite reconcile_hosts, decide_False.
  - exists (DelEcmp ids y). simpl. by rewrite reconcile_ecmps, decide_False.
  - exists (DelEgress id). simpl. split; [|done]. exists y.1.
    rewrite reconcile_egress, Hy. simpl.
    rewrite (Hfresh id y Hy), bool_decide_eq_false_2 by done. done.
  - exists (DelIntf k y). simpl. by rewrite reconcile_intfs, decide_False.
  - exists (DelStation v). simpl. split; [|done].
    rewrite reconcile_stations, decide_False by done. by eauto.
  - exists (DelVlan v). simpl. split; [|done]. split; [congruence|].
    rewrite reconcile_vlans, decide_False by done. by eauto.
Qed.

(** C1, as amended. After a pass that claimed the objects of [S] among
    those discovered (no egress object being claimed before the pass),
    the teardown deletes only discovered objects outside [S], never an
    egress object whose claimed flag is set; and when it completes (no
    hardware call failed) it has deleted every discovered object
    outside [S], except the VLAN the hardware reports as its default
    VLAN, which it never deletes. Discovered means held in one of the
    eight maps of the cache: an egress object that is not in the egress
    map, as the drop and the to-CPU egress objects, which the discovery
    records by their ids only, is never destroyed. *)
Theorem clear_deletes_unclaimed (cache : BcmWarmBootCache) (S : list ObjRef)
    (w : @World Unit) :
  (∀ id eb, egressId2EgressAndBool_ cache !! id = Some eb → eb.2 = false) →
  ∃ tr,
    issued (clear sdk opennsl_vlan_default_get (reconcile S cache) w).2
      = issued w ++ tr ∧
    (∀ op x, op ∈ tr → deleted_object op = Some x → discovered cache x ∧ x ∉ S) ∧
    (∀ id e, egressId2EgressAndBool_ (reconcile S cache) !! id = Some (e, true) →
             DelEgress id ∉ tr) ∧
    (∀ id, egressId2EgressAndBool_ cache !! id = None → DelEgress id ∉ tr) ∧
    (∀ cache', (clear sdk opennsl_vlan_default_get (reconcile S cache) w).1 = Ok cache' →
       ∃ defaultVlan,
         GetDefaultVlan defaultVlan ∈ tr ∧ (DelVlan defaultVlan ∉ tr) ∧
         ∀ x, discovered cache x → x ∉ S → x ≠ VlanRef defaultVlan →
              ∃ op, op ∈ tr ∧ deleted_object op = Some x).
Proof.
  intros Hfresh.
  destruct (clear_runs sdk opennsl_vlan_default_get (reconcile S cache) w)
    as (defaultVlan & tr & Htr & Hprefix & Hres).
  assert (Hplanned : ∀ op, op ∈ tr → planned (reconcile S cache) defaultVlan op).
  { intros op Hop. apply elem_of_clear_plan.
    destruct Hprefix as [rest ->]. apply elem_of_app. by left. }
  exists tr. split; [done|]. split; [|split; [|split]].
  - intros op x Hop Hx.
    destruct (planned_unclaimed S cache defaultVlan op x (Hplanned op Hop) Hx)
      as (? & ? & _). done.
  - intros id e Hclaimed Hop. apply Hplanned in Hop as [e' He']. simpl in He'.
    rewrite Hclaimed in He'. done.
  - intros id Hnone Hop.
    destruct (planned_unclaimed S cache defaultVlan (DelEgress id) (EgressRef id)
                (Hplanned _ Hop) eq_refl) as ([eb Heb] & _).
    simpl in Heb. by rewrite Hnone in Heb.
  - intros cache' Hok. rewrite Hok in Hres. destruct Hres as [-> _].
    exists defaultVlan. split; [|split].
    + by apply elem_of_clear_plan.
    + intros [Hne _]%elem_of_clear_plan. done.
    + intros x Hd HS Hdef.
      destruct (unclaimed_planned S cache defaultVlan x Hfresh Hd HS Hdef)
        as (op & Hop & Hx).
      exists op. split; [by apply elem_of_clear_plan|done].
Qed.

End ClaimCompleteness.

Section DeletionOrder.
Context {Unit : Type}.
Variable sdk : SdkCall → Unit → Z * Unit.
Variable opennsl_vlan_default_get : Unit → Z * VlanID.
Variable l3a_intf_id : L3Intf.t → Z.



End DeletionOrder.

(** * The examples of the specification, and inputs on which the amended
      statements differ from the original ones *)

Section Examples.
#[local] Existing Instance opennsl_consts.

(** Persisted {5: {10, 11}}, hardware report {5: {10}}: group 5 is
    recorded with {10, 11}. *)
Lemma ecmp_callback_prefers_persisted_witness :
  ecmpEgressTraversalCallback ex_ecmp5 1 [10%Z] ex_persisted
  = Ok (set_egressIds2Ecmp (<[ex_paths := ex_ecmp5]>) ex_persisted).
Proof.
  apply (proj1 (proj2 (ecmp_callback_prefers_persisted ex_persisted ex_ecmp5 1
                         [10%Z] eq_refl))).
  - reflexivity.
  - intros Hempty. apply (f_equal size) in Hempty. vm_compute in Hempty. discriminate.
  - reflexivity.
Defined.

(** Group 6 is unknown to the non-empty persisted map: skipped with no
    members, an error with two. *)
Lemma ecmp_callback_not_found_witness :
  ecmpEgressTraversalCallback ex_ecmp6 0 [] ex_persisted = Ok ex_persisted ∧
  ecmpEgressTraversalCallback ex_ecmp6 2 [10%Z; 11%Z] ex_persisted
  = Throw (FbossError "Could not find ecmp ID").
Proof.
  split.
  - apply (proj1 (ecmp_callback_not_found ex_persisted ex_ecmp6 0 []
                    "Could not find ecmp ID" eq_refl eq_refl)).
    reflexivity.
  - apply (proj1 (proj2 (ecmp_callback_not_found ex_persisted ex_ecmp6 2
                           [10%Z; 11%Z] "Could not find ecmp ID" eq_refl eq_refl))).
    discriminate.
Defined.

Lemma getPathsForEcmp_spec_witness :
  getPathsForEcmp ex_persisted 5 = Ok {[10%Z; 11%Z]} ∧
  getPathsForEcmp ex_persisted 6 = Throw (FbossError "Could not find ecmp ID") ∧
  getPathsForEcmp (set_hwSwitchEcmp2EgressIdsPopulated true ex_new) 6 = Ok ∅.
Proof.
  split; [|split].
  - apply (proj1 (proj1 (getPathsForEcmp_spec ex_persisted 5) eq_refl)).
    reflexivity.
  - apply (proj2 (proj2 (proj1 (getPathsForEcmp_spec ex_persisted 6) eq_refl))).
    + intros Hempty. apply (f_equal size) in Hempty. vm_compute in Hempty. discriminate.
    + reflexivity.
  - apply (proj1 (proj2 (proj1 (getPathsForEcmp_spec
             (set_hwSwitchEcmp2EgressIdsPopulated true ex_new) 6) eq_refl))).
    reflexivity.
Defined.

(** C4 as stated fails when no ECMP data was ever populated: after
    loading a snapshot of the older format the stored map is empty and
    the flag is clear, and the lookup does not return the empty set, it
    stops the process on its CHECK. *)
Lemma getPathsForEcmp_never_populated :
  ∃ cache, ex_load ex_old_snapshot = Ok cache ∧
    hwSwitchEcmp2EgressIds_ cache = ∅ ∧
    hwSwitchEcmp2EgressIdsPopulated_ cache = false ∧
    getPathsForEcmp cache 5 ≠ Ok ∅ ∧
    getPathsForEcmp cache 5 = Abort (CheckFailed "hwSwitchEcmp2EgressIdsPopulated_").
Proof. eexists. split; [reflexivity|]. by repeat split. Qed.

(** 10.0.0.5/32 is a host route when the platform allows it, 10.0.0.0/24
    is a prefix route. *)
Lemma routeTraversalCallback_classifies_witness :
  routeTraversalCallback ex_route32 ex_new
  = set_vrfAndIP2Route (<[(0%Z, IPAddressV4 167772165) := ex_route32]>) ex_new ∧
  routeTraversalCallback ex_route24 ex_new
  = set_vrfPrefix2Route
      (<[(0%Z, IPAddressV4 167772160, IPAddressV4 4294967040) := ex_route24]>) ex_new.
Proof.
  split.
  - apply (proj1 (routeTraversalCallback_classifies ex_route32 ex_new)).
    split; reflexivity.
  - apply (proj1 (proj2 (routeTraversalCallback_classifies ex_route24 ex_new))).
    intros [Hmask _]. vm_compute in Hmask. discriminate.
Defined.

(** One drop egress and one to-CPU egress, unreferenced: the traversal
    completes. *)
Lemma egress_discovery_singletons_witness :
  ∃ cache', opennsl_l3_egress_traverse ex_egresses_drop_cpu ex_new = Ok cache'.
Proof.
  destruct (egress_discovery_singletons ex_new ex_egresses_drop_cpu
              eq_refl eq_refl) as [Hok _].
  - by apply (bool_decide_unpack _).
  - reflexivity.
  - by apply (bool_decide_unpack _).
  - apply Hok. unfold singleton_roles, roles_fit. vm_compute. repeat split; lia.
Defined.

(** C7 as stated fails in this traversal: two unreferenced egress
    objects carry a to-CPU flag (the first one also carries the drop
    flag), and no fatal branch is taken. *)
Lemma egress_discovery_two_to_cpu_flags :
  unreferenced (egressOrEcmpIdsFromHostTable_ ex_new) ex_egresses_both_cpu
    = ex_egresses_both_cpu ∧
  count_where (λ e, has_to_cpu_flag e.2) ex_egresses_both_cpu = 2 ∧
  opennsl_l3_egress_traverse ex_egresses_both_cpu ex_new
    = Ok (set_toCPUEgressId 100002 (set_dropEgressId 100001 ex_new)).
Proof. repeat split. Qed.

(** The snapshot lists 10.0.0.5 as a neighbor of VLAN 7: the host entry
    is promoted, and every neighbor of the reconstruction is one of the
    snapshot. *)
Lemma reconstructVlanMap_promotes_known_neighbors_witness :
  (∃ vlan, ex_reconstructed ex_state_neighbor !! 7%Z = Some vlan ∧
           is_Some (getArpTable vlan !! 167772165%Z)) ∧
  ∀ V vlan, ex_reconstructed ex_state_neighbor !! V = Some vlan →
    (∀ a, is_Some (getArpTable vlan !! a) →
          ∃ dumpedVlan,
            ex_dumped_vlans !! V = Some dumpedVlan ∧
            is_Some (getArpTable dumpedVlan !! a)) ∧
    (∀ a, is_Some (getNdpTable vlan !! a) →
          ∃ dumpedVlan,
            ex_dumped_vlans !! V = Some dumpedVlan ∧
            is_Some (getNdpTable dumpedVlan !! a)).
Proof.
  split.
  - eexists. split; [vm_compute; reflexivity|]. vm_compute. by eexists.
  - apply (reconstructVlanMap_promotes_known_neighbors
             (ex_with_snapshot ex_state_neighbor) ex_state_neighbor
             _ (ex_reconstructed ex_state_neighbor) eq_refl eq_refl).
    vm_compute. reflexivity.
Defined.

(** Without the neighbor in the snapshot the host entry is dropped. *)
Lemma reconstructVlanMap_drops_unknown_neighbor :
  ∃ vlan, ex_reconstructed ex_state_no_neighbor !! 7%Z = Some vlan ∧
          getArpTable vlan !! 167772165%Z = None.
Proof. eexists. split; vm_compute; reflexivity. Qed.

(** C8 as stated fails when the snapshot has no VLAN map: no persisted
    ARP table lists 10.0.0.5, and the host entry is promoted to the ARP
    table of VLAN 7 all the same. *)
Lemma reconstructVlanMap_without_snapshot_vlans :
  getVlans ex_state_no_vlans = None ∧
  ∃ vlans vlan,
    reconstructVlanMap (ex_with_snapshot ex_state_no_vlans) = Ok vlans ∧
    vlans !! 7%Z = Some vlan ∧
    is_Some (getArpTable vlan !! 167772165%Z).
Proof.
  split; [done|]. eexists _, _. split; [vm_compute; reflexivity|].
  split; [vm_compute; reflexivity|]. vm_compute. by eexists.
Qed.

(** The snapshot knows the interface of VLAN 7; a snapshot without
    interfaces leads to the null dereference. *)
Lemma reconstructInterfaceMap_needs_snapshot_interface_witness :
  (∃ intfMap, reconstructInterfaceMap (ex_with_snapshot ex_state_neighbor)
              = Ok intfMap) ∧
  reconstructInterfaceMap (ex_with_snapshot ex_state_no_intf) = Abort NullDeref.
Proof.
  split.
  - apply (proj1 (reconstructInterfaceMap_needs_snapshot_interface
                    (ex_with_snapshot ex_state_neighbor) ex_state_neighbor _
                    eq_refl eq_refl)).
    intros k bcmIntf Hk.
    change (vlanAndMac2Intf_ (ex_with_snapshot ex_state_neighbor))
      with ({[(7%Z, 2%Z) := ex_intf7]} : gmap (Z * Z) L3Intf.t) in Hk.
    apply lookup_singleton_Some in Hk as [_ <-]. by eexists.
  - apply (proj2 (reconstructInterfaceMap_needs_snapshot_interface
                    (ex_with_snapshot ex_state_no_intf) ex_state_no_intf _
                    eq_refl eq_refl)).
    exists (7%Z, 2%Z), ex_intf7. split; reflexivity.
Defined.

(** The path map {5: {10, 11}} comes back from the file. *)
Lemma ecmp_paths_round_trip_witness :
  ∃ cache',
    ex_load (warmBootFile d_null noEcmpHosts (toFollyDynamic ex_persisted))
      = Ok cache' ∧
    hwSwitchEcmp2EgressIdsPopulated_ cache' = true ∧
    hwSwitchEcmp2EgressIds_ cache' = {[5%Z := ex_paths]} ∧
    ∀ e, getPathsForEcmp cache' e
         = getPathsForEcmp (set_hwSwitchEcmp2EgressIdsPopulated true ex_persisted) e.
Proof.
  apply (ecmp_paths_round_trip ex_str_to_int64 ex_uniquePtrFromFollyDynamic
           ex_persisted ex_new d_null ex_state_neighbor eq_refl eq_refl).
  intros id ids Hid.
  change (hwSwitchEcmp2EgressIds_ ex_persisted)
    with ({[5%Z := ({[10%Z; 11%Z]} : gset Z)]} : gmap Z (gset Z)) in Hid.
  apply lookup_singleton_Some in Hid as [<- <-].
  split; [by vm_compute|]. split; [by vm_compute|]. split.
  - intros Hempty. apply (f_equal size) in Hempty. vm_compute in Hempty.
    discriminate.
  - intros p Hp. apply elem_of_union in Hp as [Hp|Hp];
      apply elem_of_singleton in Hp as ->; by vm_compute.
Defined.

(** C9 as stated fails on these inputs. A group id equal to INVALID is
    serialized, and the loader stops on its CHECK. A group with an empty
    path set is serialized, and the loader does not restore it: the
    lookup of group 5 returned the empty set before and fails
    afterwards. And the ECMP hosts of the file's host table are merged
    into the same map: group 5, serialized with the paths {10, 11},
    comes back with the paths {10, 11, 12}. *)
Lemma ecmp_paths_round_trip_fails :
  ex_load (warmBootFile d_null noEcmpHosts (toFollyDynamic ex_invalid_group))
    = Abort (CheckFailed "ecmpEgressId != BcmEgressBase::INVALID") ∧
  (∃ cache',
    ex_load (warmBootFile d_null noEcmpHosts (toFollyDynamic ex_empty_group))
      = Ok cache' ∧
    hwSwitchEcmp2EgressIds_ ex_empty_group !! 5%Z = Some ∅ ∧
    hwSwitchEcmp2EgressIds_ cache' !! 5%Z = None ∧
    getPathsForEcmp ex_empty_group 5 = Ok ∅ ∧
    getPathsForEcmp cache' 5 = Throw (FbossError "Could not find ecmp ID")) ∧
  (∃ cache',
    ex_load (warmBootFile d_null ex_host_table (toFollyDynamic ex_persisted))
      = Ok cache' ∧
    getPathsForEcmp ex_persisted 5 = Ok {[10%Z; 11%Z]} ∧
    getPathsForEcmp cache' 5 = Ok {[10%Z; 11%Z; 12%Z]} ∧
    getPathsForEcmp cache' 5 ≠ getPathsForEcmp ex_persisted 5).
Proof.
  split; [vm_compute; reflexivity|]. split.
  - eexists. split; [vm_compute; reflexivity|].
    repeat split; vm_compute; reflexivity.
  - eexists. split; [vm_compute; reflexivity|].
    split; [vm_compute; reflexivity|]. split; [vm_compute; reflexivity|].
    vm_compute. discriminate.
Qed.

(** Every egress object of the example cache is unclaimed. *)
Lemma ex_teardown_unclaimed id eb :
  egressId2EgressAndBool_ ex_teardown !! id = Some eb → eb.2 = false.
Proof.
  change (egressId2EgressAndBool_ ex_teardown)
    with (<[100002%Z := (ex_egress2, false)]>
            ({[100003%Z := (ex_egress3, false)]} : gmap Z (Egress.t * bool))).
  intros [[_ <-]|[_ [_ <-]%lookup_singleton_Some]]%lookup_insert_Some; done.
Qed.

(** The pass claims the egress object 100003 and the host entry of
    10.0.0.5; every hardware call succeeds and VLAN 1 is the default
    VLAN. *)
Lemma clear_deletes_unclaimed_witness :
  ∃ tr,
    issued (clear ex_sdk ex_vlan_default_get (reconcile ex_claims ex_teardown)
              ex_world).2 = issued ex_world ++ tr ∧
    (∀ op x, op ∈ tr → deleted_object op = Some x →
             discovered ex_teardown x ∧ x ∉ ex_claims) ∧
    (∀ id e, egressId2EgressAndBool_ (reconcile ex_claims ex_teardown) !! id
               = Some (e, true) → DelEgress id ∉ tr) ∧
    (∀ id, egressId2EgressAndBool_ ex_teardown !! id = None → DelEgress id ∉ tr) ∧
    (∀ cache', (clear ex_sdk ex_vlan_default_get (reconcile ex_claims ex_teardown)
                  ex_world).1 = Ok cache' →
       ∃ defaultVlan,
         GetDefaultVlan defaultVlan ∈ tr ∧ (DelVlan defaultVlan ∉ tr) ∧
         ∀ x, discovered ex_teardown x → x ∉ ex_claims →
              x ≠ VlanRef defaultVlan →
              ∃ op, op ∈ tr ∧ deleted_object op = Some x).
Proof.
  apply (clear_deletes_unclaimed ex_sdk ex_vlan_default_get ex_teardown
           ex_claims ex_world).
  exact ex_teardown_unclaimed.
Defined.

(** C1 as stated fails for the default VLAN: nothing is claimed, every
    hardware call succeeds and the teardown completes, VLAN 1 was
    discovered, and no deletion is issued for it. *)
Lemma clear_keeps_default_vlan :
  let r := clear ex_sdk ex_vlan_default_get (reconcile [] ex_teardown) ex_world in
  discovered ex_teardown (VlanRef 1) ∧
  (VlanRef 1 ∉ ([] : list ObjRef)) ∧
  (∃ cache', r.1 = Ok cache') ∧
  GetDefaultVlan 1 ∈ issued r.2 ∧
  ∀ op, op ∈ issued r.2 → deleted_object op ≠ Some (VlanRef 1).
Proof.
  repeat split.
  - by eexists.
  - apply not_elem_of_nil.
  - eexists. vm_compute. reflexivity.
  - apply (bool_decide_unpack _). vm_compute. reflexivity.
  - apply Forall_forall. apply (bool_decide_unpack _). vm_compute. reflexivity.
Qed.

(** The drop and the to-CPU egress objects of the example discovery,
    100001 and 100002, are egress objects of the hardware that the cache
    records by their ids only: with nothing claimed, the teardown
    completes and destroys neither. *)
Lemma clear_keeps_singleton_egresses :
  let r := clear ex_sdk ex_vlan_default_get (reconcile [] ex_populated) ex_world in
  ex_populate = Ok ex_populated ∧
  (100001%Z, ex_egress_drop) ∈ ex_hw_egresses ∧
  (100002%Z, ex_egress_cpu) ∈ ex_hw_egresses ∧
  dropEgressId_ ex_populated = 100001%Z ∧ toCPUEgressId_ ex_populated = 100002%Z ∧
  (∃ cache', r.1 = Ok cache') ∧
  (DelEgress 100001 ∉ issued r.2) ∧ (DelEgress 100002 ∉ issued r.2).
Proof.
  split; [vm_compute; reflexivity|].
  split; [right; by left|]. split; [right; right; by left|].
  split; [vm_compute; reflexivity|]. split; [vm_compute; reflexivity|].
  split; [eexists; vm_compute; reflexivity|].
  split; apply (bool_decide_unpack _); vm_compute; reflexivity.
Qed.




End Examples.

(** * Further properties of the code *)

Section LoaderInvariants.
Context `{!SdkConsts}.
Variable str_to_int64 : string → option Z.
Variable uniquePtrFromFollyDynamic : dynamic → Res (option SwitchState).

Lemma to_int32_range (z : Z) : is_int32 (to_int32 z).
Proof.
  unfold is_int32, to_int32.
  pose proof (Z.mod_pos_bound (z + 2 ^ 31) (2 ^ 32) ltac:(lia)). lia.
Qed.

Lemma insertPath_wf id p m : paths_wf m → paths_wf (insertPath id p m).
Proof.
  intros Hm id' ids. unfold insertPath.
  destruct (decide (to_int32 id = id')) as [<-|Hne].
  - rewrite lookup_insert_eq. intros [= <-]. split; [|split].
    + intros Hempty. assert (to_int32 p ∈ (∅ : gset Z)) as Hin; [|done].
      rewrite <- Hempty. apply elem_of_union. left. by apply elem_of_singleton.
    + apply to_int32_range.
    + intros q [Hq|Hq]%elem_of_union.
      * apply elem_of_singleton in Hq as ->. apply to_int32_range.
      * destruct (m !! to_int32 id) as [old|] eqn:Hold; simpl in Hq; [|done].
        destruct (Hm _ _ Hold) as (_ & _ & Hps). by apply Hps.
  - rewrite lookup_insert_ne by done. apply Hm.
Qed.

(** What a successful run of the inner loop changes. *)
Lemma addPaths_shape id paths : ∀ cache cache',
  addPaths str_to_int64 id paths cache = Ok cache' →
  ∃ m, cache' = set_hwSwitchEcmp2EgressIds (λ _, m) cache ∧
       (paths_wf (hwSwitchEcmp2EgressIds_ cache) → paths_wf m).
Proof.
  unfold addPaths.
  induction paths as [|path paths IH]; intros cache cache'; simpl.
  - intros [= <-]. exists (hwSwitchEcmp2EgressIds_ cache). by destruct cache.
  - destruct (asInt str_to_int64 path) as [p| |]; simpl; try done.
    intros Hrest. apply IH in Hrest as (m & -> & Hm). exists m. split; [done|].
    intros Hwf. apply Hm. simpl. by apply insertPath_wf.
Qed.

(** What a successful run of one of the two loops over ECMP entries
    changes, whatever the loop does with an entry before it adds the
    paths. *)
Lemma ecmp_entries_shape
    (body : dynamic → BcmWarmBootCache → Res BcmWarmBootCache)
    (entries : list dynamic) : ∀ cache cache',
  (∀ e c c', body e c = Ok c' →
     ∃ m, c' = set_hwSwitchEcmp2EgressIds (λ _, m) c ∧
          (paths_wf (hwSwitchEcmp2EgressIds_ c) → paths_wf m)) →
  forM body entries cache = Ok cache' →
  ∃ m, cache' = set_hwSwitchEcmp2EgressIds (λ _, m) cache ∧
       (paths_wf (hwSwitchEcmp2EgressIds_ cache) → paths_wf m).
Proof.
  induction entries as [|e entries IH]; intros cache cache' Hbody; simpl.
  - intros [= <-]. exists (hwSwitchEcmp2EgressIds_ cache). by destruct cache.
  - destruct (body e cache) as [c1| |] eqn:He; simpl; try done.
    apply Hbody in He as (m1 & -> & Hm1).
    intros Hrest. apply IH in Hrest as (m & -> & Hm); [|done].
    exists m. split; [done|]. intros Hwf. apply Hm. simpl. by apply Hm1.
Qed.

(** A successful load sets the software state, may set the populated
    flag and changes the persisted path map; it touches nothing else. *)
Lemma loader_shape json cache cache' :
  populateStateFromWarmbootFile str_to_int64 uniquePtrFromFollyDynamic json cache
    = Ok cache' →
  ∃ st flag m,
    cache' = set_hwSwitchEcmp2EgressIds (λ _, m)
               (set_hwSwitchEcmp2EgressIdsPopulated flag
                  (set_dumpedSwSwitchState (Some st) cache)) ∧
    (flag = hwSwitchEcmp2EgressIdsPopulated_ cache ∨ flag = true) ∧
    (paths_wf (hwSwitchEcmp2EgressIds_ cache) → paths_wf m).
Proof.
  unfold populateStateFromWarmbootFile.
  destruct (dyn_find kSwSwitch json) as [sw| |]; simpl; try done.
  destruct (uniquePtrFromFollyDynamic _) as [[st|]| |]; simpl; try done.
  destruct (dyn_find kHwSwitch json) as [[hwSwitch|]| |]; simpl; try done.
  - destruct (dyn_index kHostTable hwSwitch) as [hostTable| |]; simpl; try done.
    destruct (dyn_index kEcmpHosts hostTable) as [hostsJson| |]; simpl; try done.
    destruct (dyn_elems hostsJson) as [ecmpHosts| |]; simpl; try done.
    destruct (forM _ ecmpHosts _) as [c1| |] eqn:Hloop1; simpl; try done.
    apply ecmp_entries_shape in Hloop1 as (m1 & -> & Hm1); last first.
    { intros e c c'.
      destruct (dyn_at kEcmpEgressId e) as [idJson| |]; simpl; try done.
      destruct (asInt str_to_int64 idJson) as [id| |]; simpl; try done.
      case_decide.
      - intros [= <-]. exists (hwSwitchEcmp2EgressIds_ c). by destruct c.
      - destruct (dyn_at kEcmpEgress e) as [egressJson| |]; simpl; try done.
        destruct (dyn_at kPaths egressJson) as [pathsJson| |]; simpl; try done.
        destruct (dyn_elems pathsJson) as [paths| |]; simpl; try done.
        apply addPaths_shape. }
    destruct (dyn_index kWarmBootCache hwSwitch) as [wbc| |]; simpl; try done.
    destruct (dyn_index kEcmpObjects wbc) as [objsJson| |]; simpl; try done.
    destruct (dyn_elems objsJson) as [ecmpObjects| |]; simpl; try done.
    intros Hloop2.
    apply ecmp_entries_shape in Hloop2 as (m2 & -> & Hm2); last first.
    { intros e c c'.
      destruct (dyn_at kEcmpEgressId e) as [idJson| |]; simpl; try done.
      destruct (asInt str_to_int64 idJson) as [id| |]; simpl; try done.
      case_decide; [done|].
      destruct (dyn_at kPaths e) as [pathsJson| |]; simpl; try done.
      destruct (dyn_elems pathsJson) as [paths| |]; simpl; try done.
      apply addPaths_shape. }
    exists st, true, m2. split; [done|]. split; [by right|].
    intros Hwf. apply Hm2. simpl. apply Hm1. simpl. done.
  - intros [= <-].
    exists st, (hwSwitchEcmp2EgressIdsPopulated_ cache), (hwSwitchEcmp2EgressIds_ cache).
    split; [by destruct cache|]. split; [by left|done].
Qed.

(** X1. A successful load of the warm boot file leaves every table of
    discovered hardware objects, the scratch set and both singleton
    egress ids as they were: it only stores the software state (always
    present afterwards), possibly sets the populated flag (it never
    clears it), and changes the persisted ECMP path map. *)
Theorem loader_frame (json : dynamic) (cache cache' : BcmWarmBootCache) :
  populateStateFromWarmbootFile str_to_int64 uniquePtrFromFollyDynamic json cache
    = Ok cache' →
  is_Some (dumpedSwSwitchState_ cache') ∧
  (hwSwitchEcmp2EgressIdsPopulated_ cache = true →
   hwSwitchEcmp2EgressIdsPopulated_ cache' = true) ∧
  set_hwSwitchEcmp2EgressIds (λ _, hwSwitchEcmp2EgressIds_ cache)
    (set_hwSwitchEcmp2EgressIdsPopulated (hwSwitchEcmp2EgressIdsPopulated_ cache)
       (set_dumpedSwSwitchState (dumpedSwSwitchState_ cache) cache'))
  = cache.
Proof.
  intros (st & flag & m & -> & Hflag & _)%loader_shape. split; [by eexists|].
  split.
  - intros Hp. simpl. destruct Hflag as [->| ->]; done.
  - by destruct cache.
Qed.

(** X2. The loader never stores an empty path set and stores [int]s
    only: starting from a path map with this property (the empty map of
    a new cache among them), every group of the map a successful load
    leaves has at least one path, whatever the file holds. *)
Theorem loader_paths_wf (json : dynamic) (cache cache' : BcmWarmBootCache) :
  paths_wf (hwSwitchEcmp2EgressIds_ cache) →
  populateStateFromWarmbootFile str_to_int64 uniquePtrFromFollyDynamic json cache
    = Ok cache' →
  paths_wf (hwSwitchEcmp2EgressIds_ cache').
Proof.
  intros Hwf (st & flag & m & -> & _ & Hm)%loader_shape. simpl. by apply Hm.
Qed.

End LoaderInvariants.

Section Reload.
Context `{!SdkConsts}.
Variable str_to_int64 : string → option Z.
Variable uniquePtrFromFollyDynamic : dynamic → Res (option SwitchState).

(** X3. What the loader stored can be written and read again: when a load
    into a cache with an empty path map succeeds and INVALID is not a
    group id of the result, then loading the file whose warm boot cache
    section is the serialization of the result (and whose host table
    records no ECMP host) into a cache with an empty path map succeeds
    and gives the same path map. *)
Theorem loaded_paths_reload (json sw : dynamic) (st : SwitchState)
    (cache0 cache1 cache : BcmWarmBootCache) :
  hwSwitchEcmp2EgressIds_ cache0 = ∅ →
  populateStateFromWarmbootFile str_to_int64 uniquePtrFromFollyDynamic json cache0
    = Ok cache1 →
  hwSwitchEcmp2EgressIds_ cache1 !! INVALID = None →
  uniquePtrFromFollyDynamic sw = Ok (Some st) →
  hwSwitchEcmp2EgressIds_ cache = ∅ →
  ∃ cache',
    populateStateFromWarmbootFile str_to_int64 uniquePtrFromFollyDynamic
      (warmBootFile sw noEcmpHosts (toFollyDynamic cache1)) cache = Ok cache' ∧
    hwSwitchEcmp2EgressIds_ cache' = hwSwitchEcmp2EgressIds_ cache1.
Proof.
  intros Hempty0 Hload Hinvalid Hsw Hempty.
  assert (Hwf : paths_wf (hwSwitchEcmp2EgressIds_ cache1)).
  { apply loader_shape in Hload as (? & ? & m & -> & _ & Hm). simpl. apply Hm.
    rewrite Hempty0. intros id ids. by rewrite lookup_empty. }
  eexists. split.
  - apply (load_serialized str_to_int64 uniquePtrFromFollyDynamic cache1 cache sw st
             Hsw Hempty).
    intros id ids Hid. destruct (Hwf id ids Hid) as (_ & ? & ?).
    split; [|done]. intros ->. by rewrite Hinvalid in Hid.
  - simpl. apply map_filter_id. intros id ids Hid.
    by destruct (Hwf id ids Hid) as (? & _).
Qed.

End Reload.

Section HostDiscovery.
Context `{!SdkConsts}.

Lemma host_traverse_snoc hosts host cache :
  opennsl_l3_host_traverse (hosts ++ [host]) cache
  = hostTraversalCallback host (opennsl_l3_host_traverse hosts cache).
Proof. unfold opennsl_l3_host_traverse. by rewrite foldl_app. Qed.

(** The host traversal changes the host map and the set of ids the host
    table refers to, and nothing else. *)
Lemma host_traverse_shape hosts cache :
  ∃ m ids, opennsl_l3_host_traverse hosts cache
           = set_egressOrEcmpIdsFromHostTable (λ _, ids) (set_vrfIp2Host (λ _, m) cache).
Proof.
  induction hosts as [|host hosts IH] using rev_ind.
  - exists (vrfIp2Host_ cache), (egressOrEcmpIdsFromHostTable_ cache). by destruct cache.
  - rewrite host_traverse_snoc. destruct IH as (m & ids & ->). by eexists _, _.
Qed.

Lemma host_traverse_ids hosts cache :
  egressOrEcmpIdsFromHostTable_ (opennsl_l3_host_traverse hosts cache)
  = list_to_set (Host.l3a_intf <$> hosts) ∪ egressOrEcmpIdsFromHostTable_ cache.
Proof.
  induction hosts as [|host hosts IH] using rev_ind.
  - simpl. by rewrite (left_id_L ∅ (∪)).
  - rewrite host_traverse_snoc. simpl. rewrite IH, fmap_app, list_to_set_app_L.
    simpl. rewrite (right_id_L ∅ (∪)).
    rewrite (comm_L (∪) (list_to_set _) {[_]}). by rewrite !(assoc_L (∪)).
Qed.

(** X4. After the host traversal, every entry of the host map that was
    not there before is one of the hardware's host entries, filed under
    its own VRF and address; every host entry of the hardware is found
    under its VRF and address (as itself, or as a later entry of the
    table with the same VRF and address); and the set of ids the host
    table refers to has grown by exactly the egress ids of the entries. *)
Theorem host_traverse_contents (hosts : list Host.t) (cache : BcmWarmBootCache) :
  let cache' := opennsl_l3_host_traverse hosts cache in
  (∀ k host, vrfIp2Host_ cache' !! k = Some host →
     (host ∈ hosts ∧ k = host_key host) ∨ vrfIp2Host_ cache !! k = Some host) ∧
  (∀ host, host ∈ hosts →
     ∃ host', host' ∈ hosts ∧ host_key host' = host_key host ∧
              vrfIp2Host_ cache' !! host_key host = Some host') ∧
  egressOrEcmpIdsFromHostTable_ cache'
  = list_to_set (Host.l3a_intf <$> hosts) ∪ egressOrEcmpIdsFromHostTable_ cache.
Proof.
  simpl. split; [|split]; [| |apply host_traverse_ids].
  - induction hosts as [|host hosts IH] using rev_ind; [by right|].
    intros k h. rewrite host_traverse_snoc. simpl.
    change (Host.l3a_vrf host, _) with (host_key host).
    destruct (decide (host_key host = k)) as [<-|Hne].
    + rewrite lookup_insert_eq. intros [= <-]. left. split; [|done].
      apply elem_of_app. right. by apply list_elem_of_singleton.
    + rewrite lookup_insert_ne by done. intros [[Hin ->]|Hold]%IH; [|by right].
      left. split; [|done]. apply elem_of_app. by left.
  - induction hosts as [|host hosts IH] using rev_ind.
    { intros h Hh. by apply elem_of_nil in Hh. }
    intros h Hh. rewrite host_traverse_snoc. simpl.
    change (Host.l3a_vrf host, _) with (host_key host).
    destruct (decide (host_key host = host_key h)) as [Heq|Hne].
    + exists host. rewrite <- Heq, lookup_insert_eq. split; [|done].
      apply elem_of_app. right. by apply list_elem_of_singleton.
    + rewrite lookup_insert_ne by done.
      apply elem_of_app in Hh as [Hh|Hh].
      * destruct (IH h Hh) as (h' & Hin & Hkey & Hlook). exists h'.
        split; [|done]. apply elem_of_app. by left.
      * apply list_elem_of_singleton in Hh as ->. done.
Qed.

End HostDiscovery.

Section RouteDiscovery.
Context `{!SdkConsts}.

Lemma routeTraversalCallback_cases (route : Route.t) (cache : BcmWarmBootCache) :
  (host_route (platform cache) route ∧
   routeTraversalCallback route cache
   = set_vrfAndIP2Route (<[(Route.l3a_vrf route, route_ip route) := route]>) cache) ∨
  (¬ host_route (platform cache) route ∧
   routeTraversalCallback route cache
   = set_vrfPrefix2Route
       (<[(Route.l3a_vrf route, route_ip route, route_mask route) := route]>) cache).
Proof.
  pose proof (full_mask_test route) as Hfull. simpl in Hfull.
  unfold routeTraversalCallback, host_route.
  change (flag_set (Route.l3a_flags route) OPENNSL_L3_IP6) with (route_is_v6 route).
  change (if route_is_v6 route then fromBinary (Route.l3a_ip6_mask route)
          else fromLongHBO (Route.l3a_ip_mask route)) with (route_mask route).
  change (if route_is_v6 route then fromBinary (Route.l3a_ip6_net route)
          else fromLongHBO (Route.l3a_subnet route)) with (route_ip route).
  destruct (canUseHostTableForHostRoutes (platform cache)); simpl.
  - destruct (_ || _).
    + left. split; [|done]. split; [by apply Hfull|done].
    + right. split; [|done]. intros [Hf _]. apply Hfull in Hf. done.
  - right. split; [|done]. by intros [_ ?].
Qed.

Lemma route_traverse_snoc routes route cache :
  opennsl_l3_route_traverse (routes ++ [route]) cache
  = routeTraversalCallback route (opennsl_l3_route_traverse routes cache).
Proof. unfold opennsl_l3_route_traverse. by rewrite foldl_app. Qed.

(** The route traversal changes the two route maps, and nothing else. *)
Lemma route_traverse_shape routes cache :
  ∃ m1 m2, opennsl_l3_route_traverse routes cache
           = set_vrfAndIP2Route (λ _, m1) (set_vrfPrefix2Route (λ _, m2) cache).
Proof.
  induction routes as [|route routes IH] using rev_ind.
  - exists (vrfAndIP2Route_ cache), (vrfPrefix2Route_ cache). by destruct cache.
  - rewrite route_traverse_snoc. destruct IH as (m1 & m2 & ->).
    destruct (routeTraversalCallback_cases route
                (set_vrfAndIP2Route (λ _, m1) (set_vrfPrefix2Route (λ _, m2) cache)))
      as [[_ ->]|[_ ->]]; by eexists _, _.
Qed.

(** X5. After the route traversal, every new entry of the host-route map
    is a hardware route with a full-width mask, filed under its (VRF,
    address), and exists only on a platform that allows host routes in
    the host table; every new entry of the prefix-route map is a
    hardware route that is not such a host route, filed under its (VRF,
    prefix, mask); and every hardware route is found in the map of its
    kind under its key. *)
Theorem route_traverse_classified (routes : list Route.t) (cache : BcmWarmBootCache) :
  let cache' := opennsl_l3_route_traverse routes cache in
  let p := platform cache in
  (∀ k route, vrfAndIP2Route_ cache' !! k = Some route →
     (route ∈ routes ∧ k = (Route.l3a_vrf route, route_ip route) ∧ host_route p route)
     ∨ vrfAndIP2Route_ cache !! k = Some route) ∧
  (∀ k route, vrfPrefix2Route_ cache' !! k = Some route →
     (route ∈ routes ∧
      k = (Route.l3a_vrf route, route_ip route, route_mask route) ∧
      ¬ host_route p route)
     ∨ vrfPrefix2Route_ cache !! k = Some route) ∧
  (∀ route, route ∈ routes →
     (host_route p route →
      is_Some (vrfAndIP2Route_ cache' !! (Route.l3a_vrf route, route_ip route))) ∧
     (¬ host_route p route →
      is_Some (vrfPrefix2Route_ cache'
                 !! (Route.l3a_vrf route, route_ip route, route_mask route)))).
Proof.
  simpl. induction routes as [|route routes IH] using rev_ind.
  { split; [by right|]. split; [by right|]. intros r Hr. by apply elem_of_nil in Hr. }
  destruct IH as (IH1 & IH2 & IH3). rewrite route_traverse_snoc.
  assert (Hp : platform (opennsl_l3_route_traverse routes cache) = platform cache).
  { by destruct (route_traverse_shape routes cache) as (? & ? & ->). }
  destruct (routeTraversalCallback_cases route (opennsl_l3_route_traverse routes cache))
    as [[Hkind ->]|[Hkind ->]]; rewrite Hp in Hkind; simpl.
  - split; [|split].
    + intros k r.
      destruct (decide ((Route.l3a_vrf route, route_ip route) = k)) as [<-|Hne].
      * rewrite lookup_insert_eq. intros [= <-]. left. split; [|done].
        apply elem_of_app. right. by apply list_elem_of_singleton.
      * rewrite lookup_insert_ne by done.
        intros [(Hin & -> & Hr)|Hold]%IH1; [|by right].
        left. split; [|done]. apply elem_of_app. by left.
    + intros k r [(Hin & -> & Hr)|Hold]%IH2; [|by right].
      left. split; [|done]. apply elem_of_app. by left.
    + intros r [Hr|Hr]%elem_of_app.
      * destruct (IH3 r Hr) as [Hhost Hprefix]. split; [|done].
        intros Hh.
        destruct (decide ((Route.l3a_vrf route, route_ip route)
                          = (Route.l3a_vrf r, route_ip r))) as [<-|Hne].
        -- rewrite lookup_insert_eq. by eexists.
        -- rewrite lookup_insert_ne by done. by apply Hhost.
      * apply list_elem_of_singleton in Hr as ->. split; [|done].
        intros _. rewrite lookup_insert_eq. by eexists.
  - split; [|split].
    + intros k r [(Hin & -> & Hr)|Hold]%IH1; [|by right].
      left. split; [|done]. apply elem_of_app. by left.
    + intros k r.
      destruct (decide ((Route.l3a_vrf route, route_ip route, route_mask route) = k))
        as [<-|Hne].
      * rewrite lookup_insert_eq. intros [= <-]. left. split; [|done].
        apply elem_of_app. right. by apply list_elem_of_singleton.
      * rewrite lookup_insert_ne by done.
        intros [(Hin & -> & Hr)|Hold]%IH2; [|by right].
        left. split; [|done]. apply elem_of_app. by left.
    + intros r [Hr|Hr]%elem_of_app.
      * destruct (IH3 r Hr) as [Hhost Hprefix]. split; [done|].
        intros Hh.
        destruct (decide ((Route.l3a_vrf route, route_ip route, route_mask route)
                          = (Route.l3a_vrf r, route_ip r, route_mask r))) as [<-|Hne].
        -- rewrite lookup_insert_eq. by eexists.
        -- rewrite lookup_insert_ne by done. by apply Hprefix.
      * apply list_elem_of_singleton in Hr as ->. split; [done|].
        intros _. rewrite lookup_insert_eq. by eexists.
Qed.

End RouteDiscovery.

Section EgressContents.
Context `{!SdkConsts}.

(** One successful callback: the id was new to the egress map, and the
    callback took one of its three successful branches. *)
Lemma egressTraversalCallback_ok (id : Z) (e : Egress.t) cache cache' :
  egressTraversalCallback id e cache = Ok cache' →
  egressId2EgressAndBool_ cache !! id = None ∧
  ((id ∈ egressOrEcmpIdsFromHostTable_ cache ∧
    cache' = set_egressId2EgressAndBool (<[id := (e, false)]>) cache) ∨
   ((id ∉ egressOrEcmpIdsFromHostTable_ cache) ∧ drop_role (id, e) = true ∧
    dropEgressId_ cache = INVALID ∧ cache' = set_dropEgressId id cache) ∨
   ((id ∉ egressOrEcmpIdsFromHostTable_ cache) ∧ to_cpu_role (id, e) = true ∧
    toCPUEgressId_ cache = INVALID ∧ cache' = set_toCPUEgressId id cache)).
Proof.
  intros Hok.
  assert (Hfresh : egressId2EgressAndBool_ cache !! id = None).
  { unfold egressTraversalCallback in Hok. case_decide as Hdup; [done|].
    destruct (egressId2EgressAndBool_ cache !! id) eqn:Hl; [|done].
    destruct Hdup. by eexists. }
  split; [done|].
  pose proof (egressTraversalCallback_cases id e cache Hfresh) as Hcb.
  case_bool_decide as Hin.
  { left. rewrite Hcb in Hok. by injection Hok as <-. }
  right. destruct (drop_role (id, e)).
  { case_decide as Hfree.
    - left. rewrite Hcb in Hok. by injection Hok as <-.
    - destruct Hcb as [what Hcb]. by rewrite Hcb in Hok. }
  destruct (to_cpu_role (id, e)).
  { case_decide as Hfree.
    - right. rewrite Hcb in Hok. by injection Hok as <-.
    - destruct Hcb as [what Hcb]. by rewrite Hcb in Hok. }
  destruct Hcb as [what Hcb]. by rewrite Hcb in Hok.
Qed.

(** The egress traversal changes the egress map and the two singleton
    ids, and nothing else. *)
Lemma egress_traverse_shape (l : list (Z * Egress.t)) : ∀ cache cache',
  opennsl_l3_egress_traverse l cache = Ok cache' →
  ∃ m d t, cache' = set_egressId2EgressAndBool (λ _, m)
                      (set_dropEgressId d (set_toCPUEgressId t cache)).
Proof.
  induction l as [|[id e] l IH]; intros cache cache'.
  { intros [= <-]. exists (egressId2EgressAndBool_ cache), (dropEgressId_ cache),
      (toCPUEgressId_ cache). by destruct cache. }
  change (opennsl_l3_egress_traverse ((id, e) :: l) cache)
    with (egressTraversalCallback id e cache ≫= opennsl_l3_egress_traverse l).
  destruct (egressTraversalCallback id e cache) as [c1| |] eqn:Hcb; simpl; try done.
  apply egressTraversalCallback_ok in Hcb
    as (_ & [(_ & ->)|[(_ & _ & _ & ->)|(_ & _ & _ & ->)]]);
    intros (m & d & t & ->)%IH; by eexists _, _, _.
Qed.

(** The egress map after a completed traversal. *)
Lemma egress_traverse_map (l : list (Z * Egress.t)) : ∀ cache cache',
  opennsl_l3_egress_traverse l cache = Ok cache' →
  ∀ id eb, egressId2EgressAndBool_ cache' !! id = Some eb ↔
    egressId2EgressAndBool_ cache !! id = Some eb ∨
    ∃ e, (id, e) ∈ l ∧ id ∈ egressOrEcmpIdsFromHostTable_ cache ∧ eb = (e, false).
Proof.
  induction l as [|[id0 e0] l IH]; intros cache cache'.
  { intros [= <-] id eb. split; [by left|]. intros [?|(e & Hin & _)]; [done|].
    by apply elem_of_nil in Hin. }
  change (opennsl_l3_egress_traverse ((id0, e0) :: l) cache)
    with (egressTraversalCallback id0 e0 cache ≫= opennsl_l3_egress_traverse l).
  destruct (egressTraversalCallback id0 e0 cache) as [c1| |] eqn:Hcb; simpl; try done.
  intros Hrest id eb. rewrite (IH _ _ Hrest id eb).
  apply egressTraversalCallback_ok in Hcb
    as (Hfresh & [(Hin & ->)|[(Hin & Hrole & Hfree & ->)|(Hin & Hrole & Hfree & ->)]]);
    simpl.
  - (* referenced by the host table *)
    split.
    + intros [Hl|(e & Hl & ? & ->)].
      * destruct (decide (id0 = id)) as [<-|Hne].
        -- rewrite lookup_insert_eq in Hl. injection Hl as <-.
           right. exists e0. split; [by left|done].
        -- rewrite lookup_insert_ne in Hl by done. by left.
      * right. exists e. split; [by right|done].
    + intros [Hl|(e & Hl & ? & ->)].
      * left. rewrite lookup_insert_ne; [done|]. intros ->.
        by rewrite Hfresh in Hl.
      * apply elem_of_cons in Hl as [[= -> ->]|Hl].
        -- left. by rewrite lookup_insert_eq.
        -- right. by exists e.
  - (* the drop role *)
    split.
    + intros [Hl|(e & Hl & ? & ->)]; [by left|].
      right. exists e. split; [by right|done].
    + intros [Hl|(e & Hl & ? & ->)]; [by left|].
      apply elem_of_cons in Hl as [[= -> ->]|Hl]; [done|].
      right. by exists e.
  - (* the to-CPU role *)
    split.
    + intros [Hl|(e & Hl & ? & ->)]; [by left|].
      right. exists e. split; [by right|done].
    + intros [Hl|(e & Hl & ? & ->)]; [by left|].
      apply elem_of_cons in Hl as [[= -> ->]|Hl]; [done|].
      right. by exists e.
Qed.

(** X6. After a completed egress traversal the egress map holds what it
    held before and, unclaimed, exactly the hardware objects whose id the
    host table refers to; an egress id that became the drop id or the
    to-CPU id is the id of a hardware object that no host entry refers
    to, has the flags of that role, and took a slot that was unset. *)
Theorem egress_traverse_contents (l : list (Z * Egress.t))
    (cache cache' : BcmWarmBootCache) :
  opennsl_l3_egress_traverse l cache = Ok cache' →
  let hostIds := egressOrEcmpIdsFromHostTable_ cache in
  (∀ id eb, egressId2EgressAndBool_ cache' !! id = Some eb ↔
     egressId2EgressAndBool_ cache !! id = Some eb ∨
     ∃ e, (id, e) ∈ l ∧ id ∈ hostIds ∧ eb = (e, false)) ∧
  (dropEgressId_ cache' = dropEgressId_ cache ∨
   dropEgressId_ cache = INVALID ∧
   ∃ e, (dropEgressId_ cache', e) ∈ l ∧ (dropEgressId_ cache' ∉ hostIds) ∧
        drop_role (dropEgressId_ cache', e) = true) ∧
  (toCPUEgressId_ cache' = toCPUEgressId_ cache ∨
   toCPUEgressId_ cache = INVALID ∧
   ∃ e, (toCPUEgressId_ cache', e) ∈ l ∧ (toCPUEgressId_ cache' ∉ hostIds) ∧
        to_cpu_role (toCPUEgressId_ cache', e) = true).
Proof.
  simpl. intros Hok. split; [by apply egress_traverse_map|].
  revert cache cache' Hok.
  induction l as [|[id0 e0] l IH]; intros cache cache'.
  { intros [= <-]. by split; left. }
  change (opennsl_l3_egress_traverse ((id0, e0) :: l) cache)
    with (egressTraversalCallback id0 e0 cache ≫= opennsl_l3_egress_traverse l).
  destruct (egressTraversalCallback id0 e0 cache) as [c1| |] eqn:Hcb; simpl; try done.
  intros Hrest. apply IH in Hrest as (IHdrop & IHcpu).
  apply egressTraversalCallback_ok in Hcb
    as (Hfresh & [(Hin & ->)|[(Hin & Hrole & Hfree & ->)|(Hin & Hrole & Hfree & ->)]]);
    simpl in IHdrop, IHcpu.
  - (* referenced by the host table *)
    split.
    + destruct IHdrop as [?|(? & e & ? & ? & ?)]; [by left|right].
      split; [done|]. exists e. split; [by right|done].
    + destruct IHcpu as [?|(? & e & ? & ? & ?)]; [by left|right].
      split; [done|]. exists e. split; [by right|done].
  - (* the drop role *)
    split.
    + right. split; [done|].
      destruct IHdrop as [->|(? & e & ? & ? & ?)].
      * exists e0. split; [by left|done].
      * exists e. split; [by right|done].
    + destruct IHcpu as [?|(? & e & ? & ? & ?)]; [by left|right].
      split; [done|]. exists e. split; [by right|done].
  - (* the to-CPU role *)
    split.
    + destruct IHdrop as [?|(? & e & ? & ? & ?)]; [by left|right].
      split; [done|]. exists e. split; [by right|done].
    + right. split; [done|].
      destruct IHcpu as [->|(? & e & ? & ? & ?)].
      * exists e0. split; [by left|done].
      * exists e. split; [by right|done].
Qed.

End EgressContents.

Section EcmpContents.
Context `{!SdkConsts}.

Lemma toEgressIds_all (l : list Z) :
  toEgressIds l (Z.of_nat (length l)) = list_to_set l.
Proof. unfold toEgressIds. by rewrite Nat2Z.id, firstn_all. Qed.

Lemma recordEcmp_cases ecmp ids cache cache' :
  recordEcmp ecmp ids cache = Ok cache' →
  ids ≠ ∅ ∧ egressIds2Ecmp_ cache !! ids = None ∧
  cache' = set_egressIds2Ecmp (<[ids := ecmp]>) cache.
Proof.
  unfold recordEcmp. case_decide as Hsize; [done|]. case_decide as Hdup; [done|].
  intros [= <-]. split; [|split; [|done]].
  - intros ->. by rewrite size_empty in Hsize.
  - destruct (egressIds2Ecmp_ cache !! ids) eqn:Hl; [|done]. destruct Hdup. by eexists.
Qed.

(** One successful callback either records the group under its path set,
    which is non-empty and new to the map, or, for a group that has no
    path set to record, leaves the cache as it is. *)
Lemma ecmpEgressTraversalCallback_ok (g : Ecmp.t * list EgressId) cache cache' :
  ecmpEgressTraversalCallback g.1 (Z.of_nat (length g.2)) g.2 cache = Ok cache' →
  match recorded_paths cache g with
  | Some ids => ids ≠ ∅ ∧ egressIds2Ecmp_ cache !! ids = None ∧
                cache' = set_egressIds2Ecmp (<[ids := g.1]>) cache
  | None => cache' = cache
  end.
Proof.
  unfold ecmpEgressTraversalCallback, recorded_paths.
  destruct (hwSwitchEcmp2EgressIdsPopulated_ cache).
  - destruct (getPathsForEcmp cache (Ecmp.ecmp_intf g.1)) as [ids|[msg|msg]|].
    + apply recordEcmp_cases.
    + case_decide; [|done]. by intros [= <-].
    + done.
    + done.
  - destruct g as [ecmp arr]. simpl. destruct arr as [|a arr].
    + simpl. by intros [= <-].
    + rewrite decide_False by (simpl; lia). rewrite decide_False by done.
      rewrite toEgressIds_all. apply recordEcmp_cases.
Qed.

Lemma ecmp_traverse_cons g l cache :
  opennsl_l3_egress_ecmp_traverse (g :: l) cache
  = ecmpEgressTraversalCallback g.1 (Z.of_nat (length g.2)) g.2 cache
      ≫= opennsl_l3_egress_ecmp_traverse l.
Proof. done. Qed.

(** The ECMP traversal changes the map of ECMP groups, and nothing
    else. *)
Lemma ecmp_traverse_shape (l : list (Ecmp.t * list EgressId)) : ∀ cache cache',
  opennsl_l3_egress_ecmp_traverse l cache = Ok cache' →
  ∃ m, cache' = set_egressIds2Ecmp (λ _, m) cache.
Proof.
  induction l as [|g l IH]; intros cache cache'.
  { intros [= <-]. exists (egressIds2Ecmp_ cache). by destruct cache. }
  rewrite ecmp_traverse_cons.
  destruct (ecmpEgressTraversalCallback _ _ _ cache) as [c1| |] eqn:Hcb; simpl; try done.
  apply ecmpEgressTraversalCallback_ok in Hcb.
  intros (m & ->)%IH.
  destruct (recorded_paths cache g) as [ids|].
  - destruct Hcb as (_ & _ & ->). by eexists.
  - subst c1. by eexists.
Qed.

(** X7. After a completed ECMP traversal the map of ECMP groups holds
    what it held before and exactly the hardware groups that have a path
    set to record (the persisted one when the path map was populated,
    the hardware's member list otherwise), each under that path set; the
    recorded path sets are non-empty, new to the map, and no two groups
    of the traversal share one. *)
Theorem ecmp_traverse_contents (ecmps : list (Ecmp.t * list EgressId))
    (cache cache' : BcmWarmBootCache) :
  opennsl_l3_egress_ecmp_traverse ecmps cache = Ok cache' →
  (∀ ids ecmp, egressIds2Ecmp_ cache' !! ids = Some ecmp ↔
     egressIds2Ecmp_ cache !! ids = Some ecmp ∨
     ∃ arr, (ecmp, arr) ∈ ecmps ∧ recorded_paths cache (ecmp, arr) = Some ids) ∧
  (∀ g ids, g ∈ ecmps → recorded_paths cache g = Some ids →
     ids ≠ ∅ ∧ egressIds2Ecmp_ cache !! ids = None) ∧
  (∀ i j g1 g2 ids, ecmps !! i = Some g1 → ecmps !! j = Some g2 →
     recorded_paths cache g1 = Some ids → recorded_paths cache g2 = Some ids →
     i = j).
Proof.
  revert cache cache'.
  induction ecmps as [|g l IH]; intros cache cache'.
  { intros [= <-]. split; [|split].
    - intros ids e. split; [by left|]. intros [?|(arr & Hin & _)]; [done|].
      by apply elem_of_nil in Hin.
    - intros g ids Hin. by apply elem_of_nil in Hin.
    - intros i j g1 g2 ids Hi. by rewrite lookup_nil in Hi. }
  rewrite ecmp_traverse_cons.
  destruct (ecmpEgressTraversalCallback _ _ _ cache) as [c1| |] eqn:Hcb; simpl; try done.
  apply ecmpEgressTraversalCallback_ok in Hcb.
  intros Hrest. apply IH in Hrest as (IHmap & IHnew & IHinj).
  assert (Hrec : ∀ g', recorded_paths c1 g' = recorded_paths cache g').
  { intros g'. destruct (recorded_paths cache g) as [ids|].
    - by destruct Hcb as (_ & _ & ->).
    - by subst c1. }
  setoid_rewrite Hrec in IHmap. setoid_rewrite Hrec in IHnew.
  setoid_rewrite Hrec in IHinj.
  destruct (recorded_paths cache g) as [ids0|] eqn:Hg.
  - destruct Hcb as (Hne & Hfresh & ->). simpl in IHmap, IHnew.
    assert (Hlater : ∀ g' ids, g' ∈ l → recorded_paths cache g' = Some ids →
                               ids ≠ ids0).
    { intros g' ids Hin Hr ->. destruct (IHnew g' ids0 Hin Hr) as [_ Hl].
      by rewrite lookup_insert_eq in Hl. }
    split; [|split].
    + intros ids e. rewrite IHmap. split.
      * intros [Hl|(arr & Hl & Hr)].
        -- destruct (decide (ids0 = ids)) as [<-|Hd].
           ++ rewrite lookup_insert_eq in Hl. injection Hl as <-.
              right. exists g.2. split; [|by destruct g]. destruct g. by left.
           ++ rewrite lookup_insert_ne in Hl by done. by left.
        -- right. exists arr. split; [by right|done].
      * intros [Hl|(arr & Hl & Hr)].
        -- left. rewrite lookup_insert_ne; [done|]. intros ->.
           by rewrite Hfresh in Hl.
        -- apply elem_of_cons in Hl as [<-|Hl].
           ++ left. rewrite Hg in Hr. injection Hr as <-.
              by rewrite lookup_insert_eq.
           ++ right. by exists arr.
    + intros g' ids [->|Hin]%elem_of_cons Hr.
      * rewrite Hg in Hr. by injection Hr as <-.
      * destruct (IHnew g' ids Hin Hr) as [? Hl]. split; [done|].
        rewrite lookup_insert_ne in Hl; [done|]. intros Heq.
        by apply (Hlater g' ids Hin Hr).
    + intros [|i] [|j] g1 g2 ids; simpl; intros Hi Hj Hr1 Hr2.
      * done.
      * injection Hi as <-. rewrite Hg in Hr1. injection Hr1 as <-.
        apply list_elem_of_lookup_2 in Hj. by destruct (Hlater g2 ids0 Hj Hr2).
      * injection Hj as <-. rewrite Hg in Hr2. injection Hr2 as <-.
        apply list_elem_of_lookup_2 in Hi. by destruct (Hlater g1 ids0 Hi Hr1).
      * f_equal. by apply (IHinj i j g1 g2 ids).
  - subst c1. split; [|split].
    + intros ids e. rewrite IHmap. split.
      * intros [Hl|(arr & Hl & Hr)]; [by left|].
        right. exists arr. split; [by right|done].
      * intros [Hl|(arr & Hl & Hr)]; [by left|].
        apply elem_of_cons in Hl as [<-|Hl]; [by rewrite Hg in Hr|].
        right. by exists arr.
    + intros g' ids [->|Hin]%elem_of_cons Hr; [by rewrite Hg in Hr|].
      by apply (IHnew g').
    + intros [|i] [|j] g1 g2 ids; simpl; intros Hi Hj Hr1 Hr2.
      * done.
      * injection Hi as <-. by rewrite Hg in Hr1.
      * injection Hj as <-. by rewrite Hg in Hr2.
      * f_equal. by apply (IHinj i j g1 g2 ids).
Qed.

End EcmpContents.

Section WholeDiscovery.
Context `{!SdkConsts}.
Variable OPENNSL_E_NOT_FOUND : Z.
Variable vlanIntfID : VlanID → InterfaceID.
Variable str_to_int64 : string → option Z.
Variable uniquePtrFromFollyDynamic : dynamic → Res (option SwitchState).

Abbreviation populateVlan' := (populateVlan OPENNSL_E_NOT_FOUND vlanIntfID).
Abbreviation populate' :=
  (populate OPENNSL_E_NOT_FOUND vlanIntfID str_to_int64 uniquePtrFromFollyDynamic).

Lemma bcmCheckError_ok rv what :
  bcmCheckError rv what = Ok tt ↔ OPENNSL_FAILURE rv = false.
Proof. unfold bcmCheckError. by destruct (OPENNSL_FAILURE rv). Qed.

Lemma lookup_map_emplace `{Countable K} {V} (k k' : K) (v : V) (m : gmap K V) :
  map_emplace k v m !! k'
  = match m !! k' with
    | Some old => Some old
    | None => if decide (k = k') then Some v else None
    end.
Proof.
  unfold map_emplace. destruct (m !! k) as [old|] eqn:Hk.
  - destruct (m !! k') eqn:Hk'; [done|]. case_decide; [|done]. congruence.
  - destruct (decide (k = k')) as [<-|Hne].
    + by rewrite lookup_insert_eq, Hk.
    + rewrite lookup_insert_ne by done. by destruct (m !! k').
Qed.

(** One successful step of the loop over the VLANs of the hardware. *)
Lemma populateVlan_ok hw vlanData cache cache' :
  populateVlan' hw vlanData cache = Ok cache' →
  let found := hw_l3_intf_find_vlan hw (vlan_tag vlanData) in
  let station := hw_l2_station_get hw (L3Intf.l3a_vid found.2) in
  let info := VlanInfo_new vlanIntfID (vlan_tag vlanData)
                (port_bitmap vlanData) (port_bitmap vlanData) in
  let withInfo :=
    set_vlan2VlanInfo (map_emplace (getVlanId (vlan_tag vlanData)) info) cache in
  let withIntf :=
    set_vlanAndMac2Intf
      (<[(getVlanId (L3Intf.l3a_vid found.2), macFromBcm (L3Intf.l3a_mac_addr found.2))
         := found.2]>) withInfo in
  (found.1 = OPENNSL_E_NOT_FOUND ∧ cache' = withInfo) ∨
  (found.1 ≠ OPENNSL_E_NOT_FOUND ∧ OPENNSL_FAILURE found.1 = false ∧
   ((OPENNSL_FAILURE station.1 = true ∧ cache' = withIntf) ∨
    (OPENNSL_FAILURE station.1 = false ∧
     cache' = set_vlan2Station (<[vlan_tag vlanData := station.2]>) withIntf))).
Proof.
  unfold populateVlan. simpl.
  destruct (hw_l3_intf_find_vlan hw (vlan_tag vlanData)) as [rv l3Intf]. simpl.
  case_decide as Hrv; [|intros [= <-]; left; split; [|done]].
  - unfold bcmCheckError. destruct (OPENNSL_FAILURE rv) eqn:Hfail; simpl; [done|].
    destruct (hw_l2_station_get hw (L3Intf.l3a_vid l3Intf)) as [rv2 l2Station]. simpl.
    destruct (OPENNSL_FAILURE rv2) eqn:Hfail2; intros [= <-]; right;
      (split; [done|]); (split; [done|]); [left|right]; done.
  - by destruct (decide (rv = OPENNSL_E_NOT_FOUND)) as [?|Hn]; [|destruct Hrv].
Qed.

(** The loop over the VLANs changes the three VLAN maps, and nothing
    else. *)
Lemma populateVlans_shape hw (l : list opennsl_vlan_data_t) : ∀ cache cache',
  forM (populateVlan' hw) l cache = Ok cache' →
  ∃ m1 m2 m3, cache' = set_vlan2VlanInfo (λ _, m1)
                         (set_vlanAndMac2Intf (λ _, m2)
                            (set_vlan2Station (λ _, m3) cache)).
Proof.
  induction l as [|vd l IH]; intros cache cache'; simpl.
  { intros [= <-]. exists (vlan2VlanInfo_ cache), (vlanAndMac2Intf_ cache),
      (vlan2Station_ cache). by destruct cache. }
  destruct (populateVlan' hw vd cache) as [c1| |] eqn:Hstep; simpl; try done.
  intros (m1 & m2 & m3 & ->)%IH.
  apply populateVlan_ok in Hstep as [[_ ->]|(_ & _ & [[_ ->]|[_ ->]])];
    by eexists _, _, _.
Qed.

(** The stages of a successful discovery. *)
Lemma populate_stages hw json cache cache' :
  populate' hw json cache = Ok cache' →
  ∃ c1 c2 c5 c6,
    populateStateFromWarmbootFile str_to_int64 uniquePtrFromFollyDynamic json cache
      = Ok c1 ∧
    OPENNSL_FAILURE (hw_vlan_list hw).1 = false ∧
    forM (populateVlan' hw) (hw_vlan_list hw).2 c1 = Ok c2 ∧
    opennsl_l3_egress_traverse (hw_egresses hw)
      (opennsl_l3_route_traverse (hw_routes_v6 hw)
         (opennsl_l3_route_traverse (hw_routes_v4 hw)
            (opennsl_l3_host_traverse (hw_hosts_v6 hw)
               (opennsl_l3_host_traverse (hw_hosts_v4 hw) c2)))) = Ok c5 ∧
    opennsl_l3_egress_ecmp_traverse (hw_ecmps hw) c5 = Ok c6 ∧
    cache' = set_egressOrEcmpIdsFromHostTable (λ _, ∅) c6.
Proof.
  unfold populate.
  destruct (populateStateFromWarmbootFile _ _ json cache) as [c1| |]; simpl; try done.
  destruct (bcmCheckError _ _) as [[]| |] eqn:Hrv; simpl; try done.
  apply bcmCheckError_ok in Hrv.
  destruct (forM _ (hw_vlan_list hw).2 c1) as [c2| |] eqn:Hvlans; simpl; try done.
  destruct (opennsl_l3_egress_traverse _ _) as [c5| |] eqn:Hegress; simpl; try done.
  destruct (opennsl_l3_egress_ecmp_traverse _ c5) as [c6| |] eqn:Hecmp; simpl; try done.
  intros [= <-]. by exists c1, c2, c5, c6.
Qed.

(** X8. After a successful discovery the scratch set of ids the host
    table refers to is empty again, the software state is present, and
    the egress map holds what it held before and, unclaimed, exactly the
    egress objects of the hardware whose id an IPv4 or IPv6 host entry
    of the hardware refers to (or the scratch set held at the start): so
    every egress object of a discovery from a new cache is unclaimed. *)
Theorem populate_egress_unclaimed (hw : HwTables) (json : dynamic)
    (cache cache' : BcmWarmBootCache) :
  populate' hw json cache = Ok cache' →
  let hostIds : gset Z :=
    list_to_set (Host.l3a_intf <$> hw_hosts_v4 hw ++ hw_hosts_v6 hw)
    ∪ egressOrEcmpIdsFromHostTable_ cache in
  egressOrEcmpIdsFromHostTable_ cache' = ∅ ∧
  is_Some (dumpedSwSwitchState_ cache') ∧
  (∀ id eb, egressId2EgressAndBool_ cache' !! id = Some eb ↔
     egressId2EgressAndBool_ cache !! id = Some eb ∨
     ∃ e, (id, e) ∈ hw_egresses hw ∧ id ∈ hostIds ∧ eb = (e, false)) ∧
  (all_unclaimed cache → all_unclaimed cache').
Proof.
  intros (c1 & c2 & c5 & c6 & Hload & _ & Hvlans & Hegress & Hecmp & ->)%populate_stages.
  simpl.
  apply loader_shape in Hload as (st & flag & m & -> & _ & _).
  apply populateVlans_shape in Hvlans as (m1 & m2 & m3 & ->).
  apply ecmp_traverse_shape in Hecmp as (m6 & ->).
  pose proof (egress_traverse_map _ _ _ Hegress) as Hmap.
  apply egress_traverse_shape in Hegress as (m5 & d & t & ->). simpl in *.
  revert Hmap.
  repeat match goal with
  | |- context [opennsl_l3_route_traverse ?l ?c] =>
      let H := fresh in
      destruct (route_traverse_shape l c) as (? & ? & H); rewrite H; clear H
  end.
  simpl. rewrite !host_traverse_ids.
  repeat match goal with
  | |- context [opennsl_l3_host_traverse ?l ?c] =>
      let H := fresh in
      destruct (host_traverse_shape l c) as (? & ? & H); rewrite H; clear H
  end.
  simpl. intros Hmap.
  assert (Hids : list_to_set (Host.l3a_intf <$> hw_hosts_v6 hw)
                 ∪ (list_to_set (Host.l3a_intf <$> hw_hosts_v4 hw)
                    ∪ egressOrEcmpIdsFromHostTable_ cache)
                 = (list_to_set (Host.l3a_intf <$> hw_hosts_v4 hw ++ hw_hosts_v6 hw)
                    ∪ egressOrEcmpIdsFromHostTable_ cache : gset Z)).
  { rewrite fmap_app, list_to_set_app_L.
    rewrite (comm_L (∪) (list_to_set (Host.l3a_intf <$> hw_hosts_v4 hw))
               (list_to_set (Host.l3a_intf <$> hw_hosts_v6 hw))).
    by rewrite !(assoc_L (∪)). }
  rewrite Hids in Hmap.
  split; [done|]. split; [by eexists|]. split; [done|].
  intros Hold id eb [Hl|(e & _ & _ & ->)]%Hmap; [by apply (Hold id)|done].
Qed.

Lemma populateVlan_info hw vd cache c1 :
  populateVlan' hw vd cache = Ok c1 →
  vlan2VlanInfo_ c1
  = map_emplace (getVlanId (vlan_tag vd))
      (VlanInfo_new vlanIntfID (vlan_tag vd) (port_bitmap vd) (port_bitmap vd))
      (vlan2VlanInfo_ cache).
Proof.
  intros Hstep.
  by apply populateVlan_ok in Hstep as [[_ ->]|(_ & _ & [[_ ->]|[_ ->]])].
Qed.

(** The loop never replaces a VLAN info. *)
Lemma populateVlans_kept hw (l : list opennsl_vlan_data_t) : ∀ cache cache' v info,
  forM (populateVlan' hw) l cache = Ok cache' →
  vlan2VlanInfo_ cache !! v = Some info →
  vlan2VlanInfo_ cache' !! v = Some info.
Proof.
  induction l as [|vd l IH]; intros cache cache' v info; simpl.
  { by intros [= <-]. }
  destruct (populateVlan' hw vd cache) as [c1| |] eqn:Hstep; simpl; try done.
  intros Hrest Hv. apply (IH _ _ _ _ Hrest).
  rewrite (populateVlan_info _ _ _ _ Hstep), lookup_map_emplace. by rewrite Hv.
Qed.

(** The three VLAN maps after the loop over the VLANs. *)
Lemma populateVlans_inv hw (l : list opennsl_vlan_data_t) : ∀ cache cache',
  forM (populateVlan' hw) l cache = Ok cache' →
  (∀ vlanData, vlanData ∈ l →
     is_Some (vlan2VlanInfo_ cache' !! getVlanId (vlan_tag vlanData))) ∧
  (∀ v info, vlan2VlanInfo_ cache' !! v = Some info →
     vlan2VlanInfo_ cache !! v = Some info ∨
     ∃ vlanData, vlanData ∈ l ∧ v = getVlanId (vlan_tag vlanData) ∧
       info = VlanInfo_new vlanIntfID (vlan_tag vlanData)
                (port_bitmap vlanData) (port_bitmap vlanData)) ∧
  (∀ k l3Intf, vlanAndMac2Intf_ cache' !! k = Some l3Intf →
     vlanAndMac2Intf_ cache !! k = Some l3Intf ∨
     k = (getVlanId (L3Intf.l3a_vid l3Intf), macFromBcm (L3Intf.l3a_mac_addr l3Intf)) ∧
     ∃ vlanData, vlanData ∈ l ∧
       intf_found OPENNSL_E_NOT_FOUND hw (vlan_tag vlanData) l3Intf) ∧
  (∀ v l2Station, vlan2Station_ cache' !! v = Some l2Station →
     vlan2Station_ cache !! v = Some l2Station ∨
     ∃ vlanData l3Intf, vlanData ∈ l ∧ v = vlan_tag vlanData ∧
       intf_found OPENNSL_E_NOT_FOUND hw (vlan_tag vlanData) l3Intf ∧
       station_found hw (L3Intf.l3a_vid l3Intf) l2Station).
Proof.
  induction l as [|vd l IH]; intros cache cache'; simpl.
  { intros [= <-]. split; [|by repeat split; left].
    intros ? Hin. by apply elem_of_nil in Hin. }
  destruct (populateVlan' hw vd cache) as [c1| |] eqn:Hstep; simpl; try done.
  intros Hrest. pose proof (λ v info, populateVlans_kept hw l c1 cache' v info Hrest) as Hkept.
  apply IH in Hrest as (IHall & IHinfo & IHintf & IHstation).
  pose proof (populateVlan_info _ _ _ _ Hstep) as Hinfo1.
  split; [|split; [|split]].
  - intros vd' [->|Hin]%elem_of_cons; [|by apply IHall].
    assert (is_Some (vlan2VlanInfo_ c1 !! getVlanId (vlan_tag vd))) as [info Hi].
    { rewrite Hinfo1, lookup_map_emplace.
      destruct (vlan2VlanInfo_ cache !! _); [by eexists|].
      rewrite decide_True by done. by eexists. }
    exists info. by apply (Hkept _ info).
  - intros v info [Hv|(vd' & Hin & -> & ->)]%IHinfo.
    + rewrite Hinfo1, lookup_map_emplace in Hv.
      destruct (vlan2VlanInfo_ cache !! v) eqn:Hold; [by left|].
      case_decide as Heq; [|done]. injection Hv as <-. right.
      exists vd. split; [by left|done].
    + right. exists vd'. split; [by right|done].
  - intros k l3Intf [Hk|(-> & vd' & Hin & Hf)]%IHintf.
    + apply populateVlan_ok in Hstep as [[_ ->]|(Hnf & Hok & [[_ ->]|[_ ->]])];
        simpl in Hk; [by left| |].
      all: match type of Hk with
           | <[?k0 := _]> _ !! _ = _ => destruct (decide (k0 = k)) as [<-|Hne]
           end.
      all: try (rewrite lookup_insert_ne in Hk by done; by left).
      all: rewrite lookup_insert_eq in Hk; injection Hk as <-; right;
        (split; [done|]); exists vd; (split; [by left|done]).
    + right. split; [done|]. exists vd'. split; [by right|done].
  - intros v l2Station [Hv|(vd' & l3Intf & Hin & -> & Hf & Hs)]%IHstation.
    + apply populateVlan_ok in Hstep as [[_ ->]|(Hnf & Hok & [[_ ->]|[Hst ->]])];
        simpl in Hv; [by left|by left|].
      destruct (decide (vlan_tag vd = v)) as [<-|Hne].
      * rewrite lookup_insert_eq in Hv. injection Hv as <-. right.
        exists vd, (hw_l3_intf_find_vlan hw (vlan_tag vd)).2.
        split; [by left|]. by repeat split.
      * rewrite lookup_insert_ne in Hv by done. by left.
    + right. exists vd', l3Intf. split; [by right|done].
Qed.

(** The VLAN maps of a successful discovery are those of its loop over
    the VLANs, which starts from the VLAN maps of the cache. *)
Lemma populate_vlan_loop hw json cache cache' :
  populate' hw json cache = Ok cache' →
  ∃ c1 c2,
    forM (populateVlan' hw) (hw_vlan_list hw).2 c1 = Ok c2 ∧
    vlan2VlanInfo_ c1 = vlan2VlanInfo_ cache ∧
    vlanAndMac2Intf_ c1 = vlanAndMac2Intf_ cache ∧
    vlan2Station_ c1 = vlan2Station_ cache ∧
    vlan2VlanInfo_ cache' = vlan2VlanInfo_ c2 ∧
    vlanAndMac2Intf_ cache' = vlanAndMac2Intf_ c2 ∧
    vlan2Station_ cache' = vlan2Station_ c2.
Proof.
  intros (c1 & c2 & c5 & c6 & Hload & _ & Hvlans & Hegress & Hecmp & ->)%populate_stages.
  exists c1, c2. split; [done|].
  apply loader_shape in Hload as (st & flag & m & -> & _ & _).
  apply ecmp_traverse_shape in Hecmp as (m6 & ->).
  apply egress_traverse_shape in Hegress as (m5 & d & t & ->). simpl.
  repeat match goal with
  | |- context [opennsl_l3_route_traverse ?l ?c] =>
      let H := fresh in
      destruct (route_traverse_shape l c) as (? & ? & H); rewrite H; clear H
  end.
  simpl.
  repeat match goal with
  | |- context [opennsl_l3_host_traverse ?l ?c] =>
      let H := fresh in
      destruct (host_traverse_shape l c) as (? & ? & H); rewrite H; clear H
  end.
  done.
Qed.

(** X9. After a successful discovery every VLAN the hardware lists has a
    VLAN info; a VLAN info that is new was built from a listed VLAN,
    with the port bitmap of the listing as both its untagged and its
    member ports and the interface id of the VLAN; an interface that is
    new is one the hardware returned for a listed VLAN, filed under its
    own VLAN and MAC; and a station that is new is what the hardware
    returned for the interface of a listed VLAN. A failed station lookup
    does not stop the discovery. *)
Theorem populate_vlans (hw : HwTables) (json : dynamic)
    (cache cache' : BcmWarmBootCache) :
  populate' hw json cache = Ok cache' →
  (∀ vlanData, vlanData ∈ (hw_vlan_list hw).2 →
     is_Some (vlan2VlanInfo_ cache' !! getVlanId (vlan_tag vlanData))) ∧
  (∀ v info, vlan2VlanInfo_ cache' !! v = Some info →
     vlan2VlanInfo_ cache !! v = Some info ∨
     ∃ vlanData, vlanData ∈ (hw_vlan_list hw).2 ∧ v = getVlanId (vlan_tag vlanData) ∧
       info = VlanInfo_new vlanIntfID (vlan_tag vlanData)
                (port_bitmap vlanData) (port_bitmap vlanData)) ∧
  (∀ k l3Intf, vlanAndMac2Intf_ cache' !! k = Some l3Intf →
     vlanAndMac2Intf_ cache !! k = Some l3Intf ∨
     k = (getVlanId (L3Intf.l3a_vid l3Intf), macFromBcm (L3Intf.l3a_mac_addr l3Intf)) ∧
     ∃ vlanData, vlanData ∈ (hw_vlan_list hw).2 ∧
       intf_found OPENNSL_E_NOT_FOUND hw (vlan_tag vlanData) l3Intf) ∧
  (∀ v l2Station, vlan2Station_ cache' !! v = Some l2Station →
     vlan2Station_ cache !! v = Some l2Station ∨
     ∃ vlanData l3Intf, vlanData ∈ (hw_vlan_list hw).2 ∧ v = vlan_tag vlanData ∧
       intf_found OPENNSL_E_NOT_FOUND hw (vlan_tag vlanData) l3Intf ∧
       station_found hw (L3Intf.l3a_vid l3Intf) l2Station).
Proof.
  intros (c1 & c2 & Hvlans & <- & <- & <- & -> & -> & ->)%populate_vlan_loop.
  by apply populateVlans_inv.
Qed.

End WholeDiscovery.

Section InterfaceContents.

(** What every iteration of a completed loop establishes, and no later
    iteration undoes, holds at the end for every element. *)
Lemma forM_establish {A S} (Q : A → S → Prop) (body : A → S → Res S) (l : list A) :
  ∀ s s',
  (∀ x s s', x ∈ l → body x s = Ok s' → Q x s') →
  (∀ x y s s', y ∈ l → Q x s → body y s = Ok s' → Q x s') →
  forM body l s = Ok s' → ∀ x, x ∈ l → Q x s'.
Proof.
  induction l as [|y l IH]; intros s s' Hnew Hkeep; simpl.
  { intros _ x Hx. by apply elem_of_nil in Hx. }
  destruct (body y s) as [s1| |] eqn:Hb; simpl; try done.
  intros Hrest x [->|Hx]%elem_of_cons.
  - assert (Q y s1) as Hy by (eapply Hnew; [by left|done]).
    revert Hrest Hy. clear -Hkeep. revert s1.
    induction l as [|z l IHl]; intros s1; simpl.
    + by intros [= <-].
    + destruct (body z s1) as [s2| |] eqn:Hz; simpl; try done.
      intros Hrest Hy. apply (IHl (λ x0 y0 t t' Hin, Hkeep x0 y0 t t'
        ltac:(apply elem_of_cons in Hin as [->|?];
              [by left|right; by right])) s2 Hrest).
      eapply Hkeep; [right; by left|done|done].
  - apply (IH s1 s'); try done.
    + intros z t t' Hz. apply Hnew. by right.
    + intros z1 z2 t t' Hz. apply Hkeep. by right.
Qed.

(** X10. When [reconstructInterfaceMap] returns a map, every interface
    of the map is built from a discovered hardware interface and the
    snapshot's interface of the same id (id, VLAN, VRF and MTU from the
    hardware, MAC from the key it was discovered under, name and
    addresses from the snapshot), and every discovered hardware
    interface has an interface under its VLAN id. *)
Theorem reconstructInterfaceMap_contents (cache : BcmWarmBootCache)
    (st : SwitchState) (intfMap : gmap Z Interface) :
  dumpedSwSwitchState_ cache = Some st →
  reconstructInterfaceMap cache = Ok intfMap →
  (∀ id i, intfMap !! id = Some i →
     ∃ k bcmIntf dumped dumpedInterface,
       vlanAndMac2Intf_ cache !! k = Some bcmIntf ∧
       L3Intf.l3a_vid bcmIntf = id ∧
       getInterfaces st = Some dumped ∧
       dumped !! id = Some dumpedInterface ∧
       i = reconstructedInterface k bcmIntf dumpedInterface) ∧
  (∀ k bcmIntf, vlanAndMac2Intf_ cache !! k = Some bcmIntf →
     is_Some (intfMap !! L3Intf.l3a_vid bcmIntf)).
Proof.
  intros Hst. unfold reconstructInterfaceMap. rewrite Hst. simpl. intros Hloop.
  split.
  - revert Hloop.
    apply (forM_invariant
      (λ m : gmap Z Interface, ∀ id i, m !! id = Some i →
         ∃ k bcmIntf dumped dumpedInterface,
           vlanAndMac2Intf_ cache !! k = Some bcmIntf ∧
           L3Intf.l3a_vid bcmIntf = id ∧
           getInterfaces st = Some dumped ∧
           dumped !! id = Some dumpedInterface ∧
           i = reconstructedInterface k bcmIntf dumpedInterface)).
    + intros [k bcmIntf] m m' Hin Hm. apply elem_of_map_to_list in Hin. simpl.
      destruct (getInterfaces st) as [dumped|] eqn:Hd; simpl; [|done].
      destruct (dumped !! L3Intf.l3a_vid bcmIntf) as [d|] eqn:Hi; simpl; [|done].
      intros [= <-] id i. unfold addInterface. simpl.
      destruct (decide (L3Intf.l3a_vid bcmIntf = id)) as [<-|Hne].
      * rewrite lookup_insert_eq. intros [= <-]. by exists k, bcmIntf, dumped, d.
      * rewrite lookup_insert_ne by done. apply Hm.
    + intros id i Hi. by rewrite lookup_empty in Hi.
  - intros k bcmIntf Hin.
    apply (forM_establish
             (λ (x : Z * Z * L3Intf.t) (m : gmap Z Interface),
                is_Some (m !! L3Intf.l3a_vid x.2)) _ _ _ _)
      with (x := (k, bcmIntf)) in Hloop; [done| | |by apply elem_of_map_to_list].
    + intros [k' i'] m m' _. simpl.
      destruct (getInterfaces st) as [dumped|]; simpl; [|done].
      destruct (dumped !! L3Intf.l3a_vid i') as [d|]; simpl; [|done].
      intros [= <-]. unfold addInterface. simpl. rewrite lookup_insert_eq. by eexists.
    + intros [k1 i1] [k2 i2] m m' _ Hm. simpl in *.
      destruct (getInterfaces st) as [dumped|]; simpl; [|done].
      destruct (dumped !! L3Intf.l3a_vid i2) as [d|]; simpl; [|done].
      intros [= <-]. unfold addInterface. simpl.
      destruct (decide (L3Intf.l3a_vid i2 = L3Intf.l3a_vid i1)) as [->|Hne].
      * rewrite lookup_insert_eq. by eexists.
      * by rewrite lookup_insert_ne.
Qed.

End InterfaceContents.

Section VlanContents.
Context `{!SdkConsts}.

Lemma foldl_addPort_untagged (l : list Z) : ∀ v,
  let v' := foldl (λ v idx, addPort idx false v) v l in
  vl_id v' = vl_id v ∧ vl_name v' = vl_name v ∧ vl_intf v' = vl_intf v ∧
  ∀ p, vl_ports v' !! p = if decide (p ∈ l) then Some false else vl_ports v !! p.
Proof.
  induction l as [|idx l IH]; intros v; simpl.
  { by repeat split. }
  destruct (IH (addPort idx false v)) as (-> & -> & -> & Hports).
  repeat split. intros p. rewrite Hports. simpl.
  destruct (decide (p ∈ l)) as [Hin|Hnin].
  - rewrite decide_True; [done|]. by right.
  - destruct (decide (idx = p)) as [<-|Hne].
    + rewrite lookup_insert_eq, decide_True; [done|]. by left.
    + rewrite lookup_insert_ne by done. rewrite decide_False; [done|].
      intros [->|?]%elem_of_cons; done.
Qed.

Lemma foldl_addPort_tagged (U : gset Z) (l : list Z) : ∀ v,
  let v' := foldl (λ v idx, if decide (idx ∈ U) then v else addPort idx true v) v l in
  vl_id v' = vl_id v ∧ vl_name v' = vl_name v ∧ vl_intf v' = vl_intf v ∧
  ∀ p, vl_ports v' !! p
       = if decide (p ∈ l ∧ p ∉ U) then Some true else vl_ports v !! p.
Proof.
  induction l as [|idx l IH]; intros v; simpl.
  { by repeat split. }
  destruct (IH (if decide (idx ∈ U) then v else addPort idx true v))
    as (-> & -> & -> & Hports).
  split; [by case_decide|]. split; [by case_decide|]. split; [by case_decide|].
  intros p. rewrite Hports.
  destruct (decide (p ∈ l ∧ p ∉ U)) as [[Hin HU]|Hnin].
  - rewrite decide_True; [done|]. split; [by right|done].
  - destruct (decide (idx ∈ U)) as [HU|HU].
    + rewrite decide_False; [done|]. intros [[->|Hin]%elem_of_cons HpU]; [done|].
      by destruct Hnin.
    + simpl. destruct (decide (idx = p)) as [<-|Hne].
      * rewrite lookup_insert_eq, decide_True; [done|]. split; [by left|done].
      * rewrite lookup_insert_ne by done. rewrite decide_False; [done|].
        intros [[->|Hin]%elem_of_cons HpU]; [done|]. by destruct Hnin.
Qed.

(** A VLAN built by the first loop of [reconstructVlanMap]. *)
Lemma vlanOfInfo_fields id info :
  vl_id (vlanOfInfo id info) = id ∧ vl_name (vlanOfInfo id info) = "" ∧
  vl_intf (vlanOfInfo id info) = intfID info ∧
  ∀ p, vl_ports (vlanOfInfo id info) !! p = memberPortsOf info p.
Proof.
  unfold vlanOfInfo. simpl.
  destruct (foldl_addPort_tagged (untagged info) (elements (allPorts info))
              (foldl (λ v idx, addPort idx false v) (newVlan id "")
                     (elements (untagged info)))) as (-> & -> & _ & Hports2).
  destruct (foldl_addPort_untagged (elements (untagged info)) (newVlan id ""))
    as (-> & -> & _ & Hports1).
  repeat split. intros p. rewrite Hports2, Hports1. unfold memberPortsOf. simpl.
  destruct (decide (p ∈ untagged info)) as [HU|HU].
  - rewrite decide_False by (by intros [_ ?]).
    rewrite decide_True; [done|]. by apply elem_of_elements.
  - destruct (decide (p ∈ allPorts info)) as [HA|HA].
    + rewrite decide_True; [done|]. split; [by apply elem_of_elements|done].
    + rewrite decide_False by (intros [?%elem_of_elements _]; done).
      rewrite decide_False; [done|]. by intros ?%elem_of_elements.
Qed.

Lemma foldl_emplace_untagged (l : list Z) : ∀ m : gmap Z bool,
  ∀ p, foldl (λ m idx, map_emplace idx false m) m l !! p
       = match m !! p with
         | Some tagged => Some tagged
         | None => if decide (p ∈ l) then Some false else None
         end.
Proof.
  induction l as [|idx l IH]; intros m p; simpl.
  { by destruct (m !! p). }
  rewrite IH, lookup_map_emplace. destruct (m !! p); [done|].
  destruct (decide (idx = p)) as [<-|Hne].
  - rewrite decide_True; [done|]. by left.
  - destruct (decide (p ∈ l)).
    + rewrite decide_True; [done|]. by right.
    + rewrite decide_False; [done|]. intros [->|?]%elem_of_cons; done.
Qed.

Lemma foldl_emplace_tagged (l : list Z) : ∀ m : gmap Z bool,
  ∀ p, foldl (λ m idx, if decide (m !! idx = None) then map_emplace idx true m else m)
         m l !! p
       = match m !! p with
         | Some tagged => Some tagged
         | None => if decide (p ∈ l) then Some true else None
         end.
Proof.
  induction l as [|idx l IH]; intros m p; simpl.
  { by destruct (m !! p). }
  rewrite IH.
  assert (Hstep : (if decide (m !! idx = None) then map_emplace idx true m else m) !! p
                  = match m !! p with
                    | Some tagged => Some tagged
                    | None => if decide (idx = p) then Some true else None
                    end).
  { case_decide as Hidx; [apply lookup_map_emplace|].
    destruct (m !! p) eqn:Hp; [done|]. case_decide; [|done]. congruence. }
  rewrite Hstep. destruct (m !! p); [done|].
  destruct (decide (idx = p)) as [<-|Hne].
  - rewrite decide_True; [done|]. by left.
  - destruct (decide (p ∈ l)).
    + rewrite decide_True; [done|]. by right.
    + rewrite decide_False; [done|]. intros [->|?]%elem_of_cons; done.
Qed.

(** [fillVlanPortInfo] on a VLAN the cache knows. *)
Lemma fillVlanPortInfo_known cache vlan info :
  vlan2VlanInfo_ cache !! vl_id vlan = Some info →
  ∃ memberPorts : gmap Z bool,
    fillVlanPortInfo cache vlan = (true, setPorts memberPorts vlan) ∧
    ∀ p, memberPorts !! p = memberPortsOf info p.
Proof.
  intros Hinfo. unfold fillVlanPortInfo. rewrite Hinfo.
  eexists. split; [done|].
  intros p. rewrite foldl_emplace_tagged, foldl_emplace_untagged.
  rewrite lookup_empty. unfold memberPortsOf.
  destruct (decide (p ∈ untagged info)) as [HU|HU].
  - rewrite decide_True; [done|]. by apply elem_of_elements.
  - rewrite decide_False by (by intros ?%elem_of_elements).
    destruct (decide (p ∈ allPorts info)) as [HA|HA].
    + rewrite decide_True; [done|]. by apply elem_of_elements.
    + rewrite decide_False; [done|]. by intros ?%elem_of_elements.
Qed.

(** X11. [fillVlanPortInfo] leaves a VLAN the cache has no info for as it
    is and returns false; for a VLAN the cache knows it returns true and
    replaces the member ports (and only them): the untagged ports of the
    info are members that are not tagged, the other ports of the info
    are tagged members, and no other port is a member. *)
Theorem fillVlanPortInfo_ports (cache : BcmWarmBootCache) (vlan : Vlan) :
  match vlan2VlanInfo_ cache !! vl_id vlan with
  | None => fillVlanPortInfo cache vlan = (false, vlan)
  | Some info =>
      ∃ vlan', fillVlanPortInfo cache vlan = (true, vlan') ∧
        setPorts (vl_ports vlan) vlan' = vlan ∧
        ∀ p, vl_ports vlan' !! p = memberPortsOf info p
  end.
Proof.
  destruct (vlan2VlanInfo_ cache !! vl_id vlan) as [info|] eqn:Hinfo.
  - destruct (fillVlanPortInfo_known cache vlan info Hinfo) as (m & -> & Hm).
    eexists. split; [done|]. split; [by destruct vlan|]. exact Hm.
  - unfold fillVlanPortInfo. by rewrite Hinfo.
Qed.

(** The first loop of [reconstructVlanMap], on a list of VLAN infos with
    distinct VLAN ids. *)
Lemma first_loop_lookup (l : list (Z * VlanInfo)) : ∀ (m0 : gmap Z Vlan) V,
  NoDup l.*1 →
  let m := foldl (λ m vlanAndInfo, addVlan (vlanOfInfo vlanAndInfo.1 vlanAndInfo.2) m)
             m0 l in
  (V ∉ l.*1 → m !! V = m0 !! V) ∧
  (∀ info, (V, info) ∈ l → m !! V = Some (vlanOfInfo V info)).
Proof.
  induction l as [|[id info0] l IH]; intros m0 V Hnd; simpl.
  { split; [done|]. intros info Hin. by apply elem_of_nil in Hin. }
  rewrite fmap_cons in Hnd. apply NoDup_cons in Hnd as [Hid Hnd]. simpl in Hid.
  destruct (IH (addVlan (vlanOfInfo id info0) m0) V Hnd) as [IHout IHin].
  unfold addVlan in IHout, IHin.
  destruct (vlanOfInfo_fields id info0) as (Hvid & _).
  rewrite Hvid in IHout, IHin. unfold addVlan. rewrite Hvid. split.
  - intros [Hne Hnin]%not_elem_of_cons. rewrite IHout by done.
    by rewrite lookup_insert_ne.
  - intros info [[= -> ->]|Hin]%elem_of_cons; [|by apply IHin].
    rewrite IHout by done. by rewrite lookup_insert_eq.
Qed.

(** The third loop of [reconstructVlanMap], on a list of neighbor tables
    with distinct VLAN ids. *)
Lemma third_loop_lookup (l : list (Z * AddrTables)) : ∀ (m vlans : gmap Z Vlan) V,
  NoDup l.*1 →
  forM (λ (vlanAndAddrTable : Z * AddrTables) (vlans : gmap Z Vlan),
      match vlans !! vlanAndAddrTable.1 with
      | None => Abort (LogFatal "Vlan not found")
      | Some vlan =>
          Ok (<[vlanAndAddrTable.1 :=
                  setNdpTable (ndpTable vlanAndAddrTable.2)
                    (setArpTable (arpTable vlanAndAddrTable.2) vlan)]> vlans)
      end) l m = Ok vlans →
  (V ∉ l.*1 → vlans !! V = m !! V) ∧
  (∀ t, (V, t) ∈ l →
     ∃ vlan, m !! V = Some vlan ∧
             vlans !! V = Some (setNdpTable (ndpTable t) (setArpTable (arpTable t) vlan))).
Proof.
  induction l as [|[V0 t0] l IH]; intros m vlans V Hnd; simpl.
  { intros [= <-]. split; [done|]. intros t Hin. by apply elem_of_nil in Hin. }
  rewrite fmap_cons in Hnd. apply NoDup_cons in Hnd as [Hid Hnd]. simpl in Hid.
  destruct (m !! V0) as [vlan0|] eqn:HV0; simpl; [|done].
  intros Hrest. destruct (IH _ _ V Hnd Hrest) as [IHout IHin]. split.
  - intros [Hne Hnin]%not_elem_of_cons. rewrite IHout by done.
    by rewrite lookup_insert_ne.
  - intros t [[= -> ->]|Hin]%elem_of_cons.
    + exists vlan0. split; [done|]. rewrite IHout by done. by rewrite lookup_insert_eq.
    + destruct (IHin t Hin) as (vlan & Hl & Hv).
      assert (V0 ≠ V) as Hne.
      { intros ->. apply Hid. apply list_elem_of_fmap. by exists (V, t). }
      rewrite lookup_insert_ne in Hl by done. by exists vlan.
Qed.

(** The three loops of a [reconstructVlanMap] that returns a map. *)
Lemma reconstructVlanMap_loops cache vlans :
  reconstructVlanMap cache = Ok vlans →
  ∃ st tables,
    dumpedSwSwitchState_ cache = Some st ∧
    forM (addHostToAddrTables cache (getVlans st))
         (map_to_list (vrfIp2Host_ cache)) ∅ = Ok tables ∧
    ∀ V,
      vlans !! V
      = match tables !! V with
        | Some t => (λ vlan, setNdpTable (ndpTable t) (setArpTable (arpTable t) vlan))
                      <$> (vlanOfInfo V <$> vlan2VlanInfo_ cache !! V)
        | None => vlanOfInfo V <$> vlan2VlanInfo_ cache !! V
        end.
Proof.
  unfold reconstructVlanMap.
  destruct (dumpedSwSwitchState_ cache) as [st|]; simpl; [|done].
  destruct (forM (addHostToAddrTables cache (getVlans st)) _ ∅)
    as [tables| |] eqn:Hloop2; simpl; try done.
  intros Hloop3. exists st, tables. split; [done|]. split; [done|]. intros V.
  assert (Hfirst : foldl (λ m vlanAndInfo,
                            addVlan (vlanOfInfo vlanAndInfo.1 vlanAndInfo.2) m)
                     ∅ (map_to_list (vlan2VlanInfo_ cache)) !! V
                   = vlanOfInfo V <$> vlan2VlanInfo_ cache !! V).
  { destruct (first_loop_lookup (map_to_list (vlan2VlanInfo_ cache)) ∅ V
                (NoDup_fst_map_to_list _)) as [Hout Hin].
    destruct (vlan2VlanInfo_ cache !! V) as [info|] eqn:HV; simpl.
    - apply Hin. by apply elem_of_map_to_list.
    - rewrite Hout; [done|]. intros ([V' info] & -> & Hin')%list_elem_of_fmap.
      apply elem_of_map_to_list in Hin'. simpl in HV. congruence. }
  destruct (third_loop_lookup (map_to_list tables) _ _ V
              (NoDup_fst_map_to_list _) Hloop3) as [Hout Hin].
  rewrite <- Hfirst.
  destruct (tables !! V) as [t|] eqn:Ht.
  - destruct (Hin t) as (vlan & -> & ->); [by apply elem_of_map_to_list|done].
  - apply Hout. intros ([V' t] & -> & Hin')%list_elem_of_fmap.
    apply elem_of_map_to_list in Hin'. simpl in Ht. congruence.
Qed.

(** X12. When [reconstructVlanMap] returns a map, its VLANs are exactly
    the discovered VLANs: each has the id it was discovered under, no
    name, the interface id of its info, and as member ports the untagged
    ports of the info, not tagged, and the other ports of the info,
    tagged. *)
Theorem reconstructVlanMap_vlans (cache : BcmWarmBootCache) (vlans : gmap Z Vlan) :
  reconstructVlanMap cache = Ok vlans →
  (∀ V, vlan2VlanInfo_ cache !! V = None → vlans !! V = None) ∧
  (∀ V info, vlan2VlanInfo_ cache !! V = Some info →
     ∃ vlan, vlans !! V = Some vlan ∧
       vl_id vlan = V ∧ vl_name vlan = "" ∧ vl_intf vlan = intfID info ∧
       ∀ p, vl_ports vlan !! p = memberPortsOf info p).
Proof.
  intros (st & tables & _ & _ & Hvlans)%reconstructVlanMap_loops. split.
  - intros V HV. rewrite Hvlans, HV. by destruct (tables !! V).
  - intros V info HV. rewrite Hvlans, HV.
    destruct (vlanOfInfo_fields V info) as (? & ? & ? & ?).
    destruct (tables !! V); simpl; eexists; (split; [done|]); by repeat split.
Qed.

End VlanContents.

Section VlanNeighbors.
Context `{!SdkConsts}.

(** The second loop of [reconstructVlanMap] fills the tables of a VLAN
    from host entries whose egress object is on that VLAN, and never
    those of the VLAN of the to-CPU entries. *)
Lemma addHostToAddrTables_from_host cache dumpedVlans x (m m' : gmap Z AddrTables) :
  vrfIp2Host_ cache !! x.1 = Some x.2 →
  (∀ V t, m !! V = Some t →
     (∀ a e, arpTable t !! a = Some e → neighbor_from_host cache V (IPAddressV4 a) e) ∧
     (∀ a e, ndpTable t !! a = Some e → neighbor_from_host cache V (IPAddressV6 a) e)) →
  addHostToAddrTables cache dumpedVlans x m = Ok m' →
  ∀ V t, m' !! V = Some t →
     (∀ a e, arpTable t !! a = Some e → neighbor_from_host cache V (IPAddressV4 a) e) ∧
     (∀ a e, ndpTable t !! a = Some e → neighbor_from_host cache V (IPAddressV6 a) e).
Proof.
  destruct x as [[vrf ip] host]. simpl. intros Hhost Hm.
  unfold addHostToAddrTables, findEgress. simpl. rewrite Hhost. simpl.
  destruct (egressId2EgressAndBool_ cache !! Host.l3a_intf host)
    as [[bcmEgress claimed]|] eqn:Hegress; [|by intros [= <-]].
  case_decide as Hcpu; [by intros [= <-]|].
  destruct (match dumpedVlans with Some _ => _ | None => _ end) as [keep| |];
    simpl; try done.
  destruct keep; [|by intros [= <-]].
  assert (Hnew : ∀ a, ip = a →
            neighbor_from_host cache (Egress.vlan bcmEgress) a (neighborEntryOf bcmEgress)).
  { intros a <-. by exists vrf, host, bcmEgress, claimed. }
  assert (Hold : (∀ a e, arpTable (default AddrTables_new (m !! Egress.vlan bcmEgress))
                           !! a = Some e →
                    neighbor_from_host cache (Egress.vlan bcmEgress) (IPAddressV4 a) e) ∧
                 (∀ a e, ndpTable (default AddrTables_new (m !! Egress.vlan bcmEgress))
                           !! a = Some e →
                    neighbor_from_host cache (Egress.vlan bcmEgress) (IPAddressV6 a) e)).
  { destruct (m !! Egress.vlan bcmEgress) as [t0|] eqn:Ht0; simpl; [by apply Hm|].
    split; intros a e He; by rewrite lookup_empty in He. }
  destruct Hold as [Harp Hndp].
  intros [= <-] V t.
  destruct (decide (Egress.vlan bcmEgress = V)) as [<-|Hne];
    [|rewrite lookup_insert_ne by done; by apply Hm].
  rewrite lookup_insert_eq. intros [= <-].
  unfold neighborEntryOf, addPendingEntry, addEntry in *.
  destruct ip as [a0|a0]; simpl; split; try exact Harp; try exact Hndp;
    intros a e; destruct (programmedToDrop bcmEgress);
    (destruct (decide (a0 = a)) as [<-|Hna];
     [rewrite lookup_insert_eq; intros [= <-]; by apply Hnew
     |rewrite lookup_insert_ne by done; by auto]).
Qed.

(** X13. When [reconstructVlanMap] returns a map, every neighbor of a
    VLAN of the map, in its ARP table (IPv4) and in its NDP table
    (IPv6), comes from a host entry of the cache for that address whose
    egress object is in the egress map and is on that VLAN; the entry is
    pending when the egress is programmed to drop, and otherwise
    unverified with the MAC address and port of the egress. The VLAN of
    the to-CPU egress entries gets no neighbor. *)
Theorem reconstructVlanMap_neighbors (cache : BcmWarmBootCache) (vlans : gmap Z Vlan) :
  reconstructVlanMap cache = Ok vlans →
  ∀ V vlan, vlans !! V = Some vlan →
    (∀ a e, getArpTable vlan !! a = Some e →
            neighbor_from_host cache V (IPAddressV4 a) e) ∧
    (∀ a e, getNdpTable vlan !! a = Some e →
            neighbor_from_host cache V (IPAddressV6 a) e).
Proof.
  intros (st & tables & _ & Hloop2 & Hvlans)%reconstructVlanMap_loops V vlan.
  rewrite Hvlans.
  destruct (tables !! V) as [t|] eqn:Ht.
  - destruct (vlan2VlanInfo_ cache !! V) as [info|]; simpl; [|done].
    intros [= <-]. simpl. clear info.
    revert V t Ht. revert Hloop2.
    apply (forM_invariant
      (λ m : gmap Z AddrTables, ∀ V t, m !! V = Some t →
         (∀ a e, arpTable t !! a = Some e →
                 neighbor_from_host cache V (IPAddressV4 a) e) ∧
         (∀ a e, ndpTable t !! a = Some e →
                 neighbor_from_host cache V (IPAddressV6 a) e))).
    + intros x m m' Hin Hm Hstep.
      apply (addHostToAddrTables_from_host cache (getVlans st) x m m'); try done.
      apply elem_of_map_to_list. by destruct x as [[? ?] ?].
    + intros V t Ht. by rewrite lookup_empty in Ht.
  - destruct (vlan2VlanInfo_ cache !! V) as [info|]; simpl; [|done].
    intros [= <-]. destruct (vlanOfInfo_tables V info) as [-> ->].
    split; intros a e He; by rewrite lookup_empty in He.
Qed.

(** One iteration of the second loop promotes its host entry when the
    entry has an egress object on a VLAN other than the VLAN of the
    to-CPU entries and passes the check against the snapshot. *)
Lemma addHostToAddrTables_promotes cache st vrf ip host bcmEgress claimed
    (m m' : gmap Z AddrTables) :
  vrfIp2Host_ cache !! (vrf, ip) = Some host →
  egressId2EgressAndBool_ cache !! Host.l3a_intf host = Some (bcmEgress, claimed) →
  Egress.vlan bcmEgress ≠ kVlanForCPUEgressEntries →
  snapshot_lists st (Egress.vlan bcmEgress) ip →
  addHostToAddrTables cache (getVlans st) (vrf, ip, host) m = Ok m' →
  ∃ t, m' !! Egress.vlan bcmEgress = Some t ∧ has_neighbor ip (arpTable t) (ndpTable t).
Proof.
  intros Hhost Hegress Hcpu Hlists.
  unfold addHostToAddrTables, findEgress. simpl. rewrite Hhost. simpl.
  rewrite Hegress. rewrite decide_False by done.
  unfold snapshot_lists in Hlists.
  assert (Hkeep : match getVlans st with
                  | Some dumped =>
                      dumpedVlan ← getVlan dumped (Egress.vlan bcmEgress);
                      Ok (match ip with
                          | IPAddressV4 a =>
                              bool_decide (is_Some (getArpTable dumpedVlan !! a))
                          | IPAddressV6 a =>
                              bool_decide (is_Some (getNdpTable dumpedVlan !! a))
                          end)
                  | None => Ok true
                  end = Ok true).
  { destruct (getVlans st) as [dumped|]; [|done].
    destruct Hlists as (dumpedVlan & Hd & Hn). unfold getVlan. rewrite Hd. simpl.
    destruct ip; simpl in Hn; by rewrite bool_decide_eq_true_2. }
  rewrite Hkeep. simpl. intros [= <-]. rewrite lookup_insert_eq.
  eexists. split; [done|].
  unfold addPendingEntry, addEntry.
  destruct ip as [a|a]; simpl; destruct (programmedToDrop bcmEgress);
    rewrite lookup_insert_eq; by eexists.
Qed.

(** No iteration of the second loop removes a neighbor. *)
Lemma addHostToAddrTables_keeps cache dumpedVlans x V ip (m m' : gmap Z AddrTables) :
  (∃ t, m !! V = Some t ∧ has_neighbor ip (arpTable t) (ndpTable t)) →
  addHostToAddrTables cache dumpedVlans x m = Ok m' →
  ∃ t, m' !! V = Some t ∧ has_neighbor ip (arpTable t) (ndpTable t).
Proof.
  intros (t & Ht & Hn). unfold addHostToAddrTables.
  destruct (findEgress cache _ _) as [[bcmEgress claimed]|];
    [|intros [= <-]; by exists t].
  case_decide as Hcpu; [intros [= <-]; by exists t|].
  destruct (match dumpedVlans with Some _ => _ | None => _ end) as [keep| |];
    simpl; try done.
  destruct keep; [|intros [= <-]; by exists t].
  intros [= <-].
  destruct (decide (Egress.vlan bcmEgress = V)) as [HV|Hne];
    [|rewrite lookup_insert_ne by done; by exists t].
  rewrite HV, lookup_insert_eq, Ht. simpl. eexists. split; [done|].
  unfold addPendingEntry, addEntry, has_neighbor in *.
  destruct ip as [a|a]; destruct (x.1.2) as [b|b]; simpl; try done;
    destruct (programmedToDrop bcmEgress);
    (destruct (decide (b = a)) as [->|Hba];
     [rewrite lookup_insert_eq; by eexists|by rewrite lookup_insert_ne]).
Qed.

(** X14. When [reconstructVlanMap] returns a map, every host entry of
    the cache whose egress object is in the egress map, on a VLAN other
    than the VLAN of the to-CPU entries, and whose address passes the
    check against the snapshot, has become a neighbor: the egress's VLAN
    is a VLAN of the map and lists the address in the table of its
    family. (A promoted host on a VLAN that was not discovered stops the
    process instead.) *)
Theorem reconstructVlanMap_promotes_all (cache : BcmWarmBootCache)
    (st : SwitchState) (vlans : gmap Z Vlan) :
  dumpedSwSwitchState_ cache = Some st →
  reconstructVlanMap cache = Ok vlans →
  ∀ vrf ip host bcmEgress claimed,
    vrfIp2Host_ cache !! (vrf, ip) = Some host →
    egressId2EgressAndBool_ cache !! Host.l3a_intf host = Some (bcmEgress, claimed) →
    Egress.vlan bcmEgress ≠ kVlanForCPUEgressEntries →
    snapshot_lists st (Egress.vlan bcmEgress) ip →
    ∃ vlan, vlans !! Egress.vlan bcmEgress = Some vlan ∧
            is_Some (vlan2VlanInfo_ cache !! Egress.vlan bcmEgress) ∧
            has_neighbor ip (getArpTable vlan) (getNdpTable vlan).
Proof.
  intros Hst Hok vrf ip host bcmEgress claimed Hhost Hegress Hcpu Hlists.
  pose proof Hok as (st' & tables & Hst' & Hloop2 & Hvlans)%reconstructVlanMap_loops.
  rewrite Hst in Hst'. injection Hst' as <-.
  assert (∃ t, tables !! Egress.vlan bcmEgress = Some t ∧
               has_neighbor ip (arpTable t) (ndpTable t)) as (t & Ht & Hn).
  { apply (forM_establish
             (λ (x : Z * IPAddress * Host.t) (m : gmap Z AddrTables),
                ∀ bcmEgress claimed,
                  egressId2EgressAndBool_ cache !! Host.l3a_intf x.2
                    = Some (bcmEgress, claimed) →
                  Egress.vlan bcmEgress ≠ kVlanForCPUEgressEntries →
                  snapshot_lists st (Egress.vlan bcmEgress) x.1.2 →
                  ∃ t, m !! Egress.vlan bcmEgress = Some t ∧
                       has_neighbor x.1.2 (arpTable t) (ndpTable t))
             _ _ _ _) with (x := (vrf, ip, host)) (bcmEgress := bcmEgress)
                           (claimed := claimed) in Hloop2; try done.
    - intros [[vrf' ip'] host'] m m' Hin Hstep e c He Hc Hl. simpl in *.
      apply elem_of_map_to_list in Hin.
      by apply (addHostToAddrTables_promotes cache st vrf' ip' host' e c m m').
    - intros x y m m' _ Hx Hstep e c He Hc Hl.
      apply (addHostToAddrTables_keeps cache (getVlans st) y _ _ m m'); [|done].
      by apply (Hx e c).
    - by apply elem_of_map_to_list. }
  specialize (Hvlans (Egress.vlan bcmEgress)). rewrite Ht in Hvlans.
  destruct (vlan2VlanInfo_ cache !! Egress.vlan bcmEgress) as [info|] eqn:Hinfo.
  - simpl in Hvlans. eexists. split; [done|]. split; [by eexists|]. done.
  - exfalso. simpl in Hvlans.
    (* the third loop stops on a VLAN that was not discovered *)
    revert Hok. unfold reconstructVlanMap. rewrite Hst. simpl. rewrite Hloop2. simpl.
    intros Hloop3.
    destruct (third_loop_lookup (map_to_list tables) _ _ (Egress.vlan bcmEgress)
                (NoDup_fst_map_to_list _) Hloop3) as [_ Hin].
    destruct (Hin t) as (vlan & _ & Hv); [by apply elem_of_map_to_list|].
    by rewrite Hvlans in Hv.
Qed.

End VlanNeighbors.

Section DiscoveredPorts.
Context `{!SdkConsts}.
Variable OPENNSL_E_NOT_FOUND : Z.
Variable vlanIntfID : VlanID → InterfaceID.
Variable str_to_int64 : string → option Z.
Variable uniquePtrFromFollyDynamic : dynamic → Res (option SwitchState).

(** X15. The discovery records the port bitmap of a VLAN both as its
    untagged ports and as its member ports, so for the cache of a
    successful discovery that started without VLAN infos no member port
    is reported as tagged, neither by [fillVlanPortInfo] nor in the
    VLANs [reconstructVlanMap] returns. *)
Theorem populate_ports_untagged (hw : HwTables) (json : dynamic)
    (cache cache' : BcmWarmBootCache) :
  vlan2VlanInfo_ cache = ∅ →
  populate OPENNSL_E_NOT_FOUND vlanIntfID str_to_int64 uniquePtrFromFollyDynamic
    hw json cache = Ok cache' →
  (∀ vlan vlan' p tagged,
     fillVlanPortInfo cache' vlan = (true, vlan') →
     vl_ports vlan' !! p = Some tagged → tagged = false) ∧
  (∀ vlans V vlan p tagged,
     reconstructVlanMap cache' = Ok vlans → vlans !! V = Some vlan →
     vl_ports vlan !! p = Some tagged → tagged = false).
Proof.
  intros Hempty (c1 & c2 & Hvlans & Hc1 & _ & _ & Hinfo' & _ & _)%populate_vlan_loop.
  apply populateVlans_inv in Hvlans as (_ & Hinfos & _).
  assert (Hports : ∀ V info p tagged, vlan2VlanInfo_ cache' !! V = Some info →
                     memberPortsOf info p = Some tagged → tagged = false).
  { intros V info p tagged HV. rewrite Hinfo' in HV.
    apply Hinfos in HV as [HV|(vd & _ & _ & ->)].
    { by rewrite Hc1, Hempty, lookup_empty in HV. }
    unfold memberPortsOf, VlanInfo_new. simpl.
    destruct (decide (p ∈ port_bitmap vd)); [by intros [= <-]|done]. }
  split.
  - intros vlan vlan' p tagged Hfill.
    destruct (vlan2VlanInfo_ cache' !! vl_id vlan) as [info|] eqn:HV.
    + destruct (fillVlanPortInfo_known cache' vlan info HV) as (m & Hm & Hl).
      rewrite Hm in Hfill. injection Hfill as <-. simpl. rewrite Hl.
      by apply (Hports (vl_id vlan)).
    + unfold fillVlanPortInfo in Hfill. by rewrite HV in Hfill.
  - intros vlans V vlan p tagged
      (st & tables & _ & _ & Hlook)%reconstructVlanMap_loops.
    rewrite Hlook.
    destruct (vlan2VlanInfo_ cache' !! V) as [info|] eqn:HV;
      [|by destruct (tables !! V)].
    destruct (vlanOfInfo_fields V info) as (_ & _ & _ & Hl).
    destruct (tables !! V); simpl; intros [= <-]; simpl; rewrite Hl;
      by apply (Hports V).
Qed.

End DiscoveredPorts.

Section EgressIdsString.
Variable to_string : Z → string.

Lemma string_app_assoc (a b c : string) : (a +:+ b) +:+ c = a +:+ (b +:+ c).
Proof.
  induction a as [|x a IH]; [done|].
  change (String x ((a +:+ b) +:+ c) = String x (a +:+ (b +:+ c))). by rewrite IH.
Qed.

Lemma string_app_empty_r (a : string) : a +:+ "" = a.
Proof.
  induction a as [|x a IH]; [done|].
  change (String x (a +:+ "") = String x a). by rewrite IH.
Qed.

Lemma toEgressIdsStr_loop_concat (l : list Z) : ∀ i acc,
  toEgressIdsStr_loop to_string l i (i + Z.of_nat (length l)) acc
  = acc +:+ String.concat ", " (to_string <$> l).
Proof.
  induction l as [|x l IH]; intros i acc; simpl.
  { by rewrite string_app_empty_r. }
  replace (i + Z.of_nat (S (length l)))%Z
    with ((i + 1) + Z.of_nat (length l))%Z by lia.
  rewrite IH. destruct l as [|y l].
  - simpl. rewrite Z.add_0_r, Z.ltb_irrefl. by rewrite !string_app_empty_r.
  - destruct (Z.ltb_spec (i + 1) (i + 1 + Z.of_nat (length (y :: l)))) as [_|Hge];
      [|simpl in Hge; lia].
    rewrite fmap_cons. by rewrite !string_app_assoc.
Qed.

(** X16. [toEgressIdsStr] returns the decimal strings of the egress ids
    joined with a comma and a space, with no separator after the last
    one (so the empty string for the empty set), in increasing order of
    the ids, each id of the set once. *)
Theorem toEgressIdsStr_joined (egressIds : gset Z) :
  toEgressIdsStr to_string egressIds
  = String.concat ", " (to_string <$> in_order egressIds) ∧
  Sorted Z.le (in_order egressIds) ∧
  in_order egressIds ≡ₚ elements egressIds.
Proof.
  unfold toEgressIdsStr, in_order. split; [|split].
  - pose proof (toEgressIdsStr_loop_concat (merge_sort Z.le (elements egressIds)) 0 "")
      as Hloop.
    rewrite (Permutation_length (merge_sort_Permutation Z.le (elements egressIds)))
      in Hloop.
    exact Hloop.
  - apply (Sorted_merge_sort Z.le).
  - apply merge_sort_Permutation.
Qed.

End EgressIdsString.

Section TeardownOutcome.
Context `{!SdkConsts} {Unit : Type}.
Variable sdk : SdkCall → Unit → Z * Unit.
Variable opennsl_vlan_default_get : Unit → Z * VlanID.

Abbreviation OkFrom m w := (∃ a w', m w = (Ok a, w')).

Lemma hw_bind_ok {A B} (m : Hw (Unit := Unit) A) (k : A → Hw B) w :
  OkFrom m w → (∀ a w', OkFrom (k a) w') → OkFrom (hw_bind m k) w.
Proof.
  intros (a & w' & Hm) Hk. unfold hw_bind. rewrite Hm. apply Hk.
Qed.

Lemma hw_ret_ok {A} (a : A) (w : World (Unit := Unit)) : OkFrom (hw_ret a) w.
Proof. by eexists _, _. Qed.

Lemma del_ok op call what w :
  (∀ call u, OPENNSL_FAILURE (sdk call u).1 = false) →
  OkFrom (del sdk op call what) w.
Proof.
  intros Hsdk. unfold del. specialize (Hsdk call (hw_unit w)).
  destruct (sdk call (hw_unit w)) as [rv u]. simpl in Hsdk.
  unfold bcmLogFatal. rewrite Hsdk. by eexists _, _.
Qed.

Lemma sweep_ok {A} (body : A → Hw (Unit := Unit) unit) (l : list A) :
  (∀ x w, OkFrom (body x) w) → ∀ w, OkFrom (sweep body l) w.
Proof.
  intros Hbody. induction l as [|x l IH]; intros w; simpl.
  - apply hw_ret_ok.
  - apply hw_bind_ok; [apply Hbody|]. intros _ w'. apply IH.
Qed.

Lemma getDefaultVlan_ok w :
  (∀ u, OPENNSL_FAILURE (opennsl_vlan_default_get u).1 = false) →
  OkFrom (getDefaultVlan opennsl_vlan_default_get) w.
Proof.
  intros Hget. unfold getDefaultVlan. specialize (Hget (hw_unit w)).
  destruct (opennsl_vlan_default_get (hw_unit w)) as [rv v]. simpl in Hget.
  unfold bcmLogFatal. rewrite Hget. by eexists _, _.
Qed.

Lemma clear_ok cache w :
  sdk_never_fails sdk opennsl_vlan_default_get →
  OkFrom (clear sdk opennsl_vlan_default_get cache) w.
Proof.
  intros [Hsdk Hget]. unfold clear.
  repeat (apply hw_bind_ok;
          [apply sweep_ok; intros ? ?; by apply del_ok|intros _ ?]).
  apply hw_bind_ok.
  { apply sweep_ok. intros [id [e claimed]] ?. simpl.
    destruct claimed; [apply hw_ret_ok|by apply del_ok]. }
  intros _ ?.
  repeat (apply hw_bind_ok;
          [apply sweep_ok; intros ? ?; by apply del_ok|intros _ ?]).
  apply hw_bind_ok; [by apply getDefaultVlan_ok|]. intros defaultVlan ?.
  apply hw_bind_ok; [|intros; apply hw_ret_ok].
  apply sweep_ok. intros [v info] ?. simpl.
  case_decide; [apply hw_ret_ok|by apply del_ok].
Qed.

(** A completed teardown issued its whole plan and left the cleared
    cache. *)
Lemma clear_completed cache w cache1 w1 :
  clear sdk opennsl_vlan_default_get cache w = (Ok cache1, w1) →
  ∃ defaultVlan,
    cache1 = cleared cache defaultVlan ∧
    issued w1 = issued w ++ clear_plan cache defaultVlan.
Proof.
  intros Hclear.
  destruct (clear_runs sdk opennsl_vlan_default_get cache w)
    as (defaultVlan & done & Hissued & _ & Hres).
  rewrite Hclear in Hissued, Hres. simpl in Hissued, Hres.
  destruct Hres as [-> ->]. by exists defaultVlan.
Qed.

(** X17. When no hardware call fails, the teardown completes: it issues
    the deletions of every stage for everything the cache holds
    unclaimed (all but a VLAN that is the default VLAN the hardware
    reports), in the order of the stages, and leaves a cache that holds
    at most that default VLAN. *)
Theorem clear_completes (cache : BcmWarmBootCache) (w : World) :
  sdk_never_fails sdk opennsl_vlan_default_get →
  ∃ defaultVlan w',
    clear sdk opennsl_vlan_default_get cache w = (Ok (cleared cache defaultVlan), w') ∧
    issued w' = issued w ++ clear_plan cache defaultVlan.
Proof.
  intros Hok. destruct (clear_ok cache w Hok) as (cache1 & w1 & Hclear).
  destruct (clear_completed _ _ _ _ Hclear) as (defaultVlan & -> & Hissued).
  by exists defaultVlan, w1.
Qed.

(** X18. A teardown right after a completed teardown deletes nothing
    again: it asks the hardware for the default VLAN, and the only thing
    it can delete is the VLAN the first teardown kept as the default
    VLAN, when the cache held it and the hardware now reports another
    default VLAN. *)
Theorem clear_twice (cache cache1 : BcmWarmBootCache) (w w1 : World) :
  clear sdk opennsl_vlan_default_get cache w = (Ok cache1, w1) →
  ∃ defaultVlan defaultVlan' again,
    issued w1 = issued w ++ clear_plan cache defaultVlan ∧
    issued (clear sdk opennsl_vlan_default_get cache1 w1).2 = issued w1 ++ again ∧
    ∀ op, op ∈ again →
      op = GetDefaultVlan defaultVlan' ∨
      (op = DelVlan defaultVlan ∧ defaultVlan ≠ defaultVlan' ∧
       is_Some (vlan2VlanInfo_ cache !! defaultVlan)).
Proof.
  intros (defaultVlan & -> & Hissued)%clear_completed.
  destruct (clear_runs sdk opennsl_vlan_default_get (cleared cache defaultVlan) w1)
    as (defaultVlan' & again & Hagain & Hprefix & _).
  exists defaultVlan, defaultVlan', again. split; [done|]. split; [done|].
  intros op Hop.
  assert (planned (cleared cache defaultVlan) defaultVlan' op) as Hplanned.
  { apply elem_of_clear_plan. destruct Hprefix as [rest ->].
    apply elem_of_app. by left. }
  destruct op as [k r|k r|k h|ids e|id|k i|v|v|v]; simpl in Hplanned;
    try (by rewrite lookup_empty in Hplanned).
  - destruct Hplanned as [e He]. by rewrite lookup_empty in He.
  - left. by subst.
  - right. destruct Hplanned as [Hne [info Hinfo]].
    apply map_lookup_filter_Some in Hinfo as [Hinfo Hdefault]. simpl in Hdefault.
    subst v. split; [done|]. split; [done|]. by eexists.
Qed.

(** X19. After a completed teardown the cache holds no discovered object
    except, possibly, the VLAN that the hardware reported as the default
    VLAN; the software state is gone, so [reconstructInterfaceMap] and
    [reconstructVlanMap] would dereference null; and the ECMP path map
    is empty, so with the populated flag set every path lookup returns
    the empty set. *)
Theorem after_teardown (cache cache1 : BcmWarmBootCache) (w w1 : World) :
  clear sdk opennsl_vlan_default_get cache w = (Ok cache1, w1) →
  (∀ x, discovered cache1 x →
     ∃ defaultVlan, x = VlanRef defaultVlan ∧ discovered cache x ∧
                    GetDefaultVlan defaultVlan ∈ issued w1) ∧
  reconstructInterfaceMap cache1 = Abort NullDeref ∧
  reconstructVlanMap cache1 = Abort NullDeref ∧
  (hwSwitchEcmp2EgressIdsPopulated_ cache = true →
   ∀ ecmp, getPathsForEcmp cache1 ecmp = Ok ∅).
Proof.
  intros (defaultVlan & -> & Hissued)%clear_completed.
  split; [|split; [done|split; [done|]]].
  - intros x Hx. exists defaultVlan.
    destruct x as [k|k|k|ids|id|k|v|v]; simpl in Hx;
      try (destruct Hx as [? Hx]; by rewrite lookup_empty in Hx).
    destruct Hx as [info Hinfo].
    apply map_lookup_filter_Some in Hinfo as [Hinfo Hdefault]. simpl in Hdefault.
    subst v. split; [done|]. split; [by eexists|].
    rewrite Hissued. apply elem_of_app. right. unfold clear_plan.
    do 7 (apply elem_of_app; right). apply elem_of_app. left. by left.
  - intros Hpopulated ecmp. by apply getPathsForEcmp_empty.
Qed.

Abbreviation FatalOnly m w :=
  (match (m w).1 with
   | Ok _ | Abort (LogFatal _) => True
   | _ => False
   end).

Lemma hw_bind_fatal_only {A B} (m : Hw (Unit := Unit) A) (k : A → Hw B) w :
  FatalOnly m w → (∀ a w', FatalOnly (k a) w') → FatalOnly (hw_bind m k) w.
Proof.
  intros Hm Hk. unfold hw_bind. destruct (m w) as [[a|e|f] w']; simpl in *; try done.
  apply Hk.
Qed.

Lemma del_fatal_only op call what w : FatalOnly (del sdk op call what) w.
Proof.
  unfold del. destruct (sdk call (hw_unit w)) as [rv u]. simpl.
  unfold bcmLogFatal. by destruct (OPENNSL_FAILURE rv).
Qed.

Lemma sweep_fatal_only {A} (body : A → Hw (Unit := Unit) unit) (l : list A) :
  (∀ x w, FatalOnly (body x) w) → ∀ w, FatalOnly (sweep body l) w.
Proof.
  intros Hbody. induction l as [|x l IH]; intros w; simpl; [done|].
  apply hw_bind_fatal_only; [apply Hbody|]. intros _ w'. apply IH.
Qed.

Lemma getDefaultVlan_fatal_only w :
  FatalOnly (getDefaultVlan opennsl_vlan_default_get) w.
Proof.
  unfold getDefaultVlan.
  destruct (opennsl_vlan_default_get (hw_unit w)) as [rv v].
  unfold bcmLogFatal. by destruct (OPENNSL_FAILURE rv).
Qed.

(** X20. The teardown never throws an exception and fails no CHECK: it
    either completes, leaving the cleared cache, or stops the process on
    a LOG(FATAL), and that only when some hardware call fails. *)
Theorem clear_fatal_only (cache : BcmWarmBootCache) (w : World) :
  match (clear sdk opennsl_vlan_default_get cache w).1 with
  | Ok cache' => ∃ defaultVlan, cache' = cleared cache defaultVlan
  | Abort (LogFatal _) => ¬ sdk_never_fails sdk opennsl_vlan_default_get
  | _ => False
  end.
Proof.
  assert (FatalOnly (clear sdk opennsl_vlan_default_get cache) w) as Honly.
  { unfold clear.
    repeat (apply hw_bind_fatal_only;
            [apply sweep_fatal_only; intros ? ?; by apply del_fatal_only|intros _ ?]).
    apply hw_bind_fatal_only.
    { apply sweep_fatal_only. intros [id [e claimed]] ?. simpl.
      destruct claimed; [done|by apply del_fatal_only]. }
    intros _ ?.
    repeat (apply hw_bind_fatal_only;
            [apply sweep_fatal_only; intros ? ?; by apply del_fatal_only|intros _ ?]).
    apply hw_bind_fatal_only; [by apply getDefaultVlan_fatal_only|].
    intros defaultVlan ?.
    apply hw_bind_fatal_only; [|done].
    apply sweep_fatal_only. intros [v info] ?. simpl.
    case_decide; [done|by apply del_fatal_only]. }
  destruct (clear sdk opennsl_vlan_default_get cache w) as [[cache1|e|f] w1] eqn:Hclear;
    simpl in *; [|done|].
  - destruct (clear_completed _ _ _ _ Hclear) as (defaultVlan & -> & _).
    by exists defaultVlan.
  - destruct f; try done. intros Hok.
    destruct (clear_ok cache w Hok) as (? & ? & Hc). by rewrite Hc in Hclear.
Qed.

End TeardownOutcome.

Section MoreExamples.
#[local] Existing Instance opennsl_consts.

(** The example file loads: the software state is there, and only the
    populated flag and the path map differ from the new cache. *)
Lemma loader_frame_witness :
  is_Some (dumpedSwSwitchState_ ex_loaded) ∧
  (hwSwitchEcmp2EgressIdsPopulated_ ex_new = true →
   hwSwitchEcmp2EgressIdsPopulated_ ex_loaded = true) ∧
  set_hwSwitchEcmp2EgressIds (λ _, hwSwitchEcmp2EgressIds_ ex_new)
    (set_hwSwitchEcmp2EgressIdsPopulated (hwSwitchEcmp2EgressIdsPopulated_ ex_new)
       (set_dumpedSwSwitchState (dumpedSwSwitchState_ ex_new) ex_loaded))
  = ex_new.
Proof.
  apply (loader_frame ex_str_to_int64 ex_uniquePtrFromFollyDynamic ex_file
           ex_new ex_loaded).
  vm_compute. reflexivity.
Defined.

(** The path map loaded from the example file, {5: {10, 11, 12}}. *)
Lemma loader_paths_wf_witness : paths_wf (hwSwitchEcmp2EgressIds_ ex_loaded).
Proof.
  apply (loader_paths_wf ex_str_to_int64 ex_uniquePtrFromFollyDynamic ex_file
           ex_new ex_loaded).
  - intros id ids Hid. vm_compute in Hid. discriminate.
  - vm_compute. reflexivity.
Defined.

(** The path map loaded from the example file comes back from the file
    written from it. *)
Lemma loaded_paths_reload_witness :
  ∃ cache',
    ex_load (warmBootFile d_null noEcmpHosts (toFollyDynamic ex_loaded)) = Ok cache' ∧
    hwSwitchEcmp2EgressIds_ cache' = hwSwitchEcmp2EgressIds_ ex_loaded.
Proof.
  apply (loaded_paths_reload ex_str_to_int64 ex_uniquePtrFromFollyDynamic
           ex_file d_null ex_state_neighbor ex_new ex_loaded ex_new).
  - reflexivity.
  - vm_compute. reflexivity.
  - vm_compute. reflexivity.
  - reflexivity.
  - reflexivity.
Defined.

(** The host 10.0.0.5 is found under (VRF 0, 10.0.0.5). *)
Lemma host_traverse_contents_witness :
  ∃ host', host' ∈ [ex_host5] ∧ host_key host' = host_key ex_host5 ∧
           vrfIp2Host_ ex_after_hosts !! host_key ex_host5 = Some host'.
Proof.
  apply (proj1 (proj2 (host_traverse_contents [ex_host5] ex_new))).
  by left.
Defined.

(** 10.0.0.5/32 is in the host-route map, 10.0.0.0/24 in the prefix-route
    map. *)
Lemma route_traverse_classified_witness :
  is_Some (vrfAndIP2Route_ (opennsl_l3_route_traverse [ex_route32; ex_route24] ex_new)
             !! (Route.l3a_vrf ex_route32, route_ip ex_route32)) ∧
  is_Some (vrfPrefix2Route_ (opennsl_l3_route_traverse [ex_route32; ex_route24] ex_new)
             !! (Route.l3a_vrf ex_route24, route_ip ex_route24, route_mask ex_route24)).
Proof.
  pose proof (proj2 (proj2 (route_traverse_classified [ex_route32; ex_route24] ex_new)))
    as Hall.
  split.
  - apply (Hall ex_route32); [by left|]. split; reflexivity.
  - apply (Hall ex_route24); [right; by left|].
    intros [Hfull _]. vm_compute in Hfull. discriminate.
Defined.

(** The egress traversal after the host traversal: 100003 is stored, 100001
    becomes the drop id and 100002 the to-CPU id. *)
Lemma egress_traverse_contents_witness :
  let hostIds := egressOrEcmpIdsFromHostTable_ ex_after_hosts in
  (∀ id eb, egressId2EgressAndBool_ ex_after_egresses !! id = Some eb ↔
     egressId2EgressAndBool_ ex_after_hosts !! id = Some eb ∨
     ∃ e, (id, e) ∈ ex_hw_egresses ∧ id ∈ hostIds ∧ eb = (e, false)) ∧
  (dropEgressId_ ex_after_egresses = dropEgressId_ ex_after_hosts ∨
   dropEgressId_ ex_after_hosts = INVALID ∧
   ∃ e, (dropEgressId_ ex_after_egresses, e) ∈ ex_hw_egresses ∧
        (dropEgressId_ ex_after_egresses ∉ hostIds) ∧
        drop_role (dropEgressId_ ex_after_egresses, e) = true) ∧
  (toCPUEgressId_ ex_after_egresses = toCPUEgressId_ ex_after_hosts ∨
   toCPUEgressId_ ex_after_hosts = INVALID ∧
   ∃ e, (toCPUEgressId_ ex_after_egresses, e) ∈ ex_hw_egresses ∧
        (toCPUEgressId_ ex_after_egresses ∉ hostIds) ∧
        to_cpu_role (toCPUEgressId_ ex_after_egresses, e) = true).
Proof.
  apply (egress_traverse_contents ex_hw_egresses ex_after_hosts ex_after_egresses).
  vm_compute. reflexivity.
Defined.

(** Without persisted paths, the group 5 is recorded under its two
    members and the group 6, which has none, is skipped. *)
Lemma ecmp_traverse_contents_witness :
  (∀ ids ecmp, egressIds2Ecmp_ ex_after_ecmps !! ids = Some ecmp ↔
     egressIds2Ecmp_ ex_new !! ids = Some ecmp ∨
     ∃ arr, (ecmp, arr) ∈ ex_hw_ecmps ∧ recorded_paths ex_new (ecmp, arr) = Some ids) ∧
  (∀ g ids, g ∈ ex_hw_ecmps → recorded_paths ex_new g = Some ids →
     ids ≠ ∅ ∧ egressIds2Ecmp_ ex_new !! ids = None) ∧
  (∀ i j g1 g2 ids, ex_hw_ecmps !! i = Some g1 → ex_hw_ecmps !! j = Some g2 →
     recorded_paths ex_new g1 = Some ids → recorded_paths ex_new g2 = Some ids →
     i = j).
Proof.
  apply (ecmp_traverse_contents ex_hw_ecmps ex_new ex_after_ecmps).
  vm_compute. reflexivity.
Defined.

(** The discovery on the example tables: all egress objects unclaimed. *)
Lemma populate_egress_unclaimed_witness :
  let hostIds : gset Z :=
    list_to_set (Host.l3a_intf <$> hw_hosts_v4 ex_hw ++ hw_hosts_v6 ex_hw)
    ∪ egressOrEcmpIdsFromHostTable_ ex_new in
  egressOrEcmpIdsFromHostTable_ ex_populated = ∅ ∧
  is_Some (dumpedSwSwitchState_ ex_populated) ∧
  (∀ id eb, egressId2EgressAndBool_ ex_populated !! id = Some eb ↔
     egressId2EgressAndBool_ ex_new !! id = Some eb ∨
     ∃ e, (id, e) ∈ hw_egresses ex_hw ∧ id ∈ hostIds ∧ eb = (e, false)) ∧
  (all_unclaimed ex_new → all_unclaimed ex_populated).
Proof.
  apply (populate_egress_unclaimed ex_not_found ex_vlanIntfID ex_str_to_int64
           ex_uniquePtrFromFollyDynamic ex_hw ex_file ex_new ex_populated).
  vm_compute. reflexivity.
Defined.

(** The discovery on the example tables: the listed VLAN 7 has an info. *)
Lemma populate_vlans_witness :
  is_Some (vlan2VlanInfo_ ex_populated
             !! getVlanId (vlan_tag {| vlan_tag := 7; port_bitmap := {[3%Z; 4%Z]} |})).
Proof.
  assert (populate ex_not_found ex_vlanIntfID ex_str_to_int64
            ex_uniquePtrFromFollyDynamic ex_hw ex_file ex_new = Ok ex_populated)
    as Hpopulate by (vm_compute; reflexivity).
  apply (proj1 (populate_vlans ex_not_found ex_vlanIntfID ex_str_to_int64
                  ex_uniquePtrFromFollyDynamic ex_hw ex_file ex_new ex_populated
                  Hpopulate)).
  by left.
Defined.

(** The interface of VLAN 7, with its name from the snapshot. *)
Lemma reconstructInterfaceMap_contents_witness :
  (∀ id i, ex_intfMap !! id = Some i →
     ∃ k bcmIntf dumped dumpedInterface,
       vlanAndMac2Intf_ (ex_with_snapshot ex_state_neighbor) !! k = Some bcmIntf ∧
       L3Intf.l3a_vid bcmIntf = id ∧
       getInterfaces ex_state_neighbor = Some dumped ∧
       dumped !! id = Some dumpedInterface ∧
       i = reconstructedInterface k bcmIntf dumpedInterface) ∧
  (∀ k bcmIntf,
     vlanAndMac2Intf_ (ex_with_snapshot ex_state_neighbor) !! k = Some bcmIntf →
     is_Some (ex_intfMap !! L3Intf.l3a_vid bcmIntf)).
Proof.
  apply (reconstructInterfaceMap_contents (ex_with_snapshot ex_state_neighbor)
           ex_state_neighbor ex_intfMap).
  - reflexivity.
  - vm_compute. reflexivity.
Defined.

(** VLAN 7 of the example cache: port 3 untagged, port 4 tagged. *)
Lemma fillVlanPortInfo_ports_witness :
  ∃ vlan', fillVlanPortInfo ex_discovered (newVlan 7 "") = (true, vlan') ∧
    setPorts (vl_ports (newVlan 7 "")) vlan' = newVlan 7 "" ∧
    ∀ p, vl_ports vlan' !! p = memberPortsOf ex_vlaninfo7 p.
Proof. exact (fillVlanPortInfo_ports ex_discovered (newVlan 7 "")). Defined.

(** The reconstructed VLANs of the example cache are its VLAN 7. *)
Lemma reconstructVlanMap_vlans_witness :
  (∀ V, vlan2VlanInfo_ (ex_with_snapshot ex_state_neighbor) !! V = None →
        ex_reconstructed ex_state_neighbor !! V = None) ∧
  (∀ V info, vlan2VlanInfo_ (ex_with_snapshot ex_state_neighbor) !! V = Some info →
     ∃ vlan, ex_reconstructed ex_state_neighbor !! V = Some vlan ∧
       vl_id vlan = V ∧ vl_name vlan = "" ∧ vl_intf vlan = intfID info ∧
       ∀ p, vl_ports vlan !! p = memberPortsOf info p).
Proof.
  apply (reconstructVlanMap_vlans (ex_with_snapshot ex_state_neighbor)
           (ex_reconstructed ex_state_neighbor)).
  vm_compute. reflexivity.
Defined.

(** The neighbors of the reconstructed VLAN 7 come from host entries. *)
Lemma reconstructVlanMap_neighbors_witness :
  (∀ a e, getArpTable ex_vlan7 !! a = Some e →
          neighbor_from_host (ex_with_snapshot ex_state_neighbor) 7 (IPAddressV4 a) e) ∧
  (∀ a e, getNdpTable ex_vlan7 !! a = Some e →
          neighbor_from_host (ex_with_snapshot ex_state_neighbor) 7 (IPAddressV6 a) e).
Proof.
  apply (reconstructVlanMap_neighbors (ex_with_snapshot ex_state_neighbor)
           (ex_reconstructed ex_state_neighbor) ltac:(vm_compute; reflexivity)
           7%Z ex_vlan7).
  vm_compute. reflexivity.
Defined.

(** The host 10.0.0.5, which the snapshot lists in VLAN 7, is a neighbor
    of the reconstructed VLAN 7. *)
Lemma reconstructVlanMap_promotes_all_witness :
  ∃ vlan, ex_reconstructed ex_state_neighbor !! Egress.vlan ex_egress3 = Some vlan ∧
          is_Some (vlan2VlanInfo_ (ex_with_snapshot ex_state_neighbor)
                     !! Egress.vlan ex_egress3) ∧
          has_neighbor (IPAddressV4 167772165) (getArpTable vlan) (getNdpTable vlan).
Proof.
  apply (reconstructVlanMap_promotes_all (ex_with_snapshot ex_state_neighbor)
           ex_state_neighbor (ex_reconstructed ex_state_neighbor)
           eq_refl ltac:(vm_compute; reflexivity)
           0%Z (IPAddressV4 167772165) ex_host5 ex_egress3 false).
  - vm_compute. reflexivity.
  - vm_compute. reflexivity.
  - intros Heq. vm_compute in Heq. discriminate.
  - exists (ex_dumped_vlan7 {[167772165%Z := ex_neighbor5]}).
    split; [reflexivity|]. exists ex_neighbor5. reflexivity.
Defined.

(** After the discovery on the example tables no port is tagged. *)
Lemma populate_ports_untagged_witness :
  (∀ vlan vlan' p tagged,
     fillVlanPortInfo ex_populated vlan = (true, vlan') →
     vl_ports vlan' !! p = Some tagged → tagged = false) ∧
  (∀ vlans V vlan p tagged,
     reconstructVlanMap ex_populated = Ok vlans → vlans !! V = Some vlan →
     vl_ports vlan !! p = Some tagged → tagged = false).
Proof.
  apply (populate_ports_untagged ex_not_found ex_vlanIntfID ex_str_to_int64
           ex_uniquePtrFromFollyDynamic ex_hw ex_file ex_new ex_populated).
  - reflexivity.
  - vm_compute. reflexivity.
Defined.

(** The ids 11, 10 and 9 are printed in increasing order. *)
Lemma toEgressIdsStr_joined_witness :
  toEgressIdsStr pretty ({[11%Z; 10%Z; 9%Z]} : gset Z) = "9, 10, 11".
Proof.
  rewrite (proj1 (toEgressIdsStr_joined pretty {[11%Z; 10%Z; 9%Z]})).
  vm_compute. reflexivity.
Defined.

(** On the unit of the examples, where no call fails, the teardown of the
    example cache completes. *)
Lemma clear_completes_witness :
  ∃ defaultVlan w',
    clear ex_sdk ex_vlan_default_get ex_teardown ex_world
      = (Ok (cleared ex_teardown defaultVlan), w') ∧
    issued w' = issued ex_world ++ clear_plan ex_teardown defaultVlan.
Proof.
  apply (clear_completes ex_sdk ex_vlan_default_get ex_teardown ex_world).
  split; intros; reflexivity.
Defined.

(** A second teardown of the example cache. *)
Lemma clear_twice_witness :
  ∃ defaultVlan defaultVlan' again,
    issued ex_world_after = issued ex_world ++ clear_plan ex_teardown defaultVlan ∧
    issued (clear ex_sdk ex_vlan_default_get ex_torn_down ex_world_after).2
      = issued ex_world_after ++ again ∧
    ∀ op, op ∈ again →
      op = GetDefaultVlan defaultVlan' ∨
      (op = DelVlan defaultVlan ∧ defaultVlan ≠ defaultVlan' ∧
       is_Some (vlan2VlanInfo_ ex_teardown !! defaultVlan)).
Proof.
  apply (clear_twice ex_sdk ex_vlan_default_get ex_teardown ex_torn_down
           ex_world ex_world_after).
  vm_compute. reflexivity.
Defined.

(** The example cache after its teardown. *)
Lemma after_teardown_witness :
  (∀ x, discovered ex_torn_down x →
     ∃ defaultVlan, x = VlanRef defaultVlan ∧ discovered ex_teardown x ∧
                    GetDefaultVlan defaultVlan ∈ issued ex_world_after) ∧
  reconstructInterfaceMap ex_torn_down = Abort NullDeref ∧
  reconstructVlanMap ex_torn_down = Abort NullDeref ∧
  (hwSwitchEcmp2EgressIdsPopulated_ ex_teardown = true →
   ∀ ecmp, getPathsForEcmp ex_torn_down ecmp = Ok ∅).
Proof.
  apply (after_teardown ex_sdk ex_vlan_default_get ex_teardown ex_torn_down
           ex_world ex_world_after).
  vm_compute. reflexivity.
Defined.

(** The outcome of the teardown of the example cache. *)
Lemma clear_fatal_only_witness :
  match (clear ex_sdk ex_vlan_default_get ex_teardown ex_world).1 with
  | Ok cache' => ∃ defaultVlan, cache' = cleared ex_teardown defaultVlan
  | Abort (LogFatal _) => ¬ sdk_never_fails ex_sdk ex_vlan_default_get
  | _ => False
  end.
Proof. exact (clear_fatal_only ex_sdk ex_vlan_default_get ex_teardown ex_world). Defined.

End MoreExamples.
